(** * Precipitation monitoring: the spreadsheet merge of the collectors

    Shallow embedding of the persistence code of the two collectors of this
    repository:

    - [PrecipitationDataExtractor] (WeatherAPI.com), whose
      [save_precipitation_data] merges a dictionary of freshly fetched tables
      into the workbook kept on disk, and whose [extract_precipitation_data]
      assembles that dictionary;
    - [WeatherDataExtractor] (AccuWeather), whose [process_data] normalizes
      the hourly payload and whose [save_to_excel] appends the records that
      are new to the sheet [Dados_Completos].

    Tables are pandas data frames.  A frame is modelled by its column labels
    and its rows, a row being a finite map from labels to cells: a label
    without a binding is a missing value (NaN).  Library calls whose result
    depends on the platform ([pd.to_datetime], [os.path.dirname], the
    statistics sheet of the AccuWeather workbook) are fields of the class
    [Platform]; one concrete instance is given for the examples.

    The requests to the providers are not modelled: the query functions
    are given the answers (a [provider]), and dates are the day numbers of
    a [Calendar].  The timed loop [run_automated], the menu and the
    background thread are left out. *)

From Stdlib Require Import QArith Qround Ascii Lqa.
From stdpp Require Import gmap strings list fin_maps sorting.

Open Scope string_scope.
Open Scope list_scope.

(** ** Exceptions *)

Inductive exn :=
  | KeyError | TypeError | ValueError | AttributeError
  | IndexError | FileNotFoundError | OSError.

Inductive result (A : Type) :=
  | OK (a : A)
  | Raise (e : exn).
Arguments OK {A} a.
Arguments Raise {A} e.

#[global] Instance exn_eq_dec : EqDecision exn.
Proof. solve_decision. Defined.
#[global] Instance result_eq_dec {A} `{EqDecision A} : EqDecision (result A).
Proof. solve_decision. Defined.

#[global] Instance result_ret : MRet result := fun A a => OK a.
#[global] Instance result_bind : MBind result := fun A B k m =>
  match m with
  | OK a => k a
  | Raise e => Raise e
  end.

Fixpoint mapM_result {A B} (f : A → result B) (l : list A) : result (list B) :=
  match l with
  | [] => OK []
  | a :: l' => b ← f a; bs ← mapM_result f l'; OK (b :: bs)
  end.

Definition is_ok {A} (m : result A) : Prop := ∃ a, m = OK a.

(** ** Cells, rows and data frames *)

(** A cell holds text, a number, a boolean, or some nested object (a list or
    a dictionary taken over from a payload).  Numbers are the rationals the
    floats denote. *)
Inductive cell :=
  | Str (s : string)
  | Num (q : Q)
  | Bool (b : bool)
  | Obj.

#[global] Instance Q_eq_dec : EqDecision Q.
Proof. solve_decision. Defined.
#[global] Instance cell_eq_dec : EqDecision cell.
Proof. solve_decision. Defined.

Abbreviation row := (gmap string cell).

Record DataFrame := mkDataFrame {
  columns : list string;
  rows : list row
}.

#[global] Instance DataFrame_eq_dec : EqDecision DataFrame.
Proof. solve_decision. Defined.

(** [pd.DataFrame()] *)
Definition empty_frame : DataFrame := mkDataFrame [] [].

(** [df.empty]: some axis has length zero. *)
Definition empty (df : DataFrame) : bool :=
  match columns df, rows df with
  | [], _ | _, [] => true
  | _, _ => false
  end.

(** [c in df.columns] *)
Definition has_column (c : string) (df : DataFrame) : bool :=
  bool_decide (c ∈ columns df).

(** [pd.concat([a, b], ignore_index=True)]: the rows of [a] followed by those
    of [b]; the labels of [a] followed by the labels only [b] has. *)
Definition concat (a b : DataFrame) : DataFrame :=
  mkDataFrame
    (columns a ++ filter (fun c => c ∉ columns a) (columns b))
    (rows a ++ rows b).

(** *** [drop_duplicates(subset=..., keep='last')] *)

Definition subset_key (subset : list string) (r : row) : list (option cell) :=
  (fun c => r !! c) <$> subset.

(** Nested objects cannot be hashed: pandas raises [TypeError] on a key
    column that holds one. *)
Definition hashable (k : list (option cell)) : bool :=
  forallb (fun c => match c with Some Obj => false | _ => true end) k.

Fixpoint keep_last (subset : list string) (l : list row) : list row :=
  match l with
  | [] => []
  | r :: rest =>
      if bool_decide (subset_key subset r ∈ subset_key subset <$> rest)
      then keep_last subset rest
      else r :: keep_last subset rest
  end.

Definition drop_duplicates (subset : list string) (df : DataFrame)
  : result DataFrame :=
  if forallb (fun r => hashable (subset_key subset r)) (rows df)
  then OK (mkDataFrame (columns df) (keep_last subset (rows df)))
  else Raise TypeError.

(** *** [sort_values]

    The rows are ordered by a key computed for each of them, missing keys
    last.  The order pandas gives to rows with equal keys is not fixed by
    its default sorting kind; nothing below depends on it. *)

Definition key_le {K} (le : K → K → bool) (a b : option K) : bool :=
  match a, b with
  | Some x, Some y => le x y
  | _, None => true
  | None, Some _ => false
  end.

Definition keyed_le {K} (le : K → K → bool) : relation (option K * row) :=
  fun a b => key_le le a.1 b.1 = true.

#[global] Instance keyed_le_dec {K} (le : K → K → bool) a b :
  Decision (keyed_le le a b).
Proof. unfold keyed_le. apply _. Defined.

Definition sort_rows {K} (le : K → K → bool)
    (key : row → result (option K)) (l : list row) : result (list row) :=
  ks ← mapM_result key l;
  OK ((merge_sort (keyed_le le) (zip ks l)).*2).

(** The key of [sort_values('data')]: the date text.  A column that mixes
    text with other values cannot be compared; date columns hold text. *)
Definition date_key (r : row) : result (option string) :=
  match r !! "data" with
  | None => OK None
  | Some (Str s) => OK (Some s)
  | Some _ => Raise TypeError
  end.

Definition sort_values_data (df : DataFrame) : result DataFrame :=
  rs ← sort_rows String.leb date_key (rows df);
  OK (mkDataFrame (columns df) rs).

(** ** Payloads

    The parsed JSON a provider answers with, as the Python value
    [response.json()] returns. *)

#[local] Unset Elimination Schemes.
Inductive json :=
  | JNull
  | JBool (b : bool)
  | JNum (q : Q)
  | JStr (s : string)
  | JList (l : list json)
  | JDict (d : list (string * json)).
#[local] Set Elimination Schemes.

(** ** Platform *)

Class Platform := {
  (** [pd.to_datetime] on one text, as an instant; [None] when it raises *)
  to_datetime : string → option Z;
  (** [os.path.dirname] *)
  dirname : string → string;
  (** the statistics sheet written by [WeatherDataExtractor.save_to_excel] *)
  estatisticas : DataFrame → result DataFrame;
  (** [pd.to_datetime(v)] followed by [strftime('%Y-%m-%d')] and
      [strftime('%H:%M:%S')]; [None] when one of the three raises *)
  strftime_date_time : json → option (cell * cell)
}.

(** ** Dictionaries in insertion order *)

Abbreviation dict V := (list (string * V)).

Fixpoint dict_get {V} (k : string) (d : dict V) : option V :=
  match d with
  | [] => None
  | (k', v) :: d' => if bool_decide (k' = k) then Some v else dict_get k d'
  end.

(** [d[k] = v]: an existing key keeps its place. *)
Fixpoint dict_set {V} (k : string) (v : V) (d : dict V) : dict V :=
  match d with
  | [] => [(k, v)]
  | (k', v') :: d' =>
      if bool_decide (k' = k) then (k, v) :: d' else (k', v') :: dict_set k v d'
  end.

(** ** The merge of [save_precipitation_data] *)

Section merge.
Context `{Platform}.

(** The helper column [datetime_temp]:
    [pd.to_datetime(df['data'] + ' ' + df['hora'])].  Adding texts skips the
    entries where one side is missing, which become NaT; a text that is not
    a date raises.  With [errors='coerce'] such a text becomes NaT too. *)
Definition datetime_key (coerce : bool) (r : row) : result (option Z) :=
  match r !! "data", r !! "hora" with
  | None, _ => OK None
  | Some (Str _), None => OK None
  | Some (Str d), Some (Str h) =>
      match to_datetime (d ++ " " ++ h) with
      | Some t => OK (Some t)
      | None => if coerce then OK None else Raise ValueError
      end
  | Some _, _ => Raise TypeError
  end.

(** The three statements that add [datetime_temp], sort by it and drop it
    again.  Tables are taken not to carry a column of that name. *)
Definition sort_values_datetime (df : DataFrame) : result DataFrame :=
  rs ← sort_rows Z.leb (datetime_key false) (rows df);
  OK (mkDataFrame (columns df) rs).

Definition summary_sheet : string := "Resumo_Precipitacao".

(** The body of the loop over [dataframes_dict.items()]. *)
Definition merge_sheet (existing_data : dict DataFrame)
    (sheet_name : string) (new_df : DataFrame) : result DataFrame :=
  match dict_get sheet_name existing_data with
  | Some existing_df =>
      if negb (empty existing_df) then
        if bool_decide (sheet_name = summary_sheet) then OK new_df
        else if has_column "data" new_df && has_column "hora" new_df
                && has_column "data" existing_df
                && has_column "hora" existing_df then
          combined_df ← drop_duplicates ["data"; "hora"]
                           (concat existing_df new_df);
          sort_values_datetime combined_df
        else if has_column "data" new_df && has_column "data" existing_df then
          combined_df ← drop_duplicates ["data"] (concat existing_df new_df);
          sort_values_data combined_df
        else
          let combined_df := concat existing_df new_df in
          if has_column "data" combined_df && has_column "hora" combined_df
          then sort_values_datetime combined_df
          else if has_column "data" combined_df
          then sort_values_data combined_df
          else OK combined_df
      else OK new_df
  | None => OK new_df
  end.

Fixpoint combine (existing_data : dict DataFrame)
    (items : dict DataFrame) (combined_data : dict DataFrame)
  : result (dict DataFrame) :=
  match items with
  | [] => OK combined_data
  | (sheet_name, new_df) :: items' =>
      df ← merge_sheet existing_data sheet_name new_df;
      combine existing_data items' (dict_set sheet_name df combined_data)
  end.

End merge.

(** ** The store *)

(** A sheet either parses to a frame or makes [pd.read_excel] raise; a file
    either is a workbook or makes [pd.ExcelFile] raise.  The encoding of
    cells in the spreadsheet is left out: a sheet reads back as the frame
    that was written. *)
Inductive sheet :=
  | Parsed (df : DataFrame)
  | Garbled.

Inductive file :=
  | Workbook (sheets : dict sheet)
  | Unreadable.

Abbreviation filesystem := (gmap string file).

(** The loop [existing_data[sheet_name] = pd.read_excel(xls, sheet_name)]. *)
Fixpoint read_sheets (sheets : dict sheet) (existing_data : dict DataFrame)
  : result (dict DataFrame) :=
  match sheets with
  | [] => OK existing_data
  | (sheet_name, Parsed df) :: sheets' =>
      read_sheets sheets' (dict_set sheet_name df existing_data)
  | (_, Garbled) :: _ => Raise ValueError
  end.

(** The inner [try] of [save_precipitation_data]: any exception while
    reading resets [existing_data] to the empty dictionary. *)
Definition read_existing (f : file) : dict DataFrame :=
  match f with
  | Workbook sheets =>
      match read_sheets sheets [] with
      | OK existing_data => existing_data
      | Raise _ => []
      end
  | Unreadable => []
  end.

(** The workbook whose sheets are the given frames. *)
Definition workbook_of (frames : dict DataFrame) : file :=
  Workbook (prod_map id Parsed <$> frames).

(** [with pd.ExcelWriter(filename, engine='openpyxl') as writer]: one sheet
    for each frame that is not empty.  The writer truncates the target when
    it opens it, and openpyxl refuses to save a workbook without a sheet. *)
Definition excel_write (fs : filesystem) (filename : string)
    (dataframes_dict : dict DataFrame) : result () * filesystem :=
  match filter (fun e => empty e.2 = false) dataframes_dict with
  | [] => (Raise IndexError, <[filename := Unreadable]> fs)
  | written => (OK (), <[filename := workbook_of written]> fs)
  end.

Inductive outcome := Saved | BackupSaved | BackupFailed.

Section save.
Context `{Platform}.

(** The outer [try] block: the result, the file system it leaves, and the
    value of the variable [dataframes_dict] at that point. *)
Definition save_attempt (fs : filesystem) (dataframes_dict : dict DataFrame)
    (filename : string) : result () * filesystem * dict DataFrame :=
  if bool_decide (dirname filename = "")
  then (Raise FileNotFoundError, fs, dataframes_dict)
  else
    match fs !! filename with
    | Some f =>
        match combine (read_existing f) dataframes_dict [] with
        | OK combined_data =>
            (excel_write fs filename combined_data, combined_data)
        | Raise e => (Raise e, fs, dataframes_dict)
        end
    | None => (excel_write fs filename dataframes_dict, dataframes_dict)
    end.

(** [save_precipitation_data(dataframes_dict, filename)];
    [backup_filename] is the name built from the clock in the handler. *)
Definition save_precipitation_data (fs : filesystem)
    (dataframes_dict : dict DataFrame) (filename backup_filename : string)
  : outcome * filesystem :=
  match save_attempt fs dataframes_dict filename with
  | (OK _, fs', _) => (Saved, fs')
  | (Raise _, fs', dataframes_dict') =>
      match excel_write fs' backup_filename dataframes_dict' with
      | (OK _, fs'') => (BackupSaved, fs'')
      | (Raise _, fs'') => (BackupFailed, fs'')
      end
  end.

End save.

(** ** The summary sheet *)

(** A number as arithmetic on a column sees it; text cannot take part. *)
Definition cell_number (c : cell) : result Q :=
  match c with
  | Num q => OK q
  | Bool b => OK (if b then 1 else 0)%Q
  | Str _ | Obj => Raise TypeError
  end.

(** [round(x, 2)], to the nearest hundredth, ties to even.  Amounts are
    exact rationals here; those of the code are binary floating point
    numbers, whose sum and mean are themselves rounded. *)
Definition round_half_even (q : Q) : Z :=
  let f := Qfloor q in
  match (q - inject_Z f ?= 1 # 2)%Q with
  | Lt => f
  | Gt => (f + 1)%Z
  | Eq => if Z.even f then f else (f + 1)%Z
  end.

Definition round2 (q : Q) : Q :=
  Qred (inject_Z (round_half_even (q * 100)) / 100).

Definition Qsum (l : list Q) : Q := Qred (foldr Qplus 0%Q l).
Definition Qmean (l : list Q) : Q :=
  Qred (Qsum l / inject_Z (Z.of_nat (length l))).
Definition Qmaximum (l : list Q) : Q :=
  foldr (fun a b => if Qle_bool b a then a else b) (hd 0%Q l) l.
Definition Qminimum (l : list Q) : Q :=
  foldr (fun a b => if Qle_bool a b then a else b) (hd 0%Q l) l.

(** The values of the rows selected by
    [df['precipitacao_mm'].notna() & (df['precipitacao_mm'] > 0)]. *)
Fixpoint rainy_values (l : list row) : result (list Q) :=
  match l with
  | [] => OK []
  | r :: l' =>
      match r !! "precipitacao_mm" with
      | None => rainy_values l'
      | Some c =>
          q ← cell_number c;
          qs ← rainy_values l';
          OK (if Qle_bool q 0 then qs else q :: qs)
      end
  end.

Definition metricas : list string :=
  ["Dias com dados"; "Dias com chuva"; "Precipitação total (mm)";
   "Precipitação média (mm)"; "Precipitação máxima (mm)";
   "Precipitação mínima (mm)"].

Definition summary_frame (valor : list Q) : DataFrame :=
  mkDataFrame ["metrica"; "valor"]
    (zip_with (fun m v => {[ "metrica" := Str m; "valor" := Num v ]})
       metricas valor).

Definition Qlen {A} (l : list A) : Q := inject_Z (Z.of_nat (length l)).

(** [create_precipitation_summary(df)] *)
Definition create_precipitation_summary (df : DataFrame) : result DataFrame :=
  if empty df then OK empty_frame
  else if negb (has_column "precipitacao_mm" df) then Raise KeyError
  else
    precip_data ← rainy_values (rows df);
    match precip_data with
    | [] => OK (summary_frame [Qlen (rows df); 0; 0; 0; 0; 0]%Q)
    | _ =>
        OK (summary_frame
              [Qlen (rows df); Qlen precip_data;
               round2 (Qsum precip_data); round2 (Qmean precip_data);
               round2 (Qmaximum precip_data); round2 (Qminimum precip_data)])
    end.

(** ** One cycle of [extract_precipitation_data]

    The part that follows the three queries: the daily table, the summary,
    the dictionary of sheets, the call of [save_precipitation_data]. *)

Definition sorted_if_dated (df : DataFrame) : result DataFrame :=
  if negb (empty df) && has_column "data" df
  then sort_values_data df else OK df.

Definition concat3 (a b c : DataFrame) : DataFrame := concat (concat a b) c.

Definition dataframes_of
    (historical_df current_df forecast_df hourly_df : DataFrame)
  : result (dict DataFrame) :=
  all_daily_data ← sorted_if_dated
                      (concat3 historical_df current_df forecast_df);
  summary_df ← create_precipitation_summary all_daily_data;
  historical_sorted ← sorted_if_dated historical_df;
  forecast_sorted ← sorted_if_dated forecast_df;
  let dataframes :=
    [("Resumo_Precipitacao", summary_df);
     ("Dados_Diarios", all_daily_data);
     ("Dados_Historicos", historical_sorted);
     ("Dados_Atuais", current_df);
     ("Previsao_Precipitacao", forecast_sorted)] in
  OK (if negb (empty hourly_df)
      then dict_set "Dados_Horarios" hourly_df dataframes
      else dataframes).

Section cycle.
Context `{Platform}.

(** An exception of the assembly is not handled: the cycle stops before
    anything is saved. *)
Definition extract_precipitation_data (fs : filesystem)
    (historical_df current_df forecast_df hourly_df : DataFrame)
    (filename backup_filename : string)
  : result (dict DataFrame * (outcome * filesystem)) :=
  dataframes ← dataframes_of historical_df current_df forecast_df hourly_df;
  OK (dataframes,
      save_precipitation_data fs dataframes filename backup_filename).

End cycle.

(** ** Python values *)

(** Truth value of a payload, as [if not data] tests it. *)
Definition truthy (v : json) : bool :=
  match v with
  | JNull => false
  | JBool b => b
  | JNum q => negb (Qeq_bool q 0)
  | JStr s => negb (bool_decide (s = ""))
  | JList l => match l with [] => false | _ => true end
  | JDict d => match d with [] => false | _ => true end
  end.

(** [v[k]] for a text key. *)
Definition subscript (v : json) (k : string) : result json :=
  match v with
  | JDict d =>
      match dict_get k d with
      | Some x => OK x
      | None => Raise KeyError
      end
  | _ => Raise TypeError
  end.

(** [v[0]] *)
Definition subscript0 (v : json) : result json :=
  match v with
  | JList (x :: _) => OK x
  | JList [] => Raise IndexError
  | JStr (String a _) => OK (JStr (String a ""))
  | JStr "" => Raise IndexError
  | JDict _ => Raise KeyError
  | _ => Raise TypeError
  end.

(** [v.get(k, default)] *)
Definition get (v : json) (k : string) (dflt : json) : result json :=
  match v with
  | JDict d => OK (default dflt (dict_get k d))
  | _ => Raise AttributeError
  end.

(** The items a [for] loop over the value visits. *)
Definition iterate (v : json) : result (list json) :=
  match v with
  | JList l => OK l
  | JDict d => OK (JStr <$> d.*1)
  | JStr s => OK ((fun a => JStr (String a "")) <$> String.list_ascii_of_string s)
  | _ => Raise TypeError
  end.

(** A payload value stored in a frame; [None] is missing. *)
Definition cell_of_json (v : json) : option cell :=
  match v with
  | JNull => None
  | JBool b => Some (Bool b)
  | JNum q => Some (Num q)
  | JStr s => Some (Str s)
  | JList _ | JDict _ => Some Obj
  end.

(** [round(v, 2)] *)
Definition round_json (v : json) : result (option cell) :=
  match v with
  | JNum q => OK (Some (Num (round2 q)))
  | JBool b => OK (Some (Num (if b then 1 else 0)))
  | _ => Raise TypeError
  end.

(** ** Records and [pd.DataFrame(records)] *)

Abbreviation record := (dict (option cell)).

Definition row_of_record (rec : record) : row :=
  foldr (fun e r => match e.2 with Some c => <[e.1 := c]> r | None => r end)
    ∅ rec.

Definition add_labels (ls cols : list string) : list string :=
  cols ++ filter (fun c => c ∉ cols) (remove_dups ls).

Definition frame_of_records (recs : list record) : DataFrame :=
  mkDataFrame (foldl (fun cols rec => add_labels rec.*1 cols) [] recs)
    (row_of_record <$> recs).

(** ** The normalizers *)

Definition cell_field (v : json) (k : string) : result (option cell) :=
  x ← subscript v k; OK (cell_of_json x).

(** [format_current_precipitation(data)]; the two texts are
    [datetime.now()] in the formats of the columns [timestamp] and [data]. *)
Definition format_current_precipitation (now_timestamp now_date : string)
    (data : json) : result DataFrame :=
  if negb (truthy data) then OK empty_frame
  else
    current ← subscript data "current";
    location ← subscript data "location";
    cidade ← cell_field location "name";
    precip_mm ← cell_field current "precip_mm";
    precip_in ← cell_field current "precip_in";
    humidity ← cell_field current "humidity";
    cloud ← cell_field current "cloud";
    condition ← subscript current "condition";
    text ← cell_field condition "text";
    OK (frame_of_records
          [[("timestamp", Some (Str now_timestamp));
            ("data", Some (Str now_date));
            ("cidade", cidade);
            ("precipitacao_mm", precip_mm);
            ("precipitacao_in", precip_in);
            ("umidade_percent", humidity);
            ("nuvens_percent", cloud);
            ("condicao_tempo", text);
            ("chance_chuva", Some (Str "N/A"));
            ("tipo_dados", Some (Str "Atual"))]]).

(** The body of the loop of [format_forecast_precipitation]. *)
Definition forecast_record (location day : json) : result record :=
  day_data ← subscript day "day";
  date ← cell_field day "date";
  cidade ← cell_field location "name";
  precip_mm ← cell_field day_data "totalprecip_mm";
  precip_in ← cell_field day_data "totalprecip_in";
  humidity ← cell_field day_data "avghumidity";
  condition ← subscript day_data "condition";
  text ← cell_field condition "text";
  chance ← get day_data "daily_chance_of_rain" (JNum 0);
  OK [("data", date);
      ("cidade", cidade);
      ("precipitacao_mm", precip_mm);
      ("precipitacao_in", precip_in);
      ("umidade_percent", humidity);
      ("nuvens_percent", Some (Str "N/A"));
      ("condicao_tempo", text);
      ("chance_chuva", cell_of_json chance);
      ("tipo_dados", Some (Str "Previsão"))].

(** [format_forecast_precipitation(data)] *)
Definition format_forecast_precipitation (data : json) : result DataFrame :=
  if negb (truthy data) then OK empty_frame
  else
    location ← subscript data "location";
    forecast ← subscript data "forecast";
    forecastday ← subscript forecast "forecastday";
    days ← iterate forecastday;
    precipitation_list ← mapM_result (forecast_record location) days;
    OK (frame_of_records precipitation_list).

(** The body of the loop of [format_historical_precipitation]. *)
Definition historical_record (data : json) : result record :=
  location ← subscript data "location";
  forecast ← subscript data "forecast";
  forecastday ← subscript forecast "forecastday";
  forecast_day ← subscript0 forecastday;
  day_data ← subscript forecast_day "day";
  date ← cell_field forecast_day "date";
  cidade ← cell_field location "name";
  precip_mm ← cell_field day_data "totalprecip_mm";
  precip_in ← cell_field day_data "totalprecip_in";
  condition ← subscript day_data "condition";
  text ← cell_field condition "text";
  OK [("data", date);
      ("cidade", cidade);
      ("precipitacao_mm", precip_mm);
      ("precipitacao_in", precip_in);
      ("nuvens_percent", Some (Str "N/A"));
      ("condicao_tempo", text);
      ("chance_chuva", Some (Str "N/A"));
      ("tipo_dados", Some (Str "Histórico"))].

(** [format_historical_precipitation(data_list)] *)
Definition format_historical_precipitation (data_list : json)
  : result DataFrame :=
  if negb (truthy data_list) then OK empty_frame
  else
    items ← iterate data_list;
    precipitation_list ← mapM_result historical_record items;
    OK (frame_of_records precipitation_list).

Section accuweather.
Context `{Platform}.

(** The date and the time of day of an item: the [if] on [datetime_str]
    with its [try] block. *)
Definition format_datetime (datetime_str : json) : option cell * option cell :=
  if truthy datetime_str then
    match strftime_date_time datetime_str with
    | Some (d, h) => (Some d, Some h)
    | None => (Some (Str ""), Some (Str ""))
    end
  else (Some (Str ""), Some (Str "")).

(** The body of the loop of [process_data]. *)
Definition process_item (item : json) : result record :=
  datetime_str ← get item "DateTime" (JStr "");
  let formatted := format_datetime datetime_str in
  liquid ← get item "TotalLiquid" JNull;
  total_liquid ←
    (if truthy liquid then
       tl ← get item "TotalLiquid" (JDict []);
       get tl "Value" (JNum 0)
     else OK (JNum 0));
  precipitacao ← round_json total_liquid;
  humidity ← get item "RelativeHumidity" (JNum 0);
  cloud ← get item "CloudCover" (JNum 0);
  phrase ← get item "IconPhrase" (JStr "");
  chance ← get item "PrecipitationProbability" (JNum 0);
  has ← get item "HasPrecipitation" (JBool false);
  OK [("data", formatted.1);
      ("hora", formatted.2);
      ("precipitacao_mm", precipitacao);
      ("umidade_percent", cell_of_json humidity);
      ("nuvens_percent", cell_of_json cloud);
      ("condicao_tempo", cell_of_json phrase);
      ("chance_chuva", cell_of_json chance);
      ("HasPrecipitation", cell_of_json has)].

(** [process_data(data)] *)
Definition process_data (data : json) : result (list record) :=
  if negb (truthy data) then OK []
  else items ← iterate data; mapM_result process_item items.

End accuweather.

(** ** [WeatherDataExtractor.save_to_excel] *)

Definition column_order : list string :=
  ["data"; "hora"; "precipitacao_mm"; "umidade_percent"; "nuvens_percent";
   "condicao_tempo"; "chance_chuva"; "HasPrecipitation"].

(** [df[column_order]]: the listed columns, all of which must exist. *)
Definition select_columns (cols : list string) (df : DataFrame)
  : result DataFrame :=
  if forallb (fun c => has_column c df) cols
  then OK (mkDataFrame cols
             ((filter (fun kv => kv.1 ∈ cols)) <$> rows df))
  else Raise KeyError.

(** [df['data'] + ' ' + df['hora']] needs both columns. *)
Definition datetime_temp `{Platform} (coerce : bool) (df : DataFrame)
  : result (list (option Z)) :=
  if has_column "data" df && has_column "hora" df
  then mapM_result (datetime_key coerce) (rows df)
  else Raise KeyError.

Definition sort_keyed (l : list (option Z * row)) : list row :=
  (merge_sort (keyed_le Z.leb) l).*2.

(** [df[df['HasPrecipitation'] == True]] *)
Definition is_true (c : option cell) : bool :=
  match c with
  | Some (Bool b) => b
  | Some (Num q) => Qeq_bool q 1
  | _ => false
  end.

Definition with_precipitation (df : DataFrame) : DataFrame :=
  mkDataFrame (columns df)
    (filter (fun r => is_true (r !! "HasPrecipitation") = true) (rows df)).

Section save_to_excel.
Context `{Platform}.

(** [pd.read_excel(FILENAME, sheet_name='Dados_Completos')] *)
Definition read_excel (f : file) (sheet_name : string) : result DataFrame :=
  match f with
  | Workbook sheets =>
      match dict_get sheet_name sheets with
      | Some (Parsed df) => OK df
      | Some Garbled | None => Raise ValueError
      end
  | Unreadable => Raise ValueError
  end.

(** The [try] block that reads the stored sheet: [OK None] is the
    [return False] inside it, [OK (Some df)] the combined frame, less its
    helper column. *)
Definition combine_with_existing (f : file) (df_new : DataFrame)
    (new_keys : list (option Z)) : result (option DataFrame) :=
  df_existing ← read_excel f "Dados_Completos";
  existing_keys ← datetime_temp true df_existing;
  let filtered :=
    filter (fun kr => kr.1 ∉ existing_keys) (zip new_keys (rows df_new)) in
  match filtered with
  | [] => OK None
  | _ =>
      let df_new_filtered := mkDataFrame (columns df_new) filtered.*2 in
      OK (Some (mkDataFrame
                  (columns (concat df_existing df_new_filtered))
                  (sort_keyed (zip existing_keys (rows df_existing)
                               ++ filtered))))
  end.

(** The final [try] block: the sheets are written one after the other and
    the workbook is saved when the [with] block is left, also when the
    statistics raise. *)
Definition write_workbook (fs : filesystem) (FILENAME : string)
    (df_combined : DataFrame) : bool * filesystem :=
  let df_precip := with_precipitation df_combined in
  let sheets :=
    ("Dados_Completos", Parsed df_combined)
    :: (if empty df_precip then []
        else [("Com_Precipitacao", Parsed df_precip)]) in
  match estatisticas df_combined with
  | OK stats =>
      (true,
       <[FILENAME := Workbook (sheets ++ [("Estatisticas", Parsed stats)])]> fs)
  | Raise _ => (false, <[FILENAME := Workbook sheets]> fs)
  end.

(** [save_to_excel(new_data)]: the value returned, or the exception that
    leaves the method, and the file system afterwards. *)
Definition save_to_excel (fs : filesystem) (FILENAME : string)
    (new_data : list record) : result bool * filesystem :=
  match new_data with
  | [] => (OK false, fs)
  | _ =>
      let df_new := frame_of_records new_data in
      match datetime_temp false df_new with
      | Raise e => (Raise e, fs)
      | OK new_keys =>
          let combined : option DataFrame :=
            match fs !! FILENAME with
            | Some f =>
                match combine_with_existing f df_new new_keys with
                | OK r => r
                | Raise _ => Some df_new
                end
            | None => Some df_new
            end in
          match combined with
          | None => (OK false, fs)
          | Some df_combined =>
              match select_columns column_order df_combined with
              | Raise e => (Raise e, fs)
              | OK df_combined =>
                  let '(saved, fs') := write_workbook fs FILENAME df_combined in
                  (OK saved, fs')
              end
          end
      end
  end.

End save_to_excel.

(** ** The hourly tables of [PrecipitationDataExtractor] *)

(** [k in v] for a text [k]: a key of a dictionary, an element of a list, a
    part of a text. *)
Definition contains (v : json) (k : string) : result bool :=
  match v with
  | JDict d => OK (bool_decide (k ∈ d.*1))
  | JList l =>
      OK (existsb (fun x => match x with
                            | JStr s => bool_decide (s = k)
                            | _ => false
                            end) l)
  | JStr s => OK (bool_decide (is_Some (String.index 0 k s)))
  | _ => Raise TypeError
  end.

(** [s.split(sep)] for a separator of one character. *)
Fixpoint str_split (sep : ascii) (s : string) : list string :=
  match s with
  | "" => [""]
  | String a s' =>
      if bool_decide (a = sep) then "" :: str_split sep s'
      else match str_split sep s' with
           | part :: parts => String a part :: parts
           | [] => [String a ""]
           end
  end.

(** [v.split(' ')[1]] *)
Definition split_second (v : json) : result string :=
  match v with
  | JStr s =>
      match str_split " " s with
      | _ :: part :: _ => OK part
      | _ => Raise IndexError
      end
  | _ => Raise AttributeError
  end.

(** The dictionary built for one hour, in [format_hourly_precipitation] and
    in [get_multiple_days_hourly_precipitation] alike. *)
Definition hourly_info (date : string) (hour_data : json) : result record :=
  time ← subscript hour_data "time";
  hora ← split_second time;
  precip_mm ← cell_field hour_data "precip_mm";
  humidity ← cell_field hour_data "humidity";
  cloud ← cell_field hour_data "cloud";
  condition ← subscript hour_data "condition";
  text ← cell_field condition "text";
  chance ← get hour_data "chance_of_rain" (JNum 0);
  OK [("data", Some (Str date));
      ("hora", Some (Str hora));
      ("datetime_sort", cell_of_json time);
      ("precipitacao_mm", precip_mm);
      ("umidade_percent", humidity);
      ("nuvens_percent", cloud);
      ("condicao_tempo", text);
      ("chance_chuva", cell_of_json chance)].

(** [format_hourly_precipitation(data, date)] *)
Definition format_hourly_precipitation (data : json) (date : string)
  : result DataFrame :=
  if negb (truthy data) then OK empty_frame
  else
    location ← subscript data "location";
    forecast ← subscript data "forecast";
    forecastday ← subscript forecast "forecastday";
    forecast_day ← subscript0 forecastday;
    hour ← subscript forecast_day "hour";
    hours ← iterate hour;
    precipitation_list ← mapM_result (hourly_info date) hours;
    OK (frame_of_records precipitation_list).

(** What [get_multiple_days_hourly_precipitation] takes from the answer for
    one day: the statements between [day_data = response.json()] and
    [time.sleep]. *)
Definition day_hourly_info (date_str : string) (day_data : json)
  : result (list record) :=
  has_forecast ← contains day_data "forecast";
  has_forecastday ←
    (if has_forecast : bool then
       forecast ← subscript day_data "forecast";
       contains forecast "forecastday"
     else OK false);
  if has_forecastday : bool then
    forecast ← subscript day_data "forecast";
    forecastday ← subscript forecast "forecastday";
    forecast_day ← subscript0 forecastday;
    location ← subscript day_data "location";
    has_hour ← contains forecast_day "hour";
    some_hour ←
      (if has_hour : bool then
         hour ← subscript forecast_day "hour"; OK (truthy hour)
       else OK false);
    if some_hour : bool then
      hour ← subscript forecast_day "hour";
      hours ← iterate hour;
      mapM_result (hourly_info date_str) hours
    else OK []
  else OK [].

(** The key of [sort_values(c)] for a column of texts, as the column
    [datetime_sort] is: [hourly_info] puts the time text of the provider
    there and nothing else.  A cell of another kind is given the
    [TypeError] of a column that mixes kinds. *)
Definition text_key (c : string) (r : row) : result (option string) :=
  match r !! c with
  | None => OK None
  | Some (Str s) => OK (Some s)
  | Some _ => Raise TypeError
  end.

(** [df.drop(c, axis=1)] for a column the frame has. *)
Definition drop_column (c : string) (df : DataFrame) : DataFrame :=
  mkDataFrame (filter (fun c' => c' ≠ c) (columns df)) (delete c <$> rows df).

(** [format_multiple_days_hourly_precipitation(hourly_data_list)]; the list
    is [None] when no hour was fetched. *)
Definition format_multiple_days_hourly_precipitation
    (hourly_data_list : option (list record)) : result DataFrame :=
  match hourly_data_list with
  | None | Some [] => OK empty_frame
  | Some hourly_data_list =>
      let df := frame_of_records hourly_data_list in
      if negb (empty df) && has_column "datetime_sort" df then
        rs ← sort_rows String.leb (text_key "datetime_sort") (rows df);
        OK (drop_column "datetime_sort" (mkDataFrame (columns df) rs))
      else OK df
  end.

(** ** The queries by day *)

(** Dates as day numbers.  [strptime] is
    [datetime.strptime(s, '%Y-%m-%d')], [None] when it raises [ValueError];
    [strftime] is [strftime('%Y-%m-%d')].  The calendar is taken to have no
    last day. *)
Class Calendar := {
  strptime : string → option Z;
  strftime : Z → string
}.

Section queries.
Context `{Calendar}.

Definition parse_date (s : string) : result Z :=
  match strptime s with
  | Some d => OK d
  | None => Raise ValueError
  end.

(** The days the [while] loop visits: from [current_date] to [end_dt], one
    day at a time. *)
Definition days_between (current_date end_dt : Z) : list Z :=
  seqZ current_date (end_dt - current_date + 1).

(** [history date_str] is the answer to the request for that day, [None]
    when a [RequestException] is raised and caught. *)
Fixpoint historical_loop (history : string → option json) (days : list Z)
    (historical_data : list json) : list json :=
  match days with
  | [] => historical_data
  | current_date :: days' =>
      match history (strftime current_date) with
      | Some response =>
          historical_loop history days' (historical_data ++ [response])
      | None => historical_loop history days' historical_data
      end
  end.

(** [get_historical_precipitation(start_date, end_date)] *)
Definition get_historical_precipitation (history : string → option json)
    (start_date end_date : string) : result (option (list json)) :=
  current_date ← parse_date start_date;
  end_dt ← parse_date end_date;
  let historical_data :=
    historical_loop history (days_between current_date end_dt) [] in
  OK (match historical_data with [] => None | _ => Some historical_data end).

Fixpoint hourly_loop (history : string → option json) (days : list Z)
    (hourly_data_list : list record) : result (list record) :=
  match days with
  | [] => OK hourly_data_list
  | current_date :: days' =>
      let date_str := strftime current_date in
      match history date_str with
      | Some day_data =>
          infos ← day_hourly_info date_str day_data;
          hourly_loop history days' (hourly_data_list ++ infos)
      | None => hourly_loop history days' hourly_data_list
      end
  end.

(** [get_multiple_days_hourly_precipitation(start_date, end_date)] *)
Definition get_multiple_days_hourly_precipitation
    (history : string → option json) (start_date end_date : string)
  : result (option (list record)) :=
  current_date ← parse_date start_date;
  end_dt ← parse_date end_date;
  hourly_data_list ←
    hourly_loop history (days_between current_date end_dt) [];
  OK (match hourly_data_list with [] => None | _ => Some hourly_data_list end).

End queries.

(** The value a query function returns, as the normalizer receives it. *)
Definition json_of_list (l : option (list json)) : json :=
  match l with
  | Some l => JList l
  | None => JNull
  end.

(** ** [WeatherDataExtractor.collect_data] *)

(** [raw_data] is the value of [fetch_weather_data()]: the payload, or
    [None] when the request failed. *)
Definition collect_data `{Platform} (fs : filesystem) (FILENAME : string)
    (raw_data : json) : result bool * filesystem :=
  if truthy raw_data then
    match process_data raw_data with
    | Raise e => (Raise e, fs)
    | OK [] => (OK false, fs)
    | OK processed_data =>
        let '(saved, fs') := save_to_excel fs FILENAME processed_data in
        (_ ← saved; OK true, fs')
    end
  else (OK false, fs).

(** ** The whole of [extract_precipitation_data] *)

(** The answers of the provider: to the request for the current
    conditions, to the request for a forecast of so many days, and to the
    requests for one past day made by [get_historical_precipitation] and by
    [get_multiple_days_hourly_precipitation].  An answer that is missing
    stands for a [RequestException], which the query functions catch. *)
Record provider := {
  current_answer : option json;
  forecast_answer : Z → option json;
  history_answer : string → option json;
  hourly_answer : string → option json
}.

(** The readings of the clock in one call: the two texts
    [format_current_precipitation] makes of [datetime.now()], and the day
    of [datetime.now()] where the two ranges of days are computed. *)
Record clock := {
  now_timestamp : string;
  now_date : string;
  now_historical : Z;
  now_hourly : Z
}.

(** The value a query function returns: the answer, or [None]. *)
Definition json_of_answer (a : option json) : json := default JNull a.

(** [get_forecast_precipitation(days)] asks for at most ten days. *)
Definition get_forecast_precipitation (p : provider) (days : Z) : json :=
  json_of_answer (forecast_answer p (Z.min days 10)).

Section extraction.
Context `{Platform} `{Calendar}.

(** [extract_precipitation_data(historical_days, forecast_days,
    include_hourly)], statement by statement; [filename] is the constant
    the method saves under. *)
Definition extraction_cycle (p : provider) (c : clock) (fs : filesystem)
    (historical_days forecast_days : Z) (include_hourly : bool)
    (filename backup_filename : string)
  : result (dict DataFrame * (outcome * filesystem)) :=
  current_df ← format_current_precipitation (now_timestamp c) (now_date c)
                  (json_of_answer (current_answer p));
  forecast_df ← format_forecast_precipitation
                   (get_forecast_precipitation p forecast_days);
  let end_date := (now_historical c - 1)%Z in
  let start_date := (end_date - (historical_days - 1))%Z in
  historical_data ← get_historical_precipitation (history_answer p)
                       (strftime start_date) (strftime end_date);
  historical_df ← format_historical_precipitation
                     (json_of_list historical_data);
  all_daily_data ← sorted_if_dated
                      (concat3 historical_df current_df forecast_df);
  hourly_df ←
    (if include_hourly then
       let end_date_hourly := now_hourly c in
       let start_date_hourly := (end_date_hourly - 7)%Z in
       hourly_data_list ← get_multiple_days_hourly_precipitation
                             (hourly_answer p)
                             (strftime start_date_hourly)
                             (strftime end_date_hourly);
       format_multiple_days_hourly_precipitation hourly_data_list
     else OK empty_frame);
  summary_df ← create_precipitation_summary all_daily_data;
  historical_sorted ← sorted_if_dated historical_df;
  forecast_sorted ← sorted_if_dated forecast_df;
  let dataframes :=
    [("Resumo_Precipitacao", summary_df);
     ("Dados_Diarios", all_daily_data);
     ("Dados_Historicos", historical_sorted);
     ("Dados_Atuais", current_df);
     ("Previsao_Precipitacao", forecast_sorted)] in
  let dataframes :=
    if negb (empty hourly_df)
    then dict_set "Dados_Horarios" hourly_df dataframes
    else dataframes in
  OK (dataframes,
      save_precipitation_data fs dataframes filename backup_filename).

End extraction.

(** * Reading the code

    The vocabulary the properties are stated in: orders on keys, the key a
    merge removes duplicates by and the order it sorts by, and what a reader
    finds in a file. *)

(** ** Orders on keys *)

Class TotalOrderB {K} (le : K → K → bool) := {
  le_total x y : le x y = true ∨ le y x = true;
  le_trans x y z : le x y = true → le y z = true → le x z = true;
  le_antisym x y : le x y = true → le y x = true → x = y
}.

(** Strictly before: missing keys come last and never precede anything. *)
Definition key_lt {K} (le : K → K → bool) (a b : option K) : bool :=
  key_le le a b && negb (key_le le b a).

(** Every key strictly before all the keys after it. *)
Fixpoint increasing {K} (le : K → K → bool) (ks : list (option K)) : bool :=
  match ks with
  | [] => true
  | k :: ks' => forallb (key_lt le k) ks' && increasing le ks'
  end.

(** The keys of the rows exist and are strictly increasing. *)
Definition strictly_sorted {K} (le : K → K → bool)
    (key : row → result (option K)) (l : list row) : bool :=
  match mapM_result key l with
  | OK ks => increasing le ks
  | Raise _ => false
  end.

(** The keys of two rows exist and are in order. *)
Definition row_le {K} (le : K → K → bool) (key : row → result (option K))
  : relation row :=
  fun r1 r2 => ∃ k1 k2, key r1 = OK k1 ∧ key r2 = OK k2 ∧ key_le le k1 k2 = true.

(** ** The keys of a merge *)

(** The key by which the merge removes duplicates, and the order it sorts
    by: date and time of day, the date alone, or none. *)
Inductive merge_key := ByDateTime | ByDate | NoKey.

Definition dedup_key (existing_df new_df : DataFrame) : merge_key :=
  if has_column "data" new_df && has_column "hora" new_df
     && has_column "data" existing_df && has_column "hora" existing_df
  then ByDateTime
  else if has_column "data" new_df && has_column "data" existing_df
  then ByDate
  else NoKey.

Definition frame_order (df : DataFrame) : merge_key :=
  if has_column "data" df && has_column "hora" df then ByDateTime
  else if has_column "data" df then ByDate
  else NoKey.

Definition sort_order (existing_df new_df : DataFrame) : merge_key :=
  match dedup_key existing_df new_df with
  | NoKey => frame_order (concat existing_df new_df)
  | k => k
  end.

Definition key_columns (k : merge_key) : list string :=
  match k with
  | ByDateTime => ["data"; "hora"]
  | ByDate => ["data"]
  | NoKey => []
  end.

Section reading_definitions.
Context `{Platform}.

(** The rows are in the order [k]: each row's key exists and is at most the
    key of the next row, missing keys last. *)
Definition ordered_by (k : merge_key) (l : list row) : Prop :=
  match k with
  | ByDateTime => Sorted (row_le Z.leb (datetime_key false)) l
  | ByDate => Sorted (row_le String.leb date_key) l
  | NoKey => True
  end.

(** The rows can be keyed by [k] and are strictly increasing in its order. *)
Definition strictly_ordered_by (k : merge_key) (l : list row) : bool :=
  match k with
  | ByDateTime =>
      strictly_sorted Z.leb (datetime_key false) l
      && forallb (fun r => hashable (subset_key ["data"; "hora"] r)) l
  | ByDate => strictly_sorted String.leb date_key l
  | NoKey => true
  end.

(** A table in strict chronological order, by the columns it has. *)
Definition chronological (df : DataFrame) : bool :=
  strictly_ordered_by (frame_order df) (rows df).

Definition dedup_by (k : merge_key) (df : DataFrame) : result DataFrame :=
  match k with
  | NoKey => OK df
  | _ => drop_duplicates (key_columns k) df
  end.

Definition sort_by (k : merge_key) (df : DataFrame) : result DataFrame :=
  match k with
  | ByDateTime => sort_values_datetime df
  | ByDate => sort_values_data df
  | NoKey => OK df
  end.

(** The merged dictionary holds, under each name of the new dictionary and
    in its order, what [merge_sheet] makes of the table of that name. *)
Definition merged_from (existing_data : dict DataFrame)
  : relation (string * DataFrame) :=
  fun item m => m.1 = item.1
                ∧ merge_sheet existing_data item.1 item.2 = OK m.2.

(** The dictionary a save writes: the new tables as they are, or merged
    with the tables read from the file. *)
Definition written_tables (fs : filesystem) (dataframes_dict : dict DataFrame)
    (filename : string) (written : dict DataFrame) : Prop :=
  written = dataframes_dict
  ∨ ∃ f, fs !! filename = Some f
         ∧ combine (read_existing f) dataframes_dict [] = OK written.

End reading_definitions.

(** The cells a row is keyed by are text or missing, and date and time of
    day together read as an instant. *)
Definition well_keyed `{Platform} (r : row) : bool :=
  match r !! "data", r !! "hora" with
  | Some (Str d), Some (Str h) => bool_decide (is_Some (to_datetime (d ++ " " ++ h)))
  | (None | Some (Str _)), None | None, Some (Str _) => true
  | _, _ => false
  end.

(** ** The store and the payloads *)

(** The file a save leaves the tables in: the file itself, or the backup
    when the attempt on the file raised. *)
Definition written_file (o : outcome) (filename backup_filename : string)
  : string :=
  match o with
  | Saved => filename
  | _ => backup_filename
  end.

(** The table a reader finds under a sheet name of a file. *)
Definition stored_table (fs : filesystem) (filename sheet_name : string)
  : option DataFrame :=
  match fs !! filename with
  | Some (Workbook sheets) =>
      match dict_get sheet_name sheets with
      | Some (Parsed df) => Some df
      | _ => None
      end
  | _ => None
  end.

(** [pd.ExcelFile] or some [pd.read_excel] raises on the file. *)
Definition load_fails (f : file) : bool :=
  match f with
  | Unreadable => true
  | Workbook sheets =>
      existsb (fun e => match e.2 with Garbled => true | _ => false end) sheets
  end.

(** The amount of liquid of an item is absent, falsy, or a dictionary whose
    [Value] is absent or a number. *)
Definition liquid_ok (item : list (string * json)) : bool :=
  match dict_get "TotalLiquid" item with
  | None => true
  | Some v =>
      if truthy v then
        match v with
        | JDict l =>
            match dict_get "Value" l with
            | None | Some (JNum _) | Some (JBool _) => true
            | Some _ => false
            end
        | _ => false
        end
      else true
  end.

Definition item_ok (item : json) : bool :=
  match item with
  | JDict d => liquid_ok d
  | _ => false
  end.

(** The item has no usable [DateTime]: absent, falsy, or not a date. *)
Definition bad_datetime `{Platform} (item : json) : bool :=
  match item with
  | JDict d =>
      let v := default (JStr "") (dict_get "DateTime" d) in
      negb (truthy v) || bool_decide (strftime_date_time v = None)
  | _ => false
  end.

(** ** The other tables and the queries *)


(** The cells of a row under the labels [cols]. *)
Definition restrict (cols : list string) (r : row) : row :=
  filter (fun kv => kv.1 ∈ cols) r.

(** The new records, with their instants, that [save_to_excel] keeps: those
    whose instant is not among the stored ones. *)
Definition fresh_records (existing_keys new_keys : list (option Z))
    (new_rows : list row) : list (option Z * row) :=
  filter (fun kr => kr.1 ∉ existing_keys) (zip new_keys new_rows).

(** The instants of the stored main sheet, as [save_to_excel] computes them
    inside its [try] block; an exception there makes it drop what is
    stored. *)
Definition stored_keys `{Platform} (f : file) : result (list (option Z)) :=
  df_existing ← read_excel f "Dados_Completos";
  datetime_temp true df_existing.

(** The labels of the records of the three daily normalizers. *)
Definition current_labels : list string :=
  ["timestamp"; "data"; "cidade"; "precipitacao_mm"; "precipitacao_in";
   "umidade_percent"; "nuvens_percent"; "condicao_tempo"; "chance_chuva";
   "tipo_dados"].
Definition forecast_labels : list string :=
  ["data"; "cidade"; "precipitacao_mm"; "precipitacao_in"; "umidade_percent";
   "nuvens_percent"; "condicao_tempo"; "chance_chuva"; "tipo_dados"].
Definition historical_labels : list string :=
  ["data"; "cidade"; "precipitacao_mm"; "precipitacao_in"; "nuvens_percent";
   "condicao_tempo"; "chance_chuva"; "tipo_dados"].

(** The labels of an hourly record, in the order of the dictionary. *)
Definition hourly_labels : list string :=
  ["data"; "hora"; "datetime_sort"; "precipitacao_mm"; "umidade_percent";
   "nuvens_percent"; "condicao_tempo"; "chance_chuva"].

(** An hourly record as [hourly_info] builds it: the eight labels, and a
    text under [datetime_sort]. *)
Definition hourly_shaped (rec : record) : Prop :=
  rec.*1 = hourly_labels
  ∧ ∃ time, dict_get "datetime_sort" rec = Some (Some (Str time)).

(** What the hourly loop takes from the answer for one day. *)
Definition day_records `{Calendar} (history : string → option json)
    (d : Z) (infos : list record) : Prop :=
  match history (strftime d) with
  | Some day_data => day_hourly_info (strftime d) day_data = OK infos
  | None => infos = []
  end.

(** The five sheets of a cycle in which nothing was fetched. *)
Definition no_data : dict DataFrame :=
  [("Resumo_Precipitacao", empty_frame); ("Dados_Diarios", empty_frame);
   ("Dados_Historicos", empty_frame); ("Dados_Atuais", empty_frame);
   ("Previsao_Precipitacao", empty_frame)].

(** The parts of a text put together again, [sep] between them. *)
Fixpoint str_join (sep : ascii) (parts : list string) : string :=
  match parts with
  | [] => ""
  | [part] => part
  | part :: parts' => part ++ String sep (str_join sep parts')
  end.

(** The characters of a text. *)
Definition chars (s : string) : list ascii := String.list_ascii_of_string s.

(** ** A platform for the examples

    Dates in the ISO layout the collectors write, POSIX paths, statistics
    over the rationals. *)

Module Posix.

Definition digit (a : ascii) : option Z :=
  let n := nat_of_ascii a in
  if bool_decide (48 ≤ n ≤ 57)%nat then Some (Z.of_nat (n - 48)) else None.

Fixpoint number_from (s : string) (acc : Z) : option Z :=
  match s with
  | "" => Some acc
  | String a s' => d ← digit a; number_from s' (10 * acc + d)%Z
  end.

(** The digits of [s] from position [i], [n] of them. *)
Definition field (s : string) (i n : nat) : option Z :=
  let t := String.substring i n s in
  if bool_decide (String.length t = n) then number_from t 0 else None.

Definition char_is (s : string) (i : nat) (a : ascii) : bool :=
  bool_decide (String.get i s = Some a).

Definition in_range (lo hi v : Z) : bool := bool_decide (lo ≤ v ≤ hi)%Z.

(** [YYYY-MM-DD] followed, after the separator [sep], by [HH:MM] or
    [HH:MM:SS]: the six fields, seconds zero when absent. *)
Definition iso_fields (sep : ascii) (s : string)
  : option (Z * Z * Z * Z * Z * Z) :=
  y ← field s 0 4; m ← field s 5 2; d ← field s 8 2;
  hh ← field s 11 2; mm ← field s 14 2;
  ss ← (if bool_decide (String.length s = 16%nat) then Some 0%Z
        else if bool_decide (String.length s = 19%nat) && char_is s 16 ":"
        then field s 17 2 else None);
  if char_is s 4 "-" && char_is s 7 "-" && char_is s 10 sep
     && char_is s 13 ":" && in_range 1 12 m && in_range 1 31 d
     && in_range 0 23 hh && in_range 0 59 mm && in_range 0 59 ss
  then Some (y, m, d, hh, mm, ss) else None.

(** The instant as the number [YYYYMMDDHHMMSS], which orders as time does. *)
Definition iso_to_datetime (s : string) : option Z :=
  '(y, m, d, hh, mm, ss) ← iso_fields " " s;
  Some (((((y * 100 + m) * 100 + d) * 100 + hh) * 100 + mm) * 100 + ss)%Z.

(** [DateTime] of a payload: an ISO text with [T] between date and time,
    whatever follows the seconds being the offset. *)
Definition iso_strftime (v : json) : option (cell * cell) :=
  match v with
  | JStr s =>
      _ ← iso_fields "T" (String.substring 0 19 s);
      Some (Str (String.substring 0 10 s), Str (String.substring 11 8 s))
  | _ => None
  end.

Fixpoint strip_slashes (rev_head : string) : string :=
  match rev_head with
  | String "/" t => strip_slashes t
  | _ => rev_head
  end.

Fixpoint after_last_slash (rev_path : string) : string :=
  match rev_path with
  | "" => ""
  | String "/" _ => rev_path
  | String _ t => after_last_slash t
  end.

(** [posixpath.dirname] *)
Definition posix_dirname (p : string) : string :=
  let rev_head := after_last_slash (String.rev p) in
  match strip_slashes rev_head with
  | "" => String.rev rev_head
  | stripped => String.rev stripped
  end.

Fixpoint column_numbers (c : string) (l : list row) : result (list Q) :=
  match l with
  | [] => OK []
  | r :: l' =>
      match r !! c with
      | None => column_numbers c l'
      | Some x => q ← cell_number x; qs ← column_numbers c l'; OK (q :: qs)
      end
  end.

Definition stat (name : string) (v : option cell) : record :=
  [("Unnamed: 0", Some (Str name)); ("0", v)].

Definition mean_cell (qs : list Q) : option cell :=
  match qs with [] => None | _ => Some (Num (Qmean qs)) end.

Definition q_estatisticas (df : DataFrame) : result DataFrame :=
  has ← column_numbers "HasPrecipitation" (rows df);
  precip ← column_numbers "precipitacao_mm" (rows df);
  humidity ← column_numbers "umidade_percent" (rows df);
  chance ← column_numbers "chance_chuva" (rows df);
  OK (frame_of_records
        [stat "Total_Registros" (Some (Num (Qlen (rows df))));
         stat "Registros_Com_Chuva" (Some (Num (Qsum has)));
         stat "Precipitacao_Media_mm" (mean_cell precip);
         stat "Precipitacao_Max_mm"
           (match precip with [] => None | _ => Some (Num (Qmaximum precip)) end);
         stat "Umidade_Media" (mean_cell humidity);
         stat "Chance_Chuva_Media" (mean_cell chance);
         stat "Ultima_Atualizacao" (Some (Str "2024-01-01 00:00:00"))]).

#[global] Instance platform : Platform := {|
  to_datetime := iso_to_datetime;
  dirname := posix_dirname;
  estatisticas := q_estatisticas;
  strftime_date_time := iso_strftime
|}.

End Posix.

(** ** A calendar for the examples

    The proleptic Gregorian calendar, dates in the layout [YYYY-MM-DD],
    days counted from 1970-01-01. *)

Module Gregorian.

Definition days_from_civil (y m d : Z) : Z :=
  let y' := (if (m <=? 2)%Z then y - 1 else y)%Z in
  let era := (y' / 400)%Z in
  let yoe := (y' - era * 400)%Z in
  let doy := ((153 * (if (m >? 2)%Z then m - 3 else m + 9) + 2) / 5 + d - 1)%Z in
  let doe := (yoe * 365 + yoe / 4 - yoe / 100 + doy)%Z in
  (era * 146097 + doe - 719468)%Z.

Definition civil_from_days (z : Z) : Z * Z * Z :=
  let z := (z + 719468)%Z in
  let era := (z / 146097)%Z in
  let doe := (z - era * 146097)%Z in
  let yoe := ((doe - doe / 1460 + doe / 36524 - doe / 146096) / 365)%Z in
  let y := (yoe + era * 400)%Z in
  let doy := (doe - (365 * yoe + yoe / 4 - yoe / 100))%Z in
  let mp := ((5 * doy + 2) / 153)%Z in
  let d := (doy - (153 * mp + 2) / 5 + 1)%Z in
  let m := (if (mp <? 10)%Z then mp + 3 else mp - 9)%Z in
  ((if (m <=? 2)%Z then y + 1 else y)%Z, m, d).

Definition digit_char (n : Z) : ascii :=
  ascii_of_nat (48 + Z.to_nat (n mod 10)).

(** The last [width] decimal digits of [n]. *)
Fixpoint digits (width : nat) (n : Z) (acc : string) : string :=
  match width with
  | O => acc
  | S w => digits w (n / 10) (String (digit_char n) acc)
  end.

Definition iso_strftime_date (z : Z) : string :=
  let '(y, m, d) := civil_from_days z in
  digits 4 y ("-" ++ digits 2 m ("-" ++ digits 2 d "")).

Definition iso_strptime_date (s : string) : option Z :=
  y ← Posix.field s 0 4; m ← Posix.field s 5 2; d ← Posix.field s 8 2;
  let z := days_from_civil y m d in
  if bool_decide (String.length s = 10%nat)
     && Posix.char_is s 4 "-" && Posix.char_is s 7 "-"
     && bool_decide (civil_from_days z = (y, m, d))
  then Some z else None.

#[global] Instance calendar : Calendar := {|
  strptime := iso_strptime_date;
  strftime := iso_strftime_date
|}.

End Gregorian.

(** ** Examples *)

Module Examples.
Import Posix.

Definition daily_columns : list string :=
  ["data"; "precipitacao_mm"; "tipo_dados"].

Definition daily_row (date : string) (mm : Q) (kind : string) : row :=
  {[ "data" := Str date; "precipitacao_mm" := Num mm;
     "tipo_dados" := Str kind ]}.

Definition hourly_columns : list string := ["data"; "hora"; "precipitacao_mm"].

Definition hourly_row (date time : string) (mm : Q) : row :=
  {[ "data" := Str date; "hora" := Str time; "precipitacao_mm" := Num mm ]}.

(** The daily table of the overwrite example: one stored row for
    2024-01-01 with 1.0 mm, one fetched row for the same date with 2.5. *)
Definition stored_daily : DataFrame :=
  mkDataFrame daily_columns [daily_row "2024-01-01" 1 "Histórico"].
Definition fetched_daily : DataFrame :=
  mkDataFrame daily_columns [daily_row "2024-01-01" (5 # 2) "Histórico"].

(** A stored daily table as the first cycle writes it: the current reading
    and the first forecast day share today's date. *)
Definition first_cycle_daily : DataFrame :=
  mkDataFrame daily_columns
    [daily_row "2024-01-04" 3 "Histórico";
     daily_row "2024-01-05" 0 "Atual";
     daily_row "2024-01-05" (1 # 2) "Previsão"].

Definition two_days : DataFrame :=
  mkDataFrame daily_columns
    [daily_row "2024-01-01" 1 "Histórico";
     daily_row "2024-01-02" 0 "Histórico"].
Definition two_days_reversed : DataFrame :=
  mkDataFrame daily_columns
    [daily_row "2024-01-02" 0 "Histórico";
     daily_row "2024-01-01" 1 "Histórico"].
Definition second_day : DataFrame :=
  mkDataFrame daily_columns [daily_row "2024-01-02" 0 "Histórico"].
Definition third_day : DataFrame :=
  mkDataFrame daily_columns [daily_row "2024-01-03" 4 "Histórico"].

Definition morning : DataFrame :=
  mkDataFrame hourly_columns
    [hourly_row "2024-01-01" "00:00" 0; hourly_row "2024-01-01" "01:00" 1].
Definition morning_reversed : DataFrame :=
  mkDataFrame hourly_columns
    [hourly_row "2024-01-01" "01:00" 1; hourly_row "2024-01-01" "00:00" 0].
Definition next_morning : DataFrame :=
  mkDataFrame hourly_columns [hourly_row "2024-01-02" "10:00" 2].
(** A table of the day before that lacks the time-of-day column. *)
Definition dated_only : DataFrame :=
  mkDataFrame ["data"; "precipitacao_mm"]
    [{[ "data" := Str "2024-01-01"; "precipitacao_mm" := Num 1 ]}].

Definition header_only : DataFrame := mkDataFrame daily_columns [].

Definition filename : string := "dados/precipitacao_sao_paulo.xlsx".
Definition backup : string := "precipitacao_backup_20240105_120000.xlsx".

Definition stored_sheets : dict DataFrame :=
  [("Dados_Diarios", two_days); ("Dados_Horarios", morning)].

(** The AccuWeather workbook and hourly records as [process_data] builds
    them. *)
Definition accu_file : string := "precipitacao_accuweather_sp_hora.xlsx".

Definition hourly_record (date time : string) (mm : Q) (rain : bool)
  : record :=
  [("data", Some (Str date)); ("hora", Some (Str time));
   ("precipitacao_mm", Some (Num mm)); ("umidade_percent", Some (Num 80));
   ("nuvens_percent", Some (Num 50)); ("condicao_tempo", Some (Str "Cloudy"));
   ("chance_chuva", Some (Num 20)); ("HasPrecipitation", Some (Bool rain))].

Definition accu_stored : DataFrame :=
  frame_of_records [hourly_record "2024-01-01" "10:00:00" 1 true].

Definition accu_fs : filesystem :=
  {[ accu_file := Workbook [("Dados_Completos", Parsed accu_stored)] ]}.

(** The precipitation cells of the rows of a table with a given date and
    time of day. *)
Definition precipitation_at (date time : string) (df : option DataFrame)
  : list (option cell) :=
  match df with
  | Some df =>
      (fun r : row => r !! "precipitacao_mm")
        <$> filter (fun r : row => subset_key ["data"; "hora"] r
                                   = [Some (Str date); Some (Str time)])
              (rows df)
  | None => []
  end.

(** A workbook one sheet of which cannot be parsed. *)
Definition damaged_fs : filesystem :=
  {[ filename := Workbook [("Dados_Diarios", Parsed two_days);
                           ("Dados_Horarios", Garbled)] ]}.

(** An hourly payload whose first item has no readable date. *)
Definition hourly_payload : json :=
  JList [JDict [("DateTime", JStr "31/12 at noon");
                ("TotalLiquid", JDict [("Value", JNum (12 # 10))])];
         JDict [("DateTime", JStr "2024-01-01T11:00:00-03:00");
                ("HasPrecipitation", JBool false)]].

End Examples.

(** ** More examples *)

Module MoreExamples.
Import Posix Gregorian Examples.

(** One item of the AccuWeather payload for the hour that [accu_fs]
    already holds, and one for the hour after. *)
Definition accu_item (datetime : string) (mm : Q) (rain : bool) : json :=
  JDict [("DateTime", JStr datetime);
         ("TotalLiquid", JDict [("Value", JNum mm)]);
         ("RelativeHumidity", JNum 80); ("CloudCover", JNum 50);
         ("IconPhrase", JStr "Cloudy"); ("PrecipitationProbability", JNum 20);
         ("HasPrecipitation", JBool rain)].

Definition stored_hour : json :=
  JList [accu_item "2024-01-01T10:00:00-03:00" (5 # 2) true].
Definition next_hour : list record :=
  [hourly_record "2024-01-01" "11:00:00" 0 false].

(** A workbook whose main sheet has no time-of-day column. *)
Definition dated_fs : filesystem :=
  {[ accu_file := Workbook [("Dados_Completos", Parsed two_days)] ]}.

(** The answer of the provider for one past day, with two of its hours
    listed latest first. *)
Definition hour_answer (time : string) (mm : Q) : json :=
  JDict [("time", JStr time); ("precip_mm", JNum mm); ("humidity", JNum 70);
         ("cloud", JNum 40); ("condition", JDict [("text", JStr "Clear")])].

Definition day_answer (date : string) (hours : list json) : json :=
  JDict [("location", JDict [("name", JStr "Sao Paulo")]);
         ("forecast",
          JDict [("forecastday",
                  JList [JDict [("date", JStr date);
                                ("day",
                                 JDict [("totalprecip_mm", JNum 1);
                                        ("totalprecip_in", JNum (4 # 100));
                                        ("avghumidity", JNum 70);
                                        ("condition",
                                         JDict [("text", JStr "Clear")])]);
                                ("hour", JList hours)]])])].

Definition first_of_january : json :=
  day_answer "2024-01-01"
    [hour_answer "2024-01-01 01:00" 1; hour_answer "2024-01-01 00:00" 0].

(** An answer that lists its hours and lacks the location. *)
Definition without_location : json :=
  JDict [("forecast",
          JDict [("forecastday",
                  JList [JDict [("hour",
                                 JList [hour_answer "2024-01-02 00:00" 0])]])])].

(** A provider that answers for the first two days of 2024 only. *)
Definition january (date : string) : option json :=
  if bool_decide (date = "2024-01-01") then Some first_of_january
  else if bool_decide (date = "2024-01-02")
  then Some (day_answer "2024-01-02" [hour_answer "2024-01-02 00:00" 2])
  else None.

Definition silent : provider :=
  {| current_answer := None;
     forecast_answer := fun _ => None;
     history_answer := fun _ => None;
     hourly_answer := fun _ => None |}.

(** A provider that answers for one day, years away from the cycle. *)
Definition long_ago : provider :=
  {| current_answer := None;
     forecast_answer := fun _ => None;
     history_answer := january;
     hourly_answer := january |}.

(** The clock of a cycle run at noon of 2024-03-10. *)
Definition noon : clock :=
  {| now_timestamp := "2024-03-10 12:00:00";
     now_date := "2024-03-10";
     now_historical := 19792;
     now_hourly := 19792 |}.

End MoreExamples.

(** * Properties *)

#[local] Set Warnings "-clear-no-such-hyp".

(** ** The error monad *)

Lemma bind_OK {A B} (m : result A) (k : A → result B) b :
  (m ≫= k) = OK b ↔ ∃ a, m = OK a ∧ k a = OK b.
Proof.
  destruct m as [a|e]; simpl; split.
  - intros Hk. by exists a.
  - by intros (a' & [= <-] & Hk).
  - intros [=].
  - by intros (a' & [=] & _).
Qed.

Lemma mapM_result_length {A B} (f : A → result B) l bs :
  mapM_result f l = OK bs → length bs = length l.
Proof.
  revert bs. induction l as [|a l IH]; intros bs; simpl.
  - by intros [= <-].
  - intros (b & _ & (bs' & Hbs' & [= <-])%bind_OK)%bind_OK.
    simpl. f_equal. by apply IH.
Qed.

Lemma mapM_result_zip {A B} (f : A → result B) l bs :
  mapM_result f l = OK bs → Forall (fun p => f p.2 = OK p.1) (zip bs l).
Proof.
  revert bs. induction l as [|a l IH]; intros bs; simpl.
  - intros [= <-]. constructor.
  - intros (b & Hb & (bs' & Hbs' & [= <-])%bind_OK)%bind_OK.
    constructor; [done|]. by apply IH.
Qed.

Lemma mapM_result_is_ok {A B} (f : A → result B) l :
  Forall (fun a => is_ok (f a)) l → is_ok (mapM_result f l).
Proof.
  induction 1 as [|a l [b Hb] _ [bs Hbs]]; simpl.
  - by eexists.
  - rewrite Hb, Hbs. by eexists.
Qed.

Lemma mapM_result_app {A B} (f : A → result B) l1 l2 bs1 bs2 :
  mapM_result f l1 = OK bs1 → mapM_result f l2 = OK bs2 →
  mapM_result f (l1 ++ l2) = OK (bs1 ++ bs2).
Proof.
  revert bs1. induction l1 as [|a l1 IH]; intros bs1; simpl.
  - by intros [= <-].
  - intros (b & Hb & (bs' & Hbs' & [= <-])%bind_OK)%bind_OK H2.
    rewrite Hb. simpl. by rewrite (IH _ Hbs' H2).
Qed.

Lemma NoDup_fst_inj {A B} (l : list (A * B)) a b1 b2 :
  NoDup l.*1 → (a, b1) ∈ l → (a, b2) ∈ l → b1 = b2.
Proof.
  induction l as [|[a' b'] l IH]; simpl; [by intros _ ?%elem_of_nil|].
  intros [Hnotin Hnd]%NoDup_cons [[= -> ->]|H1]%elem_of_cons
    [[= ->]|H2]%elem_of_cons; try done.
  - destruct Hnotin. apply list_elem_of_fmap. by exists (a', b2).
  - destruct Hnotin. apply list_elem_of_fmap. by exists (a', b1).
  - by apply IH.
Qed.

(** ** Orders on keys *)

#[global] Instance Z_leb_order : TotalOrderB Z.leb.
Proof. split; intros; rewrite ?Z.leb_le in *; lia. Qed.

#[global] Instance String_leb_order : TotalOrderB String.leb.
Proof.
  split.
  - apply String.leb_total.
  - intros x y z Hxy Hyz. apply Is_true_true.
    apply Is_true_true in Hxy, Hyz.
    exact (transitivity (R := String.le) Hxy Hyz).
  - apply String.leb_antisym.
Qed.

Section keys.
Context {K} (le : K → K → bool) `{!TotalOrderB le}.

Lemma key_le_total a b : key_le le a b = true ∨ key_le le b a = true.
Proof. destruct a, b; simpl; auto using le_total. Qed.

Lemma key_le_trans a b c :
  key_le le a b = true → key_le le b c = true → key_le le a c = true.
Proof. destruct a, b, c; simpl; eauto using le_trans; done. Qed.

Lemma key_le_antisym a b :
  key_le le a b = true → key_le le b a = true → a = b.
Proof.
  destruct a, b; simpl; try done. intros. f_equal. by apply le_antisym.
Qed.

Lemma key_lt_le a b : key_lt le a b = true → key_le le a b = true.
Proof. unfold key_lt. by intros [? _]%andb_true_iff. Qed.

Lemma key_lt_irrefl a : key_lt le a a = false.
Proof. unfold key_lt. by destruct (key_le le a a). Qed.

#[global] Instance keyed_le_total : Total (keyed_le le).
Proof. intros a b. apply key_le_total. Qed.

#[global] Instance keyed_le_trans : Transitive (keyed_le le).
Proof. intros a b c. apply key_le_trans. Qed.

End keys.

(** ** Sorting *)

Section sorting.
Context {K} (le : K → K → bool) `{!TotalOrderB le}.
Context (key : row → result (option K)).

Lemma increasing_NoDup ks : increasing le ks = true → NoDup ks.
Proof.
  induction ks as [|k ks IH]; simpl; [constructor|].
  intros [Hk Hks]%andb_true_iff. constructor; [|by apply IH].
  intros Hin. rewrite forallb_forall in Hk.
  apply list_elem_of_In, Hk in Hin. by rewrite key_lt_irrefl in Hin.
Qed.

Lemma sort_rows_Permutation l l' : sort_rows le key l = OK l' → l' ≡ₚ l.
Proof.
  unfold sort_rows. intros (ks & Hks & [= <-])%bind_OK.
  rewrite merge_sort_Permutation, snd_zip; [done|].
  by rewrite (mapM_result_length _ _ _ Hks).
Qed.

Lemma sort_rows_Sorted l l' :
  sort_rows le key l = OK l' → Sorted (row_le le key) l'.
Proof.
  unfold sort_rows. intros (ks & Hks & [= <-])%bind_OK.
  assert (Hkeys : Forall (fun p => key p.2 = OK p.1)
                    (merge_sort (keyed_le le) (zip ks l))).
  { rewrite merge_sort_Permutation. by apply mapM_result_zip. }
  assert (Hsorted := Sorted_merge_sort (keyed_le le) (zip ks l)).
  induction Hsorted as [|p ps Hps IH Hhd]; simpl; constructor.
  - apply IH. by inversion Hkeys.
  - inversion Hkeys as [|?? Hp Hps']; subst.
    destruct Hhd as [|q ps Hpq]; simpl; constructor.
    inversion Hps'; subst. by exists p.1, q.1.
Qed.

Lemma sort_rows_is_ok l :
  Forall (fun r => is_ok (key r)) l → is_ok (sort_rows le key l).
Proof.
  intros [ks Hks]%mapM_result_is_ok. unfold sort_rows. rewrite Hks.
  by eexists.
Qed.

End sorting.

(** ** Dropping duplicates *)

Lemma NoDup_fmap_inj {A B} (f : A → B) (l : list A) x y :
  NoDup (f <$> l) → x ∈ l → y ∈ l → f x = f y → x = y.
Proof.
  induction l as [|a l IH]; simpl; [by intros _ ?%elem_of_nil|].
  intros [Hnotin Hnd]%NoDup_cons [->|Hx]%elem_of_cons [->|Hy]%elem_of_cons Hf;
    try done.
  - destruct Hnotin. rewrite Hf. by apply list_elem_of_fmap_2.
  - destruct Hnotin. rewrite <-Hf. by apply list_elem_of_fmap_2.
  - by apply IH.
Qed.

Section keep_last.
Context (subset : list string).
Local Abbreviation key := (subset_key subset).

Lemma keep_last_elem_of l r : r ∈ keep_last subset l → r ∈ l.
Proof.
  induction l as [|a l IH]; simpl; [done|].
  case_bool_decide; [intros ?%IH; by right|].
  intros [->|?%IH]%elem_of_cons; [by left|by right].
Qed.

Lemma keep_last_keys l k : k ∈ key <$> keep_last subset l ↔ k ∈ key <$> l.
Proof.
  induction l as [|a l IH]; simpl; [done|].
  case_bool_decide as Ha; rewrite ?fmap_cons, ?elem_of_cons, IH; [|done].
  split; [by right|]. by intros [->|?].
Qed.

Lemma keep_last_NoDup l : NoDup (key <$> keep_last subset l).
Proof.
  induction l as [|a l IH]; simpl; [constructor|].
  case_bool_decide as Ha; [done|]. rewrite fmap_cons.
  constructor; [|done]. by rewrite keep_last_keys.
Qed.

Lemma keep_last_id l : NoDup (key <$> l) → keep_last subset l = l.
Proof.
  induction l as [|a l IH]; simpl; [done|].
  intros [Ha Hl]%NoDup_cons. rewrite bool_decide_eq_false_2 by done.
  f_equal. by apply IH.
Qed.

(** Among the rows that share a key, the one kept is the last. *)
Lemma keep_last_filter l k :
  filter (fun r => key r = k) (keep_last subset l)
  = option_list (last (filter (fun r => key r = k) l)).
Proof.
  induction l as [|a l IH]; simpl; [done|].
  case_bool_decide as Ha.
  - rewrite IH. destruct (decide (key a = k)) as [Hk|Hk].
    + rewrite filter_cons_True by done.
      destruct (filter (fun r => key r = k) l) as [|b bs] eqn:Hf;
        [|by rewrite last_cons_cons].
      apply list_elem_of_fmap in Ha as (b & Hb & Hin).
      destruct (filter_nil_not_elem_of _ _ b Hf); [congruence|done].
    + by rewrite filter_cons_False.
  - destruct (decide (key a = k)) as [Hk|Hk].
    + rewrite !filter_cons_True, IH by done.
      destruct (filter (fun r => key r = k) l) as [|b bs] eqn:Hf; [done|].
      destruct Ha. apply list_elem_of_fmap. exists b. split.
      * assert (b ∈ filter (fun r => key r = k) l) as Hb
          by (rewrite Hf; by left).
        apply list_elem_of_filter in Hb as [-> _]. done.
      * assert (b ∈ filter (fun r => key r = k) l) as Hb
          by (rewrite Hf; by left).
        by apply list_elem_of_filter in Hb as [_ ?].
    + by rewrite !filter_cons_False, IH.
Qed.

(** Rows that are already in a table with unique keys add nothing to it. *)
Lemma keep_last_absorb l1 l2 :
  NoDup (key <$> l1) → (∀ r, r ∈ l2 → r ∈ l1) →
  keep_last subset (l1 ++ l2) ≡ₚ l1.
Proof.
  intros Hnd Hsub. apply NoDup_Permutation.
  - eapply NoDup_fmap_1, keep_last_NoDup.
  - by eapply NoDup_fmap_1.
  - intros r. split.
    + intros [?|?]%keep_last_elem_of%elem_of_app; auto.
    + intros Hr.
      assert (key r ∈ key <$> keep_last subset (l1 ++ l2)) as Hk.
      { apply keep_last_keys, list_elem_of_fmap_2, elem_of_app. by left. }
      apply list_elem_of_fmap in Hk as (r' & Hkey & Hr').
      assert (r' ∈ l1) as Hr'1.
      { apply keep_last_elem_of, elem_of_app in Hr' as [?|?]; auto. }
      by rewrite (NoDup_fmap_inj key l1 r r' Hnd Hr Hr'1 Hkey).
Qed.

End keep_last.

Lemma drop_duplicates_OK subset df df' :
  drop_duplicates subset df = OK df' →
  columns df' = columns df ∧ rows df' = keep_last subset (rows df).
Proof.
  unfold drop_duplicates. case_match; [|done]. by intros [= <-].
Qed.

Lemma drop_duplicates_hashable subset df :
  Forall (fun r => hashable (subset_key subset r) = true) (rows df) →
  drop_duplicates subset df
  = OK (mkDataFrame (columns df) (keep_last subset (rows df))).
Proof.
  intros Hall. unfold drop_duplicates.
  rewrite (proj2 (forallb_forall _ _)); [done|].
  intros r Hr%list_elem_of_In. by eapply Forall_forall in Hall.
Qed.

(** ** Frames *)

Lemma has_column_true c df : has_column c df = true ↔ c ∈ columns df.
Proof. unfold has_column. apply bool_decide_eq_true. Qed.

Lemma empty_false df :
  empty df = false ↔ columns df ≠ [] ∧ rows df ≠ [].
Proof.
  unfold empty. destruct (columns df), (rows df); split; try done;
    by intros [??].
Qed.

Lemma filter_none {A} (P : A → Prop) `{∀ x, Decision (P x)} (l : list A) :
  Forall (fun x => ¬ P x) l → filter P l = [].
Proof.
  induction 1 as [|x l Hx _ IH]; [done|]. by rewrite filter_cons_False.
Qed.

Lemma concat_columns_sub a b :
  columns b ⊆ columns a → columns (concat a b) = columns a.
Proof.
  intros Hsub. simpl. rewrite filter_none, app_nil_r; [done|].
  apply Forall_forall. intros c Hc Hnot. by apply Hnot, Hsub.
Qed.

Lemma has_column_concat c a b :
  has_column c (concat a b) = has_column c a || has_column c b.
Proof.
  apply eq_true_iff_eq. rewrite orb_true_iff, !has_column_true. simpl.
  rewrite elem_of_app, list_elem_of_filter.
  destruct (decide (c ∈ columns a)); naive_solver.
Qed.

(** ** Dictionaries *)

Lemma dict_get_elem_of {V} (d : dict V) k v :
  NoDup d.*1 → (k, v) ∈ d ↔ dict_get k d = Some v.
Proof.
  induction d as [|[k' v'] d IH]; simpl.
  - intros _. split; [by intros ?%elem_of_nil|done].
  - intros [Hnotin Hnd]%NoDup_cons. rewrite elem_of_cons.
    case_bool_decide as Hk; subst.
    + split; [|naive_solver]. intros [[= ->]|Hin]; [done|].
      destruct Hnotin. apply list_elem_of_fmap. by exists (k, v).
    + rewrite <-IH by done. naive_solver.
Qed.

Lemma dict_get_None {V} (d : dict V) k : dict_get k d = None ↔ k ∉ d.*1.
Proof.
  induction d as [|[k' v'] d IH]; simpl.
  - split; [intros _ ?%elem_of_nil|]; done.
  - rewrite not_elem_of_cons. case_bool_decide; naive_solver.
Qed.

Lemma dict_set_fresh {V} (d : dict V) k v :
  k ∉ d.*1 → dict_set k v d = d ++ [(k, v)].
Proof.
  induction d as [|[k' v'] d IH]; simpl; [done|].
  intros [Hne Hnotin]%not_elem_of_cons.
  rewrite bool_decide_eq_false_2 by done. f_equal. by apply IH.
Qed.

Lemma dict_get_filter {V} (P : string * V → Prop) `{∀ x, Decision (P x)}
    (d : dict V) k v :
  dict_get k d = Some v → P (k, v) → dict_get k (filter P d) = Some v.
Proof.
  induction d as [|[k' v'] d IH]; simpl; [done|].
  case_bool_decide as Hk; subst.
  - intros [= ->] HP. rewrite filter_cons_True by done. simpl.
    by rewrite bool_decide_eq_true_2.
  - intros Hget HP. rewrite filter_cons. case_decide; simpl.
    + rewrite bool_decide_eq_false_2 by done. by apply IH.
    + by apply IH.
Qed.

Lemma dict_get_filter_None {V} (P : string * V → Prop)
    `{∀ x, Decision (P x)} (d : dict V) k :
  dict_get k d = None → dict_get k (filter P d) = None.
Proof.
  rewrite !dict_get_None. intros Hk (kv & -> & [_ Hin]%list_elem_of_filter)%list_elem_of_fmap.
  destruct Hk. by apply list_elem_of_fmap_2.
Qed.

Lemma dict_get_filter_out {V} (P : string * V → Prop)
    `{∀ x, Decision (P x)} (d : dict V) k v :
  NoDup d.*1 → dict_get k d = Some v → ¬ P (k, v) →
  dict_get k (filter P d) = None.
Proof.
  intros Hnd Hget HP. apply dict_get_None.
  intros ([k' v'] & Hk & [HP' Hin]%list_elem_of_filter)%list_elem_of_fmap.
  simpl in *; subst k'.
  apply dict_get_elem_of in Hin; [|done]. congruence.
Qed.

Lemma dict_get_fmap {V W} (f : V → W) (d : dict V) k :
  dict_get k (prod_map id f <$> d) = f <$> dict_get k d.
Proof.
  induction d as [|[k' v'] d IH]; simpl; [done|]. by case_bool_decide.
Qed.

Section sorting_more.
Context {K} (le : K → K → bool) `{!TotalOrderB le}.
Context (key : row → result (option K)).

#[global] Instance row_le_trans : Transitive (row_le le key).
Proof.
  intros r1 r2 r3 (k1 & k2 & H1 & H2 & H12) (k2' & k3 & H2' & H3 & H23).
  rewrite H2 in H2'. injection H2' as <-.
  exists k1, k3. eauto using key_le_trans.
Qed.

Lemma strictly_sorted_Sorted l :
  strictly_sorted le key l = true → Sorted (row_le le key) l.
Proof.
  unfold strictly_sorted.
  destruct (mapM_result key l) as [ks|] eqn:Hks; [|done]. revert ks Hks.
  induction l as [|r l IH]; intros ks; simpl; [constructor|].
  intros (k & Hk & (ks' & Hks' & [= <-])%bind_OK)%bind_OK. simpl.
  intros [Hlt Hinc]%andb_true_iff. constructor; [by eapply IH|].
  destruct l as [|r' l]; [constructor|]. simpl in Hks'.
  apply bind_OK in Hks' as (k' & Hk' & (ks'' & _ & [= <-])%bind_OK).
  constructor. exists k, k'. simpl in Hlt.
  apply andb_true_iff in Hlt as [Hlt%key_lt_le _]; auto.
Qed.

Lemma strictly_sorted_inj l r1 r2 k :
  strictly_sorted le key l = true → r1 ∈ l → r2 ∈ l →
  key r1 = OK k → key r2 = OK k → r1 = r2.
Proof.
  unfold strictly_sorted.
  destruct (mapM_result key l) as [ks|] eqn:Hks; [|done].
  intros Hnd%(increasing_NoDup le) H1 H2 Hk1 Hk2.
  assert (Hlen := mapM_result_length _ _ _ Hks).
  assert (∀ r, r ∈ l → key r = OK k → (k, r) ∈ zip ks l) as Hin.
  { intros r [i Hi]%list_elem_of_lookup Hr.
    destruct (lookup_lt_is_Some_2 ks i) as [k' Hk'].
    { rewrite Hlen. by eapply lookup_lt_Some. }
    assert ((k', r) ∈ zip ks l) as Hz.
    { apply list_elem_of_lookup. exists i.
      rewrite lookup_zip_with, Hk'. simpl. by rewrite Hi. }
    assert (Hf := mapM_result_zip _ _ _ Hks).
    eapply Forall_forall in Hf; [|exact Hz]. simpl in Hf.
    rewrite Hr in Hf. by injection Hf as ->. }
  assert ((zip ks l).*2 = l) as Hsnd by (apply snd_zip; lia).
  assert (NoDup (zip ks l).*1) as Hnd' by (rewrite fst_zip by lia; done).
  clear Hsnd.
  (* two rows with the key [k] sit at the position of [k] *)
  apply Hin in H1; [|done]. apply Hin in H2; [|done].
  by eapply NoDup_fst_inj.
Qed.

(** However the rows are shuffled, sorting brings back the one order in
    which their keys strictly increase. *)
Lemma sort_rows_unique l l' :
  strictly_sorted le key l = true → l' ≡ₚ l → sort_rows le key l' = OK l.
Proof.
  intros Hs Hperm.
  destruct (sort_rows_is_ok le key l') as [s Hsort].
  { rewrite Hperm.
    assert (Hsorted := Hs). unfold strictly_sorted in Hs.
    destruct (mapM_result key l) as [ks|] eqn:Hks; [|done].
    assert (Hlen := mapM_result_length _ _ _ Hks).
    apply Forall_forall. intros r [i Hi]%list_elem_of_lookup.
    destruct (lookup_lt_is_Some_2 ks i) as [k' Hk'].
    { rewrite Hlen. by eapply lookup_lt_Some. }
    assert ((k', r) ∈ zip ks l) as Hz.
    { apply list_elem_of_lookup. exists i.
      rewrite lookup_zip_with, Hk'. simpl. by rewrite Hi. }
    assert (Hf := mapM_result_zip _ _ _ Hks).
    eapply Forall_forall in Hf; [|exact Hz]. by eexists. }
  rewrite Hsort. f_equal.
  apply (Sorted_unique_strong (row_le le key)).
  - intros r1 r2 H1 H2 (k1 & k2 & Hk1 & Hk2 & H12) (k2' & k1' & Hk2' & Hk1' & H21).
    rewrite Hk2 in Hk2'. injection Hk2' as <-.
    rewrite Hk1 in Hk1'. injection Hk1' as <-.
    assert (k1 = k2) as <- by by apply (key_le_antisym le).
    apply (strictly_sorted_inj l r1 r2 k1); try done.
    by rewrite <-Hperm, <-(sort_rows_Permutation le key l' s).
  - by eapply sort_rows_Sorted.
  - by apply strictly_sorted_Sorted.
  - by rewrite (sort_rows_Permutation le key l' s).
Qed.

Lemma strictly_sorted_NoDup {B} (h : row → B) l :
  (∀ r1 r2, h r1 = h r2 → key r1 = key r2) →
  strictly_sorted le key l = true → NoDup (h <$> l).
Proof.
  intros Hh Hs. apply NoDup_alt. intros i j b Hi Hj.
  apply list_lookup_fmap_Some in Hi as (r1 & -> & Hi).
  apply list_lookup_fmap_Some in Hj as (r2 & Hb & Hj).
  apply Hh in Hb.
  assert (Hs' := Hs). unfold strictly_sorted in Hs'.
  destruct (mapM_result key l) as [ks|] eqn:Hks; [|done].
  apply (increasing_NoDup le) in Hs'.
  assert (Hlen := mapM_result_length _ _ _ Hks).
  assert (Hf := mapM_result_zip _ _ _ Hks).
  destruct (lookup_lt_is_Some_2 ks i) as [k1 Hk1].
  { rewrite Hlen. by eapply lookup_lt_Some. }
  destruct (lookup_lt_is_Some_2 ks j) as [k2 Hk2].
  { rewrite Hlen. by eapply lookup_lt_Some. }
  assert (key r1 = OK k1) as Hr1.
  { eapply Forall_lookup_1 in Hf;
      [|by rewrite lookup_zip_with, Hk1; simpl; rewrite Hi]. done. }
  assert (key r2 = OK k2) as Hr2.
  { eapply Forall_lookup_1 in Hf;
      [|by rewrite lookup_zip_with, Hk2; simpl; rewrite Hj]. done. }
  rewrite Hb, Hr2 in Hr1. injection Hr1 as ->.
  eapply NoDup_lookup; eauto.
Qed.

End sorting_more.

(** ** Reading the merge *)

Section reading.
Context `{Platform}.

(** What [merge_sheet] does with a sheet that is stored, not empty and not
    the summary. *)
Lemma merge_sheet_stored existing_data sheet_name existing_df new_df :
  dict_get sheet_name existing_data = Some existing_df →
  empty existing_df = false →
  sheet_name ≠ summary_sheet →
  merge_sheet existing_data sheet_name new_df
  = (deduped ← dedup_by (dedup_key existing_df new_df)
                 (concat existing_df new_df);
     sort_by (sort_order existing_df new_df) deduped).
Proof.
  intros Hget Hne Hsum. unfold merge_sheet. rewrite Hget, Hne. simpl.
  rewrite bool_decide_eq_false_2 by done.
  unfold sort_order, dedup_key, frame_order.
  repeat case_match; simpl; try done.
Qed.

Lemma merge_sheet_summary existing_data new_df :
  merge_sheet existing_data summary_sheet new_df = OK new_df.
Proof.
  unfold merge_sheet. by repeat case_match.
Qed.

Lemma merge_sheet_new existing_data sheet_name new_df :
  dict_get sheet_name existing_data = None →
  merge_sheet existing_data sheet_name new_df = OK new_df.
Proof. intros Hget. unfold merge_sheet. by rewrite Hget. Qed.

Lemma sort_by_OK k df df' :
  sort_by k df = OK df' →
  columns df' = columns df ∧ rows df' ≡ₚ rows df ∧ ordered_by k (rows df').
Proof.
  destruct k; simpl.
  - unfold sort_values_datetime. intros (rs & Hrs & [= <-])%bind_OK. simpl.
    eauto using sort_rows_Permutation, sort_rows_Sorted, Z_leb_order.
  - unfold sort_values_data. intros (rs & Hrs & [= <-])%bind_OK. simpl.
    eauto using sort_rows_Permutation, sort_rows_Sorted, String_leb_order.
  - by intros [= <-].
Qed.

Lemma dedup_by_OK k df df' :
  dedup_by k df = OK df' →
  columns df' = columns df
  ∧ rows df' = match k with
               | NoKey => rows df
               | _ => keep_last (key_columns k) (rows df)
               end.
Proof.
  destruct k; simpl; try apply drop_duplicates_OK. by intros [= <-].
Qed.

(** The merged table: its rows are those that remain of the concatenation
    once duplicates are dropped, rearranged in the sorting order. *)
Lemma merge_sheet_stored_OK existing_data sheet_name existing_df new_df merged :
  dict_get sheet_name existing_data = Some existing_df →
  empty existing_df = false →
  sheet_name ≠ summary_sheet →
  merge_sheet existing_data sheet_name new_df = OK merged →
  columns merged = columns (concat existing_df new_df)
  ∧ rows merged ≡ₚ
      match dedup_key existing_df new_df with
      | NoKey => rows existing_df ++ rows new_df
      | k => keep_last (key_columns k) (rows existing_df ++ rows new_df)
      end
  ∧ ordered_by (sort_order existing_df new_df) (rows merged).
Proof.
  intros Hget Hne Hsum. rewrite (merge_sheet_stored _ _ existing_df) by done.
  intros (d & [Hdc Hdr]%dedup_by_OK & (Hc & Hr & Ho)%sort_by_OK)%bind_OK.
  split; [congruence|]. split; [|done].
  etrans; [exact Hr|]. rewrite Hdr. by destruct (dedup_key _ _).
Qed.

End reading.

Section tables.
Context `{Platform}.

Lemma well_keyed_datetime r :
  well_keyed r = true → is_ok (datetime_key false r).
Proof.
  unfold well_keyed, datetime_key.
  repeat case_match; try done; try (by eexists);
    intros [? Hsome]%bool_decide_eq_true; congruence.
Qed.

Lemma well_keyed_date r : well_keyed r = true → is_ok (date_key r).
Proof.
  unfold well_keyed, date_key. repeat case_match; try done; by eexists.
Qed.

Lemma well_keyed_hashable r subset :
  subset ⊆ ["data"; "hora"] → well_keyed r = true →
  hashable (subset_key subset r) = true.
Proof.
  intros Hsub Hr. unfold hashable, subset_key. apply forallb_forall.
  intros c (k & -> & Hk%Hsub)%list_elem_of_In%list_elem_of_fmap.
  unfold well_keyed in Hr.
  apply elem_of_cons in Hk as [->|Hk%list_elem_of_singleton]; subst;
    repeat case_match; simplify_eq; done.
Qed.

Lemma keep_last_Forall (P : row → Prop) subset l :
  Forall P l → Forall P (keep_last subset l).
Proof.
  rewrite !Forall_forall. intros HP r Hr%keep_last_elem_of. auto.
Qed.

(** The merge completes on tables whose key cells are well formed. *)
Lemma merge_sheet_is_ok existing_data sheet_name new_df :
  (∀ existing_df, dict_get sheet_name existing_data = Some existing_df →
     forallb well_keyed (rows existing_df) = true) →
  forallb well_keyed (rows new_df) = true →
  is_ok (merge_sheet existing_data sheet_name new_df).
Proof.
  intros Hex Hnew.
  destruct (dict_get sheet_name existing_data) as [existing_df|] eqn:Hget;
    [|rewrite merge_sheet_new by done; by eexists].
  destruct (empty existing_df) eqn:Hempty.
  { unfold merge_sheet. rewrite Hget, Hempty. by eexists. }
  destruct (decide (sheet_name = summary_sheet)) as [->|Hsum].
  { rewrite merge_sheet_summary. by eexists. }
  rewrite (merge_sheet_stored _ _ existing_df) by done.
  specialize (Hex _ eq_refl).
  assert (Forall (fun r => well_keyed r = true)
            (rows (concat existing_df new_df))) as Hall.
  { simpl. apply Forall_app.
    split; apply Forall_forall; intros r Hr%list_elem_of_In.
    - by apply (proj1 (forallb_forall _ _) Hex).
    - by apply (proj1 (forallb_forall _ _) Hnew). }
  assert (∃ d, dedup_by (dedup_key existing_df new_df)
                 (concat existing_df new_df) = OK d
               ∧ Forall (fun r => well_keyed r = true) (rows d))
    as (d & -> & Hd).
  { destruct (dedup_key existing_df new_df); simpl; [| |by eauto].
    all: rewrite drop_duplicates_hashable;
      [eexists; split; [done|]; by apply keep_last_Forall|].
    all: eapply Forall_impl; [exact Hall|]; intros r Hr.
    all: apply well_keyed_hashable; [set_solver|done]. }
  simpl. destruct (sort_order existing_df new_df); simpl.
  - unfold sort_values_datetime.
    destruct (sort_rows_is_ok Z.leb (datetime_key false) (rows d)) as [rs ->];
      [|by eexists].
    eapply Forall_impl; [exact Hd|]. apply well_keyed_datetime.
  - unfold sort_values_data.
    destruct (sort_rows_is_ok String.leb date_key (rows d)) as [rs ->];
      [|by eexists].
    eapply Forall_impl; [exact Hd|]. apply well_keyed_date.
  - by eexists.
Qed.

(** Two rows with the same date and time cells have the same instant. *)
Lemma datetime_key_subset c r1 r2 :
  subset_key ["data"; "hora"] r1 = subset_key ["data"; "hora"] r2 →
  datetime_key c r1 = datetime_key c r2.
Proof. unfold subset_key, datetime_key. by intros [= -> ->]. Qed.

Lemma date_key_subset r1 r2 :
  subset_key ["data"] r1 = subset_key ["data"] r2 → date_key r1 = date_key r2.
Proof. unfold subset_key, date_key. by intros [= ->]. Qed.

Lemma strictly_ordered_NoDup k l :
  k ≠ NoKey → strictly_ordered_by k l = true →
  NoDup (subset_key (key_columns k) <$> l).
Proof.
  destruct k; simpl; try done; intros _.
  - intros [Hs _]%andb_true_iff. revert Hs.
    apply (strictly_sorted_NoDup Z.leb), datetime_key_subset.
  - apply (strictly_sorted_NoDup String.leb), date_key_subset.
Qed.

Lemma sort_by_unique k df l :
  strictly_ordered_by k l = true → rows df ≡ₚ l →
  (k = NoKey → rows df = l) →
  sort_by k df = OK (mkDataFrame (columns df) l).
Proof.
  destruct k; simpl.
  - intros [Hs _]%andb_true_iff Hperm _. unfold sort_values_datetime.
    by rewrite (sort_rows_unique Z.leb _ l).
  - intros Hs Hperm _. unfold sort_values_data.
    by rewrite (sort_rows_unique String.leb _ l).
  - intros _ _ <-; [|done]. by destruct df.
Qed.

End tables.

Section absorb.
Context `{Platform}.

Lemma frame_order_concat existing_df new_df :
  columns new_df ⊆ columns existing_df →
  frame_order (concat existing_df new_df) = frame_order existing_df.
Proof.
  intros Hsub. unfold frame_order, has_column.
  by rewrite concat_columns_sub.
Qed.

Lemma dedup_key_same_columns existing_df new_df :
  columns new_df = columns existing_df →
  dedup_key existing_df new_df = frame_order existing_df.
Proof.
  intros Hcols. unfold dedup_key, frame_order, has_column. rewrite Hcols.
  by repeat case_bool_decide.
Qed.

Lemma dedup_key_no_columns existing_df new_df :
  columns new_df = [] → dedup_key existing_df new_df = NoKey.
Proof.
  intros Hcols. unfold dedup_key, has_column. rewrite Hcols.
  case_bool_decide as Hin; [by apply elem_of_nil in Hin|done].
Qed.

Lemma strictly_ordered_hashable k l :
  strictly_ordered_by k l = true →
  Forall (fun r => hashable (subset_key (key_columns k) r) = true) l.
Proof.
  destruct k; simpl.
  - intros [_ Hh]%andb_true_iff. apply Forall_forall.
    intros r Hr%list_elem_of_In. by apply (proj1 (forallb_forall _ _) Hh).
  - unfold strictly_sorted.
    destruct (mapM_result date_key l) as [ks|] eqn:Hks; [|done]. intros _.
    revert ks Hks. induction l as [|r l IH]; intros ks; simpl; [done|].
    intros (k & Hk & (ks' & Hks' & _)%bind_OK)%bind_OK.
    constructor; [|by eapply IH].
    unfold date_key in Hk. by repeat case_match.
  - intros _. by apply Forall_true.
Qed.

(** A table in strict chronological order absorbs rows it already has:
    merging them in gives back the table, row for row. *)
Lemma merge_sheet_absorbs existing_data sheet_name existing_df new_df :
  dict_get sheet_name existing_data = Some existing_df →
  empty existing_df = false →
  sheet_name ≠ summary_sheet →
  chronological existing_df = true →
  columns new_df ⊆ columns existing_df →
  (∀ r, r ∈ rows new_df → r ∈ rows existing_df) →
  dedup_key existing_df new_df = frame_order existing_df
    ∧ frame_order existing_df ≠ NoKey
  ∨ rows new_df = []
    ∧ (dedup_key existing_df new_df = frame_order existing_df
       ∨ dedup_key existing_df new_df = NoKey) →
  merge_sheet existing_data sheet_name new_df = OK existing_df.
Proof.
  intros Hget Hne Hsum Hchron Hcols Hrows Hkey.
  rewrite (merge_sheet_stored _ _ existing_df) by done.
  unfold chronological in Hchron.
  assert (sort_order existing_df new_df = frame_order existing_df) as Hso.
  { unfold sort_order.
    destruct Hkey as [[-> ?]|[_ [->| ->]]];
      rewrite ?frame_order_concat by done; by destruct (frame_order _). }
  rewrite Hso.
  assert (∃ d, dedup_by (dedup_key existing_df new_df)
                 (concat existing_df new_df) = OK d
               ∧ columns d = columns existing_df
               ∧ rows d ≡ₚ rows existing_df
               ∧ (frame_order existing_df = NoKey → rows d = rows existing_df))
    as (d & -> & Hdc & Hdr & Hdn).
  { assert (dedup_key existing_df new_df = NoKey ∧ rows new_df = []
            ∨ dedup_key existing_df new_df = frame_order existing_df
              ∧ frame_order existing_df ≠ NoKey)
      as [[-> Hnil]|[-> Hk]].
    { destruct Hkey as [[? ?]|[? [Hk| ->]]]; auto.
      destruct (frame_order existing_df) eqn:Hfo; auto; right; by rewrite Hfo. }
    - exists (concat existing_df new_df).
      split; [done|]. split; [by apply concat_columns_sub|].
      simpl. by rewrite Hnil, app_nil_r.
    - exists (mkDataFrame (columns existing_df)
                (keep_last (key_columns (frame_order existing_df))
                   (rows existing_df ++ rows new_df))).
      split; [|split; [done|split; [|done]]].
      + assert (dedup_by (frame_order existing_df) (concat existing_df new_df)
                = drop_duplicates (key_columns (frame_order existing_df))
                    (concat existing_df new_df)) as ->
          by by destruct (frame_order existing_df).
        rewrite drop_duplicates_hashable.
        * by rewrite concat_columns_sub.
        * simpl. apply Forall_app.
          assert (Hh := strictly_ordered_hashable _ _ Hchron).
          split; [done|]. apply Forall_forall. intros r Hr%Hrows.
          by eapply Forall_forall in Hh.
      + simpl. apply keep_last_absorb; [|done].
        by apply strictly_ordered_NoDup. }
  simpl. rewrite (sort_by_unique _ _ (rows existing_df)); try done.
  rewrite Hdc. by destruct existing_df.
Qed.

End absorb.

(** ** The store *)

Lemma stored_table_workbook (fs : filesystem) filename frames sheet_name :
  stored_table (<[filename := workbook_of frames]> fs) filename sheet_name
  = dict_get sheet_name frames.
Proof.
  unfold stored_table, workbook_of. rewrite lookup_insert_eq, dict_get_fmap.
  by destruct (dict_get sheet_name frames).
Qed.

Lemma stored_table_other (fs : filesystem) filename other f sheet_name :
  other ≠ filename →
  stored_table (<[other := f]> fs) filename sheet_name
  = stored_table fs filename sheet_name.
Proof. intros Hne. unfold stored_table. by rewrite lookup_insert_ne. Qed.

Lemma read_sheets_parsed frames acc :
  NoDup (acc.*1 ++ frames.*1) →
  read_sheets (prod_map id Parsed <$> frames) acc = OK (acc ++ frames).
Proof.
  revert acc. induction frames as [|[n df] frames IH]; intros acc; csimpl.
  - intros _. by rewrite app_nil_r.
  - intros Hnd. rewrite dict_set_fresh.
    + rewrite IH; [by rewrite <-app_assoc|].
      by rewrite fmap_app, <-app_assoc.
    + apply NoDup_app in Hnd as (_ & Hnd & _). intros Hin.
      apply (Hnd n Hin). by left.
Qed.

Lemma read_existing_workbook frames :
  NoDup frames.*1 → read_existing (workbook_of frames) = frames.
Proof.
  intros Hnd. unfold read_existing, workbook_of.
  by rewrite read_sheets_parsed.
Qed.

Lemma read_sheets_garbled sheets acc sheet_name :
  (sheet_name, Garbled) ∈ sheets → ∃ e, read_sheets sheets acc = Raise e.
Proof.
  revert acc. induction sheets as [|[n s] sheets IH]; intros acc;
    [by intros ?%elem_of_nil|].
  intros [[= <- <-]|Hin]%elem_of_cons; simpl; [by eexists|].
  destruct s; [by apply IH|by eexists].
Qed.

Section store.
Context `{Platform}.

Lemma combine_OK existing_data items acc combined_data :
  NoDup (acc.*1 ++ items.*1) →
  combine existing_data items acc = OK combined_data →
  ∃ ms, combined_data = acc ++ ms
        ∧ Forall2 (merged_from existing_data) items ms.
Proof.
  revert acc. induction items as [|[n new_df] items IH]; intros acc Hnd; simpl.
  - intros [= <-]. exists []. by rewrite app_nil_r.
  - intros (m & Hm & Hrest)%bind_OK.
    rewrite dict_set_fresh in Hrest.
    + apply IH in Hrest as (ms & -> & Hms).
      * exists ((n, m) :: ms). rewrite <-app_assoc. split; [done|].
        by constructor.
      * by rewrite fmap_app, <-app_assoc.
    + apply NoDup_app in Hnd as (_ & Hnd & _). intros Hin.
      apply (Hnd n Hin). by left.
Qed.

Lemma combine_merged existing_data items ms :
  NoDup items.*1 → Forall2 (merged_from existing_data) items ms →
  combine existing_data items [] = OK ms.
Proof.
  intros Hnd Hms.
  enough (∀ acc, NoDup (acc.*1 ++ items.*1) →
            combine existing_data items acc = OK (acc ++ ms)) as Hgen
    by by apply (Hgen []).
  clear Hnd. induction Hms as [|[n new_df] [n' m] items ms [Hn Hm] _ IH];
    intros acc Hnd; simpl in *.
  - by rewrite app_nil_r.
  - subst n'. rewrite Hm. simpl. rewrite dict_set_fresh.
    + rewrite IH; [by rewrite <-app_assoc|].
      by rewrite fmap_app, <-app_assoc.
    + apply NoDup_app in Hnd as (_ & Hnd & _). intros Hin.
      apply (Hnd n Hin). by left.
Qed.

Lemma merged_from_names existing_data items ms :
  Forall2 (merged_from existing_data) items ms → ms.*1 = items.*1.
Proof. induction 1 as [|?? ?? [? _]]; simpl; [done|]. by f_equal. Qed.

Lemma merged_from_get existing_data items ms sheet_name new_df :
  Forall2 (merged_from existing_data) items ms →
  dict_get sheet_name items = Some new_df →
  ∃ m, merge_sheet existing_data sheet_name new_df = OK m
       ∧ dict_get sheet_name ms = Some m.
Proof.
  induction 1 as [|[n d] [n' m] items ms [Hn Hm] _ IH]; simpl in *; [done|].
  subst n'. case_bool_decide; subst; [|done].
  intros [= ->]. by exists m.
Qed.

Lemma excel_write_OK fs filename dataframes_dict fs' :
  excel_write fs filename dataframes_dict = (OK (), fs') →
  fs' = <[filename :=
            workbook_of (filter (fun e => empty e.2 = false) dataframes_dict)]> fs.
Proof. unfold excel_write. case_match; [done|]. by intros [= <-]. Qed.

Lemma excel_write_some fs filename dataframes_dict sheet_name df :
  dict_get sheet_name dataframes_dict = Some df → empty df = false →
  excel_write fs filename dataframes_dict
  = (OK (),
     <[filename :=
         workbook_of (filter (fun e => empty e.2 = false) dataframes_dict)]> fs).
Proof.
  intros Hget Hne. unfold excel_write.
  pose proof (dict_get_filter (fun e => empty e.2 = false)
                dataframes_dict sheet_name df Hget Hne) as Hf.
  by destruct (filter _ dataframes_dict).
Qed.

(** No sheet without rows is ever written. *)
Lemma excel_write_no_empty_sheet fs filename dataframes_dict sheet_name df :
  stored_table (excel_write fs filename dataframes_dict).2 filename sheet_name
  = Some df →
  empty df = false.
Proof.
  unfold excel_write.
  destruct (filter _ dataframes_dict) as [|e w] eqn:Hf; simpl.
  - unfold stored_table. by rewrite lookup_insert_eq.
  - rewrite stored_table_workbook, <-Hf. clear Hf.
    induction dataframes_dict as [|[n d] l IH]; simpl; [done|].
    rewrite filter_cons. case_decide as Hd; simpl in *; [|done].
    case_bool_decide; [|done]. by intros [= <-].
Qed.

(** The outcomes of [save_precipitation_data]: the merged tables went to
    the file, or nothing did and a backup was attempted. *)
Lemma save_saved fs dataframes_dict filename backup_filename fs' :
  save_precipitation_data fs dataframes_dict filename backup_filename
  = (Saved, fs') →
  dirname filename ≠ ""
  ∧ ∃ combined_data,
      match fs !! filename with
      | Some f => combine (read_existing f) dataframes_dict [] = OK combined_data
      | None => combined_data = dataframes_dict
      end
      ∧ fs' = <[filename :=
                  workbook_of (filter (fun e => empty e.2 = false)
                                 combined_data)]> fs.
Proof.
  unfold save_precipitation_data, save_attempt.
  case_bool_decide as Hdir.
  { destruct (excel_write _ _ _) as [[] ?]; done. }
  intros Hsave. split; [done|].
  destruct (fs !! filename) as [f|].
  - destruct (combine _ _ _) as [combined_data|e] eqn:Hc.
    + exists combined_data. split; [done|].
      destruct (excel_write fs filename combined_data) as [[[]|] fs1] eqn:Hw.
      * apply excel_write_OK in Hw. by simplify_eq.
      * destruct (excel_write fs1 _ _) as [[] ?]; done.
    + destruct (excel_write _ _ _) as [[] ?]; done.
  - exists dataframes_dict. split; [done|].
    destruct (excel_write fs filename dataframes_dict) as [[[]|] fs1] eqn:Hw.
    + apply excel_write_OK in Hw. by simplify_eq.
    + destruct (excel_write fs1 _ _) as [[] ?]; done.
Qed.

(** When a backup is saved, it holds the tables the failed attempt was
    about to write, and the file itself is as before. *)
Lemma save_backup_saved fs dataframes_dict filename backup_filename fs' :
  save_precipitation_data fs dataframes_dict filename backup_filename
  = (BackupSaved, fs') →
  ∃ written,
    written_tables fs dataframes_dict filename written
    ∧ fs' = <[backup_filename :=
                workbook_of (filter (fun e => empty e.2 = false) written)]> fs.
Proof.
  unfold save_precipitation_data, save_attempt, written_tables.
  assert (∀ fs0 d, (let '(r, fs1) := excel_write fs0 backup_filename d in
                    match r with
                    | OK _ => (BackupSaved, fs1)
                    | Raise _ => (BackupFailed, fs1)
                    end) = (BackupSaved, fs') →
            fs' = <[backup_filename :=
                      workbook_of (filter (fun e => empty e.2 = false) d)]> fs0)
    as Hbackup.
  { intros fs0 d. destruct (excel_write fs0 backup_filename d) as [[[]|] fs1] eqn:Hw;
      [|done]. apply excel_write_OK in Hw. by intros [= <-]. }
  assert (∀ d, excel_write fs filename d
               = match filter (fun e => empty e.2 = false) d with
                 | [] => (Raise IndexError, <[filename := Unreadable]> fs)
                 | w => (OK (), <[filename := workbook_of w]> fs)
                 end) as Hw by done.
  assert (∀ fs0 d, filter (fun e => empty e.2 = false) d = [] →
            (excel_write fs0 backup_filename d).1 = Raise IndexError) as Hnone.
  { intros fs0 d Hnil. unfold excel_write. by rewrite Hnil. }
  case_bool_decide as Hdir.
  { intros Hb%Hbackup. eauto. }
  destruct (fs !! filename) as [f|] eqn:Hfs.
  - destruct (combine _ _ _) as [combined_data|e] eqn:Hc.
    + rewrite Hw.
      destruct (filter _ combined_data) as [|e w] eqn:Hf; [|done].
      specialize (Hnone (<[filename := Unreadable]> fs) combined_data Hf).
      destruct (excel_write _ backup_filename combined_data) as [[] ?];
        simpl in *; done.
    + intros Hb%Hbackup. eauto.
  - rewrite Hw.
    destruct (filter _ dataframes_dict) as [|e w] eqn:Hf; [|done].
    specialize (Hnone (<[filename := Unreadable]> fs) dataframes_dict Hf).
    destruct (excel_write _ backup_filename dataframes_dict) as [[] ?];
      simpl in *; done.
Qed.

(** Without a directory in its name the file is never written:
    [os.makedirs('')] raises, and the tables go to the backup. *)
Lemma save_without_directory fs dataframes_dict filename backup_filename :
  dirname filename = "" →
  save_precipitation_data fs dataframes_dict filename backup_filename
  = match excel_write fs backup_filename dataframes_dict with
    | (OK _, fs') => (BackupSaved, fs')
    | (Raise _, fs') => (BackupFailed, fs')
    end.
Proof.
  intros Hdir. unfold save_precipitation_data, save_attempt.
  by rewrite bool_decide_eq_true_2.
Qed.

End store.

Lemma subset_key_date_of_both r1 r2 :
  subset_key ["data"; "hora"] r1 = subset_key ["data"; "hora"] r2 →
  subset_key ["data"] r1 = subset_key ["data"] r2.
Proof. unfold subset_key. intros [= Hd _]. csimpl. by rewrite Hd. Qed.

Lemma NoDup_fmap_coarser {A B C} (f : A → B) (g : A → C) (l : list A) :
  (∀ x y, g x = g y → f x = f y) → NoDup (f <$> l) → NoDup (g <$> l).
Proof.
  intros Hfg. induction l as [|a l IH]; csimpl; [constructor|].
  intros [Ha Hl]%NoDup_cons. constructor; [|by apply IH].
  intros (b & Hb & Hin)%list_elem_of_fmap. apply Ha.
  rewrite (Hfg _ _ Hb). by apply list_elem_of_fmap_2.
Qed.

Section merge_properties.
Context `{Platform}.

(** X22.  After a merge with a stored table that is not empty, a table for
    which a key is available (both tables carry the date column, or both
    carry the date and the time-of-day columns) has no two rows with the
    same key; in either case no two rows share date and time of day. *)
Theorem merged_keys_unique existing_data sheet_name existing_df new_df merged :
  dict_get sheet_name existing_data = Some existing_df →
  empty existing_df = false →
  sheet_name ≠ summary_sheet →
  dedup_key existing_df new_df ≠ NoKey →
  merge_sheet existing_data sheet_name new_df = OK merged →
  NoDup (subset_key (key_columns (dedup_key existing_df new_df))
           <$> rows merged)
  ∧ NoDup (subset_key ["data"; "hora"] <$> rows merged).
Proof.
  intros Hget Hne Hsum Hkey Hmerge.
  destruct (merge_sheet_stored_OK _ _ _ _ _ Hget Hne Hsum Hmerge)
    as (_ & Hrows & _).
  assert (NoDup (subset_key (key_columns (dedup_key existing_df new_df))
                   <$> rows merged)) as Hnd.
  { rewrite Hrows. destruct (dedup_key existing_df new_df); try done;
      apply keep_last_NoDup. }
  split; [done|].
  destruct (dedup_key existing_df new_df); simpl in *; try done.
  eapply NoDup_fmap_coarser; [|exact Hnd]. apply subset_key_date_of_both.
Qed.

(** C1.  In [save_precipitation_data], when the stored table is not empty
    and both tables carry the key columns, the merged table is the
    concatenation, stored rows first, less the rows whose key comes again
    later, in sorted order.  So for a key found in both tables the merged
    table has one row, the last row of the new table with that key.  The
    merge completes when the key cells of both tables are well formed. *)
Theorem refetched_row_replaces_stored
    existing_data sheet_name existing_df new_df :
  dict_get sheet_name existing_data = Some existing_df →
  empty existing_df = false →
  sheet_name ≠ summary_sheet →
  dedup_key existing_df new_df ≠ NoKey →
  let key := subset_key (key_columns (dedup_key existing_df new_df)) in
  (forallb well_keyed (rows existing_df) = true →
   forallb well_keyed (rows new_df) = true →
   is_ok (merge_sheet existing_data sheet_name new_df))
  ∧ ∀ merged,
      merge_sheet existing_data sheet_name new_df = OK merged →
      rows merged ≡ₚ
        keep_last (key_columns (dedup_key existing_df new_df))
          (rows existing_df ++ rows new_df)
      ∧ ∀ k, k ∈ key <$> rows existing_df → k ∈ key <$> rows new_df →
          ∃ r, filter (fun x => key x = k) (rows merged) = [r]
               ∧ last (filter (fun x => key x = k) (rows new_df)) = Some r.
Proof.
  intros Hget Hne Hsum Hkey key. split.
  { intros Hex Hnew. apply merge_sheet_is_ok; [|done].
    intros ? Hget'. rewrite Hget in Hget'. by injection Hget' as <-. }
  intros merged Hmerge.
  destruct (merge_sheet_stored_OK _ _ _ _ _ Hget Hne Hsum Hmerge)
    as (_ & Hrows & _).
  assert (rows merged ≡ₚ
            keep_last (key_columns (dedup_key existing_df new_df))
              (rows existing_df ++ rows new_df)) as Hperm
    by by destruct (dedup_key existing_df new_df).
  split; [done|]. intros k _ Hnew.
  assert (∃ r, last (filter (fun x => key x = k) (rows new_df)) = Some r)
    as [r Hr].
  { apply last_is_Some. apply list_elem_of_fmap in Hnew as (x & -> & Hx).
    intros Hnil. by apply (filter_nil_not_elem_of _ _ x Hnil). }
  exists r. split; [|done].
  apply Permutation_singleton_r. rewrite Hperm.
  unfold key. rewrite keep_last_filter, filter_app, last_app. fold key.
  by rewrite Hr.
Qed.

(** C4.  A table merged with a stored table that is not empty comes out in
    the order the merge sorts by: by date and time of day when both tables
    carry both columns, or when they share no key and the concatenation has
    both; by date when they share the date only, or share no key and the
    concatenation has the date only; when the concatenation has no date
    column its rows are left as they are.  A table with no stored
    counterpart is taken over in the order given. *)
Theorem merged_rows_sorted existing_data sheet_name existing_df new_df merged :
  dict_get sheet_name existing_data = Some existing_df →
  empty existing_df = false →
  sheet_name ≠ summary_sheet →
  merge_sheet existing_data sheet_name new_df = OK merged →
  ordered_by (sort_order existing_df new_df) (rows merged)
  ∧ (sort_order existing_df new_df = NoKey →
     rows merged = rows existing_df ++ rows new_df).
Proof.
  intros Hget Hne Hsum Hmerge.
  destruct (merge_sheet_stored_OK _ _ _ _ _ Hget Hne Hsum Hmerge)
    as (_ & _ & Hord).
  split; [done|]. intros Hso.
  rewrite (merge_sheet_stored _ _ existing_df) in Hmerge by done.
  rewrite Hso in Hmerge. unfold sort_order in Hso.
  destruct (dedup_key existing_df new_df); try done.
  simpl in Hmerge. by injection Hmerge as <-.
Qed.

End merge_properties.

Lemma stored_table_lookup (fs : filesystem) filename frames sheet_name :
  fs !! filename = Some (workbook_of frames) →
  stored_table fs filename sheet_name = dict_get sheet_name frames.
Proof.
  intros Hfs. unfold stored_table, workbook_of in *.
  rewrite Hfs, dict_get_fmap. by destruct (dict_get sheet_name frames).
Qed.

Lemma excel_write_insert fs filename dataframes_dict :
  ∃ f, (excel_write fs filename dataframes_dict).2 = <[filename := f]> fs.
Proof. unfold excel_write. case_match; by eexists. Qed.

Lemma dict_get_nonempty (d : dict DataFrame) sheet_name df :
  NoDup d.*1 → dict_get sheet_name d = Some df →
  dict_get sheet_name (filter (fun e => empty e.2 = false) d)
  = if empty df then None else Some df.
Proof.
  intros Hnd Hget. destruct (empty df) eqn:He.
  - eapply dict_get_filter_out; [done..|]. simpl. by rewrite He.
  - by apply (dict_get_filter (fun e => empty e.2 = false)).
Qed.

Section store_properties.
Context `{Platform}.

(** The file is left as it was whenever nothing is saved to it. *)
Lemma backup_leaves_file fs dataframes_dict filename backup_filename sheet_name :
  backup_filename ≠ filename →
  stored_table
    (let '(_, fs') := excel_write fs backup_filename dataframes_dict in fs')
    filename sheet_name
  = stored_table fs filename sheet_name.
Proof.
  intros Hne. destruct (excel_write_insert fs backup_filename dataframes_dict)
    as [f Hf].
  destruct (excel_write fs backup_filename dataframes_dict) as [r fs'].
  simpl in Hf. subst. by apply stored_table_other.
Qed.

(** C3.  A stored table that is not empty, is not the summary and is in
    strict chronological order is merged with a new table without rows
    (without columns either, or with the columns of the stored table) into
    itself; whatever the outcome of the save, the file holds that table
    afterwards, row for row; and no sheet without rows is ever written. *)
Theorem empty_new_table_is_noop fs dataframes_dict filename backup_filename
    stored sheet_name existing_df new_df :
  fs !! filename = Some (workbook_of stored) →
  NoDup stored.*1 →
  NoDup dataframes_dict.*1 →
  backup_filename ≠ filename →
  dict_get sheet_name stored = Some existing_df →
  empty existing_df = false →
  sheet_name ≠ summary_sheet →
  chronological existing_df = true →
  dict_get sheet_name dataframes_dict = Some new_df →
  rows new_df = [] →
  columns new_df = [] ∨ columns new_df = columns existing_df →
  merge_sheet stored sheet_name new_df = OK existing_df
  ∧ stored_table
      (save_precipitation_data fs dataframes_dict filename backup_filename).2
      filename sheet_name = Some existing_df
  ∧ ∀ fs0 filename0 d name df,
      stored_table (excel_write fs0 filename0 d).2 filename0 name = Some df →
      empty df = false.
Proof.
  intros Hfs Hnds Hndd Hbackup Hget Hne Hsum Hchron Hnew Hrows Hcols.
  assert (merge_sheet stored sheet_name new_df = OK existing_df) as Hmerge.
  { apply merge_sheet_absorbs; try done.
    - destruct Hcols as [-> | ->]; [apply list_subseteq_nil|done].
    - rewrite Hrows. by intros r ?%elem_of_nil.
    - right. split; [done|]. destruct Hcols as [Hc|Hc].
      + right. by apply dedup_key_no_columns.
      + left. by apply dedup_key_same_columns. }
  split; [done|]. split; [|intros; by eapply excel_write_no_empty_sheet].
  assert (stored_table fs filename sheet_name = Some existing_df) as Hold
    by by rewrite (stored_table_lookup _ _ stored).
  unfold save_precipitation_data, save_attempt.
  pose proof (backup_leaves_file fs dataframes_dict filename backup_filename
                sheet_name Hbackup) as Hb.
  case_bool_decide as Hdir.
  { destruct (excel_write fs backup_filename dataframes_dict) as [[] ?];
      simpl in *; congruence. }
  rewrite Hfs, read_existing_workbook by done.
  destruct (combine stored dataframes_dict []) as [combined_data|e] eqn:Hc.
  - apply combine_OK in Hc as (ms & -> & Hms); [|done]. simpl.
    destruct (merged_from_get _ _ _ _ _ Hms Hnew) as (m & Hm & Hgetm).
    rewrite Hmerge in Hm. injection Hm as <-.
    rewrite (excel_write_some _ _ _ sheet_name existing_df) by done. simpl.
    rewrite stored_table_workbook.
    by apply (dict_get_filter (fun e => empty e.2 = false)).
  - destruct (excel_write fs backup_filename dataframes_dict) as [[] ?];
      simpl in *; congruence.
Qed.

(** C5.  A stored table with a date column that is in strict chronological
    order, as a merge leaves it, is merged with a new table of the same
    columns whose rows are rows of it into itself: same rows, same order. *)
Theorem remerging_stored_rows_is_noop
    existing_data sheet_name existing_df new_df :
  dict_get sheet_name existing_data = Some existing_df →
  empty existing_df = false →
  sheet_name ≠ summary_sheet →
  has_column "data" existing_df = true →
  chronological existing_df = true →
  columns new_df = columns existing_df →
  (∀ r, r ∈ rows new_df → r ∈ rows existing_df) →
  merge_sheet existing_data sheet_name new_df = OK existing_df.
Proof.
  intros Hget Hne Hsum Hdata Hchron Hcols Hrows.
  apply merge_sheet_absorbs; try done.
  - by rewrite Hcols.
  - left. split; [by apply dedup_key_same_columns|].
    unfold frame_order. rewrite Hdata. simpl. by case_match.
Qed.

Lemma dataframes_of_names historical_df current_df forecast_df hourly_df
    dataframes :
  dataframes_of historical_df current_df forecast_df hourly_df = OK dataframes →
  NoDup dataframes.*1
  ∧ ∃ all_daily_data summary_df,
      sorted_if_dated (concat3 historical_df current_df forecast_df)
      = OK all_daily_data
      ∧ create_precipitation_summary all_daily_data = OK summary_df
      ∧ dict_get summary_sheet dataframes = Some summary_df
      ∧ dict_get "Dados_Horarios" dataframes
        = if empty hourly_df then None else Some hourly_df.
Proof.
  unfold dataframes_of.
  intros (all_daily_data & Hall & (summary_df & Hsum & (hs & _ &
           (fs & _ & [= <-])%bind_OK)%bind_OK)%bind_OK)%bind_OK.
  split.
  - destruct (empty hourly_df); simpl;
      by apply (bool_decide_unpack _); vm_compute.
  - exists all_daily_data, summary_df. by destruct (empty hourly_df).
Qed.

Lemma save_saved_written fs dataframes_dict filename backup_filename fs' :
  save_precipitation_data fs dataframes_dict filename backup_filename
  = (Saved, fs') →
  ∃ written,
    written_tables fs dataframes_dict filename written
    ∧ fs' = <[filename :=
                workbook_of (filter (fun e => empty e.2 = false) written)]> fs.
Proof.
  intros (_ & combined_data & Hc & ->)%save_saved.
  exists combined_data. split; [|done]. unfold written_tables.
  destruct (fs !! filename); eauto.
Qed.

Lemma written_tables_summary fs dataframes_dict filename written summary_df :
  NoDup dataframes_dict.*1 →
  dict_get summary_sheet dataframes_dict = Some summary_df →
  written_tables fs dataframes_dict filename written →
  NoDup written.*1 ∧ dict_get summary_sheet written = Some summary_df.
Proof.
  intros Hnd Hget [-> | (f & _ & Hc)]; [done|].
  apply combine_OK in Hc as (ms & -> & Hms); [|done]. simpl.
  destruct (merged_from_get _ _ _ _ _ Hms Hget) as (m & Hm & Hgetm).
  rewrite merge_sheet_summary in Hm. injection Hm as <-.
  by rewrite (merged_from_names _ _ _ Hms).
Qed.

(** C6.  The merge gives back the new summary whatever is stored; when a
    cycle saves, to the file or to the backup, the summary sheet written is
    the summary computed from the daily table fetched in that cycle (no
    sheet when that summary is empty). *)
Theorem summary_is_replaced :
  (∀ existing_data new_df,
     merge_sheet existing_data summary_sheet new_df = OK new_df)
  ∧ ∀ fs historical_df current_df forecast_df hourly_df
      filename backup_filename dataframes o fs',
      extract_precipitation_data fs historical_df current_df forecast_df
        hourly_df filename backup_filename = OK (dataframes, (o, fs')) →
      o ≠ BackupFailed →
      ∃ all_daily_data summary_df,
        sorted_if_dated (concat3 historical_df current_df forecast_df)
        = OK all_daily_data
        ∧ create_precipitation_summary all_daily_data = OK summary_df
        ∧ stored_table fs' (written_file o filename backup_filename)
            summary_sheet
          = if empty summary_df then None else Some summary_df.
Proof.
  split; [apply merge_sheet_summary|].
  intros fs historical_df current_df forecast_df hourly_df filename
    backup_filename dataframes o fs'.
  unfold extract_precipitation_data.
  intros (d & Hd & [= -> Hsave])%bind_OK Ho.
  apply dataframes_of_names in Hd
    as (Hnd & all_daily_data & summary_df & Hall & Hsum & Hget & _).
  exists all_daily_data, summary_df. split; [done|]. split; [done|].
  assert (∃ written,
            written_tables fs dataframes filename written
            ∧ fs' = <[written_file o filename backup_filename :=
                        workbook_of (filter (fun e => empty e.2 = false)
                                       written)]> fs)
    as (written & Hwritten & ->).
  { destruct o; [by eapply save_saved_written|by eapply save_backup_saved|done]. }
  destruct (written_tables_summary _ _ _ _ _ Hnd Hget Hwritten).
  rewrite stored_table_workbook. by apply dict_get_nonempty.
Qed.

End store_properties.

Lemma read_existing_load_fails f : load_fails f = true → read_existing f = [].
Proof.
  destruct f as [sheets|]; [|done]. simpl.
  intros (e & He%list_elem_of_In & Hg)%existsb_exists.
  destruct e as [n []]; [done|].
  by destruct (read_sheets_garbled sheets [] n He) as [? ->].
Qed.

Section load_properties.
Context `{Platform}.

Lemma merged_from_nothing (d : dict DataFrame) :
  Forall2 (merged_from []) d d.
Proof.
  induction d as [|[n df] d IH]; constructor; [|done].
  split; [done|]. by apply merge_sheet_new.
Qed.

(** C9.  Loading never stops the cycle.  When the file does not exist the
    new tables are saved as they are.  When the file cannot be opened, or
    any one of its sheets cannot be parsed, every stored table counts as
    absent: the outcome is the same as without a file, the new tables
    alone are saved. *)
Theorem failed_load_is_no_prior_data :
  (∀ f, load_fails f = true → read_existing f = [])
  ∧ ∀ fs dataframes_dict filename backup_filename,
      dirname filename ≠ "" →
      NoDup dataframes_dict.*1 →
      filter (fun e => empty e.2 = false) dataframes_dict ≠ [] →
      fs !! filename = None
      ∨ (∃ f, fs !! filename = Some f ∧ load_fails f = true) →
      save_precipitation_data fs dataframes_dict filename backup_filename
      = (Saved,
         <[filename := workbook_of
                         (filter (fun e => empty e.2 = false) dataframes_dict)]>
           fs).
Proof.
  split; [apply read_existing_load_fails|].
  intros fs d filename backup Hdir Hnd Hsome Hfile.
  assert (excel_write fs filename d
          = (OK (), <[filename := workbook_of
                                    (filter (fun e => empty e.2 = false) d)]> fs))
    as Hw.
  { unfold excel_write. by destruct (filter _ d). }
  unfold save_precipitation_data, save_attempt.
  rewrite bool_decide_eq_false_2 by done.
  destruct Hfile as [-> | (f & -> & Hf)]; [by rewrite Hw|].
  rewrite (read_existing_load_fails f Hf).
  rewrite (combine_merged [] d d Hnd (merged_from_nothing d)).
  by rewrite Hw.
Qed.

(** C10.  [save_to_excel] returns [False] and leaves the file system as it
    is when every instant of the new records is among the instants of the
    stored sheet, and when there is no new record. *)
Theorem no_new_record_no_write :
  (∀ fs FILENAME new_data sheets df_existing existing_keys new_keys,
     fs !! FILENAME = Some (Workbook sheets) →
     dict_get "Dados_Completos" sheets = Some (Parsed df_existing) →
     datetime_temp true df_existing = OK existing_keys →
     datetime_temp false (frame_of_records new_data) = OK new_keys →
     Forall (fun k => k ∈ existing_keys) new_keys →
     save_to_excel fs FILENAME new_data = (OK false, fs))
  ∧ ∀ fs FILENAME, save_to_excel fs FILENAME [] = (OK false, fs).
Proof.
  split; [|done].
  intros fs FILENAME new_data sheets df_existing existing_keys new_keys
    Hfs Hsheet Hex Hnew Hall.
  unfold save_to_excel. destruct new_data as [|rec recs]; [done|].
  rewrite Hnew, Hfs. unfold combine_with_existing, read_excel.
  rewrite Hsheet. simpl. rewrite Hex. simpl.
  rewrite filter_none; [done|].
  apply Forall_forall. intros [k r] Hin Hnot. simpl in Hnot.
  apply Hnot. eapply Forall_forall in Hall; [done|].
  by apply elem_of_zip_l in Hin.
Qed.

Lemma format_datetime_bad v :
  negb (truthy v) || bool_decide (strftime_date_time v = None) = true →
  format_datetime v = (Some (Str ""), Some (Str "")).
Proof.
  unfold format_datetime.
  intros [Hv%negb_true_iff|Hv%bool_decide_eq_true]%orb_true_iff.
  - by rewrite Hv.
  - rewrite Hv. by destruct (truthy v).
Qed.

Lemma process_item_ok item :
  item_ok item = true →
  ∃ rec, process_item item = OK rec
         ∧ (bad_datetime item = true →
            dict_get "data" rec = Some (Some (Str ""))
            ∧ dict_get "hora" rec = Some (Some (Str ""))).
Proof.
  destruct item as [| | | | |d]; try done. simpl. unfold liquid_ok.
  unfold process_item. simpl.
  destruct (dict_get "TotalLiquid" d) as [tl|]; simpl.
  - destruct (truthy tl); simpl.
    + destruct tl as [| | | | |l]; try done. simpl.
      destruct (dict_get "Value" l) as [[]|]; try done; simpl; intros _;
        (eexists; split; [done|]); simpl; intros Hbad;
        by rewrite format_datetime_bad.
    + intros _. eexists. split; [done|]. simpl. intros Hbad.
      by rewrite format_datetime_bad.
  - intros _. eexists. split; [done|]. simpl. intros Hbad.
    by rewrite format_datetime_bad.
Qed.

(** C8.  On an absent payload every normalizer returns the empty table.
    On a list of well-formed items [process_data] returns one record for
    each item, in order; an item without a usable [DateTime] gets empty
    date and time texts and does not stop the others. *)
Theorem normalizers_tolerate_absence_and_bad_dates :
  (∀ now_timestamp now_date data,
     truthy data = false →
     format_current_precipitation now_timestamp now_date data = OK empty_frame
     ∧ format_forecast_precipitation data = OK empty_frame
     ∧ format_historical_precipitation data = OK empty_frame
     ∧ process_data data = OK [])
  ∧ ∀ items,
      forallb item_ok items = true →
      ∃ recs,
        process_data (JList items) = OK recs
        ∧ Forall2 (fun item rec =>
             process_item item = OK rec
             ∧ (bad_datetime item = true →
                dict_get "data" rec = Some (Some (Str ""))
                ∧ dict_get "hora" rec = Some (Some (Str ""))))
            items recs.
Proof.
  split.
  { intros ts d data Hd.
    unfold format_current_precipitation, format_forecast_precipitation,
      format_historical_precipitation, process_data. by rewrite Hd. }
  intros items Hitems.
  assert (∃ recs, mapM_result process_item items = OK recs
                  ∧ Forall2 (fun item rec =>
                       process_item item = OK rec
                       ∧ (bad_datetime item = true →
                          dict_get "data" rec = Some (Some (Str ""))
                          ∧ dict_get "hora" rec = Some (Some (Str ""))))
                      items recs) as (recs & Hrecs & Hall).
  { induction items as [|item items IH]; [by exists []|].
    simpl in Hitems. apply andb_true_iff in Hitems as [Hi His].
    destruct (process_item_ok item Hi) as (rec & Hrec & Hbad).
    destruct (IH His) as (recs & Hrecs & Hall).
    exists (rec :: recs). simpl. rewrite Hrec. simpl. rewrite Hrecs.
    split; [done|]. by constructor. }
  exists recs. split; [|done].
  unfold process_data. destruct items; [by injection Hrecs as <-|done].
Qed.

End load_properties.

(** * The properties on the examples *)

Import Examples.

(** ** Overwrite on refetch (C1) *)

(** The spec's example: a stored row for 2024-01-01 with 1.0 mm and a
    fetched row for the same date with 2.5 mm merge into the fetched row. *)
Lemma refetched_row_replaces_stored_witness :
  merge_sheet [("Dados_Diarios", stored_daily)] "Dados_Diarios" fetched_daily
  = OK fetched_daily
  ∧ ∃ r, filter (fun x => subset_key ["data"] x = [Some (Str "2024-01-01")])
           (rows fetched_daily) = [r]
         ∧ r !! "precipitacao_mm" = Some (Num (5 # 2)).
Proof.
  split; [by vm_compute|].
  destruct (refetched_row_replaces_stored
              [("Dados_Diarios", stored_daily)] "Dados_Diarios"
              stored_daily fetched_daily) as [_ Hmerged];
    [reflexivity|reflexivity|discriminate|discriminate|].
  destruct (Hmerged fetched_daily) as [_ Hkeys]; [by vm_compute|].
  destruct (Hkeys [Some (Str "2024-01-01")]) as (r & Hr & Hlast);
    [by left|by left|].
  exists r. split; [exact Hr|].
  vm_compute in Hlast. injection Hlast as <-. reflexivity.
Defined.

(** [WeatherDataExtractor.save_to_excel] keeps the stored row: a record
    fetched again for 10:00 with 2.5 mm is dropped, and the sheet still says
    1.0 mm for that hour. *)
Lemma accuweather_keeps_stored_row :
  let new_data := [hourly_record "2024-01-01" "10:00:00" (5 # 2) true;
                   hourly_record "2024-01-01" "11:00:00" 0 false] in
  let saved := save_to_excel accu_fs accu_file new_data in
  saved.1 = OK true
  ∧ precipitation_at "2024-01-01" "10:00:00"
      (stored_table accu_fs accu_file "Dados_Completos") = [Some (Num 1)]
  ∧ precipitation_at "2024-01-01" "10:00:00" (Some (frame_of_records new_data))
    = [Some (Num (5 # 2))]
  ∧ precipitation_at "2024-01-01" "10:00:00"
      (stored_table saved.2 accu_file "Dados_Completos") = [Some (Num 1)].
Proof. by vm_compute. Qed.

(** ** Unique keys (C7) *)

Lemma merged_keys_unique_witness :
  ∃ merged,
    merge_sheet [("Dados_Diarios", first_cycle_daily)] "Dados_Diarios"
      first_cycle_daily = OK merged
    ∧ NoDup (subset_key ["data"] <$> rows merged)
    ∧ NoDup (subset_key ["data"; "hora"] <$> rows merged).
Proof.
  eexists. split; [by vm_compute|].
  apply (merged_keys_unique [("Dados_Diarios", first_cycle_daily)]
           "Dados_Diarios" first_cycle_daily first_cycle_daily);
    [reflexivity|reflexivity|discriminate|discriminate|by vm_compute].
Defined.

(** C7.  [save_to_excel], which is to save without duplicates, filters the
    new records against the stored ones only: two records of one batch for
    the same hour are both stored, and the main sheet has two rows with the
    same date and time of day. *)
Theorem accuweather_stores_batch_duplicates :
  let new_data := [hourly_record "2024-01-01" "11:00:00" 0 false;
                   hourly_record "2024-01-01" "11:00:00" (1 # 2) true] in
  let saved := save_to_excel accu_fs accu_file new_data in
  saved.1 = OK true
  ∧ length (precipitation_at "2024-01-01" "11:00:00"
              (stored_table saved.2 accu_file "Dados_Completos")) = 2
  ∧ ∀ df, stored_table saved.2 accu_file "Dados_Completos" = Some df →
          ¬ NoDup (subset_key ["data"; "hora"] <$> rows df).
Proof.
  split; [by vm_compute|]. split; [by vm_compute|].
  intros df Hdf. vm_compute in Hdf. injection Hdf as <-.
  apply (bool_decide_unpack _). by vm_compute.
Qed.

(** ** Chronological order (C4) *)

Lemma merged_rows_sorted_witness :
  ∃ merged,
    merge_sheet [("Dados_Horarios", morning_reversed)] "Dados_Horarios"
      next_morning = OK merged
    ∧ ordered_by ByDateTime (rows merged).
Proof.
  eexists. split; [by vm_compute|].
  apply (merged_rows_sorted [("Dados_Horarios", morning_reversed)]
           "Dados_Horarios" morning_reversed next_morning);
    [reflexivity|reflexivity|discriminate|by vm_compute].
Defined.

Ltac not_in_order :=
  let Hs := fresh "Hs" in
  let Hhd := fresh "Hhd" in
  let H1 := fresh "H1" in
  let H2 := fresh "H2" in
  let Hle := fresh "Hle" in
  intros Hs; apply Sorted_inv in Hs as [_ Hhd];
  apply HdRel_inv in Hhd as (? & ? & H1 & H2 & Hle);
  vm_compute in H1, H2; simplify_eq; by vm_compute in Hle.

(** A table with no stored counterpart is taken over as it is, sorted or
    not; and tables that share the date column only are sorted by date,
    though the merged table has a time-of-day column: the row without time
    of day, whose instant is missing, comes before a row with an instant. *)
Lemma merged_table_out_of_order :
  merge_sheet [] "Dados_Horarios" morning_reversed = OK morning_reversed
  ∧ ¬ ordered_by ByDateTime (rows morning_reversed)
  ∧ ∃ merged,
      merge_sheet [("Dados_Horarios", next_morning)] "Dados_Horarios"
        dated_only = OK merged
      ∧ has_column "data" merged && has_column "hora" merged = true
      ∧ ¬ ordered_by ByDateTime (rows merged).
Proof.
  split; [done|]. split; [simpl; not_in_order|].
  eexists. split; [by vm_compute|]. split; [done|]. simpl. not_in_order.
Qed.

(** ** An empty new table (C3) *)

Lemma empty_new_table_is_noop_witness :
  let fs : filesystem := {[ filename := workbook_of stored_sheets ]} in
  let dataframes_dict :=
    [("Dados_Diarios", third_day); ("Dados_Horarios", empty_frame)] in
  merge_sheet stored_sheets "Dados_Horarios" empty_frame = OK morning
  ∧ stored_table
      (save_precipitation_data fs dataframes_dict filename backup).2
      filename "Dados_Horarios" = Some morning
  ∧ ∀ fs0 filename0 d name df,
      stored_table (excel_write fs0 filename0 d).2 filename0 name = Some df →
      empty df = false.
Proof.
  apply (empty_new_table_is_noop {[ filename := workbook_of stored_sheets ]}
           [("Dados_Diarios", third_day); ("Dados_Horarios", empty_frame)]
           filename backup stored_sheets "Dados_Horarios" morning empty_frame);
    try reflexivity; try discriminate;
    try (apply (bool_decide_unpack _); by vm_compute).
Defined.

(** A stored table that is out of order comes back sorted, and a stored
    table with two rows for one date, as the first cycle writes it for
    today, loses one of them to a new table that has the columns and no
    row. *)
Lemma empty_new_table_changes_stored :
  merge_sheet [("Dados_Diarios", two_days_reversed)] "Dados_Diarios"
    empty_frame = OK two_days
  ∧ two_days ≠ two_days_reversed
  ∧ empty header_only = true
  ∧ merge_sheet [("Dados_Diarios", first_cycle_daily)] "Dados_Diarios"
      header_only
    = OK (mkDataFrame daily_columns
            [daily_row "2024-01-04" 3 "Histórico";
             daily_row "2024-01-05" (1 # 2) "Previsão"]).
Proof.
  split; [by vm_compute|]. split; [|split; by vm_compute].
  apply (bool_decide_unpack _). by vm_compute.
Qed.

(** ** Merging again what is stored (C5) *)

Lemma remerging_stored_rows_is_noop_witness :
  merge_sheet [("Dados_Diarios", two_days)] "Dados_Diarios" second_day
  = OK two_days.
Proof.
  apply (remerging_stored_rows_is_noop [("Dados_Diarios", two_days)]
           "Dados_Diarios" two_days second_day);
    try reflexivity; try discriminate.
  intros r ->%list_elem_of_singleton. right. by left.
Defined.

(** The daily table of a first cycle holds today twice, as current reading
    and as first forecast day; merged with itself it loses the first of
    the two rows. *)
Lemma remerging_drops_stored_row :
  merge_sheet [("Dados_Diarios", first_cycle_daily)] "Dados_Diarios"
    first_cycle_daily
  = OK (mkDataFrame daily_columns
          [daily_row "2024-01-04" 3 "Histórico";
           daily_row "2024-01-05" (1 # 2) "Previsão"])
  ∧ length (rows first_cycle_daily) = 3.
Proof. split; by vm_compute. Qed.

(** ** Sheets that are not fetched again (C2) *)

(** Every sheet of a file that was saved goes by a name of the new
    dictionary: what was stored under another name is gone. *)
Lemma saved_sheets_are_new_names `{Platform} fs dataframes_dict filename
    backup_filename fs' sheet_name df :
  NoDup dataframes_dict.*1 →
  save_precipitation_data fs dataframes_dict filename backup_filename
  = (Saved, fs') →
  stored_table fs' filename sheet_name = Some df →
  sheet_name ∈ dataframes_dict.*1.
Proof.
  intros Hnd (_ & combined_data & Hc & ->)%save_saved.
  rewrite stored_table_workbook. intros Hget.
  assert (sheet_name ∈ combined_data.*1) as Hin.
  { destruct (decide (sheet_name ∈ combined_data.*1)) as [|Hg]; [done|].
    apply dict_get_None in Hg.
    by rewrite (dict_get_filter_None _ _ _ Hg) in Hget. }
  destruct (fs !! filename).
  - apply combine_OK in Hc as (ms & -> & Hms); [|done].
    by rewrite <-(merged_from_names _ _ _ Hms).
  - by subst.
Qed.

(** C2.  A cycle whose hourly query gave nothing, run on a file that holds
    an hourly sheet: the save succeeds and the hourly sheet is gone. *)
Theorem unfetched_sheet_is_dropped :
  let fs : filesystem := {[ filename := workbook_of stored_sheets ]} in
  let cycle :=
    extract_precipitation_data fs third_day empty_frame empty_frame
      empty_frame filename backup in
  stored_table fs filename "Dados_Horarios" = Some morning
  ∧ match cycle with
    | OK (dataframes, (outcome, fs')) =>
        outcome = Saved
        ∧ dict_get "Dados_Horarios" dataframes = None
        ∧ stored_table fs' filename "Dados_Diarios"
          = Some (mkDataFrame daily_columns (rows two_days ++ rows third_day))
        ∧ stored_table fs' filename "Dados_Horarios" = None
    | Raise _ => False
    end.
Proof. by vm_compute. Qed.

(** ** The summary (C6) *)

(** The file holds the summary of two days with 1 mm in all; the cycle
    fetches one day with 4 mm: the summary sheet then tells of that day
    alone. *)
Lemma summary_is_replaced_witness :
  let fs : filesystem :=
    {[ filename := workbook_of [("Resumo_Precipitacao",
                                  summary_frame [2; 1; 1; 1; 1; 1]%Q);
                                 ("Dados_Diarios", two_days)] ]} in
  ∃ dataframes fs',
    extract_precipitation_data fs third_day empty_frame empty_frame
      empty_frame filename backup = OK (dataframes, (Saved, fs'))
    ∧ create_precipitation_summary two_days
      = OK (summary_frame [2; 1; 1; 1; 1; 1]%Q)
    ∧ stored_table fs' filename summary_sheet
      = Some (summary_frame [1; 1; 4; 4; 4; 4]%Q).
Proof.
  cbv zeta.
  set (cycle := extract_precipitation_data _ _ _ _ _ _ _).
  assert (∃ dataframes fs', cycle = OK (dataframes, (Saved, fs')))
    as (dataframes & fs' & Hcycle).
  { vm_compute. by eexists _, _. }
  exists dataframes, fs'. split; [done|]. split; [by vm_compute|].
  destruct summary_is_replaced as [_ Hreplaced].
  destruct (Hreplaced _ _ _ _ _ _ _ _ _ _ Hcycle)
    as (all_daily_data & summary_df & Hall & Hsummary & Hstored); [done|].
  vm_compute in Hall. injection Hall as <-.
  vm_compute in Hsummary. injection Hsummary as <-.
  simpl in Hstored. rewrite Hstored. by vm_compute.
Defined.

(** The file name of [uniao.py] has no directory: the cycle cannot write
    it, and the fresh summary goes to the backup. *)
Lemma summary_goes_to_the_backup :
  let cycle :=
    extract_precipitation_data ∅ third_day empty_frame empty_frame
      empty_frame "precipitacao_sao_paulo.xlsx" backup in
  match cycle with
  | OK (_, (o, fs')) =>
      o = BackupSaved
      ∧ fs' !! "precipitacao_sao_paulo.xlsx" = None
      ∧ stored_table fs' backup summary_sheet
        = Some (summary_frame [1; 1; 4; 4; 4; 4]%Q)
  | Raise _ => False
  end.
Proof. by vm_compute. Qed.

(** ** Loading (C9) *)

Lemma failed_load_is_no_prior_data_witness :
  save_precipitation_data damaged_fs [("Dados_Diarios", third_day)]
    filename backup
  = (Saved, <[filename := workbook_of [("Dados_Diarios", third_day)]]> damaged_fs).
Proof.
  destruct failed_load_is_no_prior_data as [_ Hsave].
  apply (Hsave damaged_fs [("Dados_Diarios", third_day)] filename backup);
    [discriminate|apply (bool_decide_unpack _); by vm_compute|discriminate|].
  right. eexists. split; reflexivity.
Defined.

(** One sheet that cannot be parsed takes the other sheets with it: the two
    stored days of the daily sheet are not merged with the new day, they
    are lost. *)
Lemma garbled_sheet_discards_the_others :
  let saved :=
    save_precipitation_data damaged_fs [("Dados_Diarios", third_day)]
      filename backup in
  stored_table damaged_fs filename "Dados_Diarios" = Some two_days
  ∧ saved.1 = Saved
  ∧ stored_table saved.2 filename "Dados_Diarios" = Some third_day.
Proof. by vm_compute. Qed.

(** ** Nothing new, nothing written (C10) *)

Lemma no_new_record_no_write_witness :
  save_to_excel accu_fs accu_file
    [hourly_record "2024-01-01" "10:00:00" (5 # 2) true]
  = (OK false, accu_fs).
Proof.
  destruct no_new_record_no_write as [Hsame _].
  apply (Hsame accu_fs accu_file _
           [("Dados_Completos", Parsed accu_stored)] accu_stored
           [Some 20240101100000%Z] [Some 20240101100000%Z]);
    [reflexivity|reflexivity|by vm_compute|by vm_compute|].
  repeat constructor.
Defined.

(** ** The normalizers (C8) *)

Lemma normalizers_tolerate_absence_and_bad_dates_witness :
  ∃ recs,
    process_data hourly_payload = OK recs
    ∧ dict_get "data" <$> recs
      = [Some (Some (Str "")); Some (Some (Str "2024-01-01"))]
    ∧ dict_get "hora" <$> recs
      = [Some (Some (Str "")); Some (Some (Str "11:00:00"))].
Proof.
  destruct normalizers_tolerate_absence_and_bad_dates as [_ Hitems].
  destruct (Hitems
              [JDict [("DateTime", JStr "31/12 at noon");
                      ("TotalLiquid", JDict [("Value", JNum (12 # 10))])];
               JDict [("DateTime", JStr "2024-01-01T11:00:00-03:00");
                      ("HasPrecipitation", JBool false)]])
    as (recs & Hrecs & _); [reflexivity|].
  exists recs. split; [exact Hrecs|].
  vm_compute in Hrecs. injection Hrecs as <-. split; reflexivity.
Defined.

(** A payload that lacks a field the code indexes makes the normalizer
    raise, and so does one record of the hourly payload whose amount is not
    a number: the records after it are not returned either. *)
Lemma normalizers_raise_on_malformed_payloads :
  format_current_precipitation "2024-01-05 12:00:00" "2024-01-05"
    (JDict [("location", JDict [("name", JStr "Sao Paulo")])])
  = Raise KeyError
  ∧ format_forecast_precipitation
      (JDict [("location", JDict [("name", JStr "Sao Paulo")]);
              ("forecast", JDict [])])
    = Raise KeyError
  ∧ format_historical_precipitation
      (JList [JDict [("location", JDict [("name", JStr "Sao Paulo")]);
                     ("forecast", JDict [("forecastday", JList [])])]])
    = Raise IndexError
  ∧ process_data
      (JList [JDict [("DateTime", JStr "2024-01-01T10:00:00-03:00");
                     ("TotalLiquid", JDict [("Value", JStr "n/a")])];
              JDict [("DateTime", JStr "2024-01-01T11:00:00-03:00")]])
    = Raise TypeError.
Proof. repeat split; by vm_compute. Qed.

(** * Further properties

    Of the code around the merge: the AccuWeather collector from payload
    to sheet, the summary and the daily tables, the hourly tables, the
    queries by day and the cycle as a whole. *)

(** ** Records and the main sheet *)

Lemma mapM_result_Raise {A B} (f : A → result B) l a e :
  a ∈ l → f a = Raise e → ∃ e', mapM_result f l = Raise e'.
Proof.
  induction l as [|a' l IH]; [by intros ?%elem_of_nil|].
  intros [->|Hin]%elem_of_cons Hf; simpl.
  - rewrite Hf. by eexists.
  - destruct (f a'); simpl; [|by eexists].
    destruct (IH Hin Hf) as [e' ->]. by eexists.
Qed.

Lemma mapM_result_Forall2 {A B} (f : A → result B) l bs :
  mapM_result f l = OK bs ↔ Forall2 (fun a b => f a = OK b) l bs.
Proof.
  revert bs. induction l as [|a l IH]; intros bs; simpl.
  - split; [intros [= <-]; constructor|by intros ->%Forall2_nil_inv_l].
  - rewrite bind_OK. split.
    + intros (b & Hb & (bs' & Hbs' & [= <-])%bind_OK).
      constructor; [done|]. by apply IH.
    + intros (b & bs' & Hb & Hbs' & ->)%Forall2_cons_inv_l.
      exists b. split; [done|]. apply bind_OK. exists bs'.
      split; [by apply IH|done].
Qed.

Lemma restrict_lookup cols (r : row) c :
  c ∈ cols → restrict cols r !! c = r !! c.
Proof.
  intros Hc. unfold restrict. destruct (r !! c) as [x|] eqn:Hr.
  - by apply map_lookup_filter_Some.
  - apply map_lookup_filter_None. by left.
Qed.

Lemma restrict_id cols (r : row) :
  (∀ c, is_Some (r !! c) → c ∈ cols) → restrict cols r = r.
Proof.
  intros Hr. apply map_filter_id. intros c x Hx. apply Hr. by eexists.
Qed.

Section accuweather_more.
Context `{Platform}.

Lemma datetime_key_restrict c r :
  datetime_key c (restrict column_order r) = datetime_key c r.
Proof.
  unfold datetime_key.
  rewrite !restrict_lookup; [done|..]; unfold column_order; set_solver.
Qed.

Lemma datetime_key_coerce r k :
  datetime_key false r = OK k → datetime_key true r = OK k.
Proof.
  unfold datetime_key. repeat case_match; try done.
Qed.

End accuweather_more.

Lemma row_of_record_lookup (rec : record) k :
  NoDup rec.*1 → row_of_record rec !! k = dict_get k rec ≫= id.
Proof.
  induction rec as [|[k' v] rec IH]; simpl; [done|].
  intros [Hk' Hnd]%NoDup_cons. case_bool_decide as Hk; subst.
  - destruct v as [c|]; simpl; [by rewrite lookup_insert_eq|].
    rewrite IH by done. apply dict_get_None in Hk'. by rewrite Hk'.
  - destruct v as [c|]; simpl; [|by apply IH].
    rewrite lookup_insert_ne by done. by apply IH.
Qed.

Lemma row_of_record_labels (rec : record) c :
  is_Some (row_of_record rec !! c) → c ∈ rec.*1.
Proof.
  induction rec as [|[k' v] rec IH]; simpl.
  - rewrite lookup_empty. by intros [? [=]].
  - destruct v as [x|]; simpl.
    + destruct (decide (k' = c)) as [->|Hne]; [intros _; left|].
      rewrite lookup_insert_ne by done. intros ?%IH. by right.
    + intros ?%IH. by right.
Qed.

Lemma add_labels_same cols : add_labels cols cols = cols.
Proof.
  unfold add_labels. rewrite filter_none, app_nil_r; [done|].
  apply Forall_forall. intros c Hc Hn. by rewrite elem_of_remove_dups in Hc.
Qed.

Lemma add_labels_first cols : NoDup cols → add_labels cols [] = cols.
Proof.
  intros Hnd. unfold add_labels. simpl.
  induction Hnd as [|c cols Hc Hnd IH]; [done|]. simpl.
  destruct (decide_rel elem_of c cols); [done|].
  rewrite filter_cons_True by apply not_elem_of_nil. by rewrite IH.
Qed.

Lemma frame_of_records_columns (recs : list record) cols :
  NoDup cols → recs ≠ [] → Forall (fun rec => rec.*1 = cols) recs →
  columns (frame_of_records recs) = cols.
Proof.
  intros Hnd Hne Hall. unfold frame_of_records. simpl.
  destruct Hall as [|rec recs Hrec Hall]; [done|]. simpl.
  rewrite Hrec, add_labels_first by done. clear Hne Hrec.
  induction Hall as [|rec' recs Hrec' _ IH]; [done|]. simpl.
  by rewrite Hrec', add_labels_same.
Qed.

Lemma select_columns_id (recs : list record) cols :
  NoDup cols → recs ≠ [] → Forall (fun rec => rec.*1 = cols) recs →
  select_columns cols (frame_of_records recs) = OK (frame_of_records recs).
Proof.
  intros Hnd Hne Hall. unfold select_columns.
  pose proof (frame_of_records_columns recs cols Hnd Hne Hall) as Hcols.
  rewrite (proj2 (forallb_forall _ _)).
  2: { intros c Hc%list_elem_of_In. apply has_column_true. by rewrite Hcols. }
  f_equal. destruct (frame_of_records recs) as [cs rs] eqn:Hf.
  simpl in Hcols. subst cs. f_equal.
  assert (rs = row_of_record <$> recs) as -> by by injection Hf.
  simpl. clear Hf Hne.
  induction Hall as [|rec recs Hrec _ IH]; [done|]. csimpl. f_equal; [|done].
  apply (restrict_id cols). intros c Hc%row_of_record_labels. by rewrite <-Hrec.
Qed.

Section process.
Context `{Platform}.

Lemma process_item_labels item rec :
  process_item item = OK rec → rec.*1 = column_order.
Proof.
  unfold process_item. intros Hrec.
  repeat (apply bind_OK in Hrec as (? & _ & Hrec)).
  by injection Hrec as <-.
Qed.

Lemma process_item_bad item rec :
  process_item item = OK rec → bad_datetime item = true →
  dict_get "data" rec = Some (Some (Str ""))
  ∧ dict_get "hora" rec = Some (Some (Str "")).
Proof.
  destruct item as [| | | | |d]; try done.
  unfold process_item, bad_datetime. simpl. intros Hrec Hbad.
  repeat (apply bind_OK in Hrec as (? & _ & Hrec)).
  injection Hrec as <-. simpl. by rewrite format_datetime_bad.
Qed.

Lemma process_data_items data recs :
  process_data data = OK recs →
  (truthy data = false ∧ recs = [])
  ∨ ∃ items, truthy data = true ∧ iterate data = OK items
             ∧ Forall2 (fun item rec => process_item item = OK rec) items recs.
Proof.
  unfold process_data. destruct (truthy data); simpl.
  - intros (items & Hitems & Hrecs%mapM_result_Forall2)%bind_OK.
    right. by exists items.
  - intros [= <-]. by left.
Qed.

Lemma iterate_truthy data items :
  truthy data = true → iterate data = OK items → items ≠ [].
Proof.
  destruct data as [| | |s|l|d]; simpl; try done.
  - destruct s; [done|]. by intros _ [= <-].
  - destruct l; [done|]. by intros _ [= <-].
  - destruct d; [done|]. by intros _ [= <-].
Qed.

Lemma process_data_nonempty data recs :
  truthy data = true → process_data data = OK recs → recs ≠ [].
Proof.
  intros Ht [[Hf _]|(items & _ & Hitems & Hall)]%process_data_items;
    [congruence|].
  pose proof (iterate_truthy _ _ Ht Hitems) as Hne.
  intros ->. apply Forall2_nil_inv_r in Hall. done.
Qed.

Lemma process_data_labels data recs :
  process_data data = OK recs →
  Forall (fun rec => rec.*1 = column_order) recs.
Proof.
  intros [[_ ->]|(items & _ & _ & Hall)]%process_data_items; [constructor|].
  induction Hall as [|item rec items recs Hrec _ IH]; constructor; [|done].
  by eapply process_item_labels.
Qed.

End process.

Lemma column_order_NoDup : NoDup column_order.
Proof. apply (bool_decide_unpack _). by vm_compute. Qed.

Lemma select_columns_OK cols df df' :
  select_columns cols df = OK df' →
  columns df' = cols ∧ rows df' = restrict cols <$> rows df.
Proof. unfold select_columns. case_match; [|done]. by intros [= <-]. Qed.

Lemma sort_keyed_Permutation l : sort_keyed l ≡ₚ l.*2.
Proof. unfold sort_keyed. by rewrite merge_sort_Permutation. Qed.

Section save_to_excel_more.
Context `{Platform}.

Lemma datetime_temp_OK c df keys :
  datetime_temp c df = OK keys →
  has_column "data" df = true ∧ has_column "hora" df = true
  ∧ mapM_result (datetime_key c) (rows df) = OK keys.
Proof.
  unfold datetime_temp.
  destruct (has_column "data" df), (has_column "hora" df); done.
Qed.

Lemma keyed_rows_Sorted (l : list (option Z * row)) :
  Forall (fun kr => datetime_key true kr.2 = OK kr.1) l →
  Sorted (row_le Z.leb (datetime_key true))
    (restrict column_order <$> sort_keyed l).
Proof.
  intros Hl. unfold sort_keyed.
  assert (Hkeys : Forall (fun kr => datetime_key true kr.2 = OK kr.1)
                    (merge_sort (keyed_le Z.leb) l))
    by by rewrite merge_sort_Permutation.
  assert (Hsorted := Sorted_merge_sort (keyed_le Z.leb) l).
  induction Hsorted as [|p ps Hps IH Hhd]; csimpl; constructor.
  - apply IH. by inversion Hkeys.
  - inversion Hkeys as [|?? Hp Hps']; subst.
    destruct Hhd as [|q ps Hpq]; csimpl; constructor.
    inversion Hps'; subst. exists p.1, q.1.
    by rewrite !datetime_key_restrict.
Qed.

Lemma keyed_rows_keys (l : list (option Z * row)) :
  Forall (fun kr => datetime_key true kr.2 = OK kr.1) l →
  mapM_result (datetime_key true) (restrict column_order <$> l.*2) = OK l.*1.
Proof.
  induction 1 as [|[k r] l Hkr _ IH]; [done|]. csimpl.
  rewrite datetime_key_restrict. simpl in Hkr. rewrite Hkr. simpl.
  by rewrite IH.
Qed.

Lemma zip_keys_coerce (keys : list (option Z)) (l : list row) :
  mapM_result (datetime_key false) l = OK keys →
  Forall (fun kr => datetime_key true kr.2 = OK kr.1) (zip keys l).
Proof.
  intros Hk%mapM_result_zip. eapply Forall_impl; [exact Hk|].
  intros [k r]. apply datetime_key_coerce.
Qed.

(** The file after [write_workbook]: the main sheet comes first. *)
Lemma write_workbook_file fs FILENAME df :
  ∃ rest, (write_workbook fs FILENAME df).2
          = <[FILENAME := Workbook (("Dados_Completos", Parsed df) :: rest)]> fs.
Proof. unfold write_workbook. destruct (estatisticas df); by eexists. Qed.

Lemma stored_main_sheet (fs : filesystem) FILENAME df rest :
  stored_table
    (<[FILENAME := Workbook (("Dados_Completos", Parsed df) :: rest)]> fs)
    FILENAME "Dados_Completos" = Some df.
Proof. unfold stored_table. by rewrite lookup_insert_eq. Qed.

(** No instant of the new records is new: nothing is written. *)
Lemma save_to_excel_nothing_new fs FILENAME new_data sheets df_existing
    existing_keys new_keys :
  fs !! FILENAME = Some (Workbook sheets) →
  dict_get "Dados_Completos" sheets = Some (Parsed df_existing) →
  datetime_temp true df_existing = OK existing_keys →
  datetime_temp false (frame_of_records new_data) = OK new_keys →
  Forall (fun k => k ∈ existing_keys) new_keys →
  save_to_excel fs FILENAME new_data = (OK false, fs).
Proof.
  intros Hfs Hsheet Hex Hnew Hall.
  unfold save_to_excel. destruct new_data as [|rec recs]; [done|].
  rewrite Hnew, Hfs. unfold combine_with_existing, read_excel.
  rewrite Hsheet. simpl. rewrite Hex. simpl.
  rewrite filter_none; [done|].
  apply Forall_forall. intros [k r] Hin Hnot. simpl in Hnot.
  apply Hnot. eapply Forall_forall in Hall; [done|].
  by apply elem_of_zip_l in Hin.
Qed.

Lemma combine_with_existing_OK f df_new new_keys res :
  combine_with_existing f df_new new_keys = OK res →
  ∃ df_existing existing_keys,
    read_excel f "Dados_Completos" = OK df_existing
    ∧ datetime_temp true df_existing = OK existing_keys
    ∧ let fresh := fresh_records existing_keys new_keys (rows df_new) in
      (fresh = [] ∧ res = None)
      ∨ (fresh ≠ []
         ∧ ∃ cols,
             columns df_new ⊆ cols
             ∧ res = Some (mkDataFrame cols
                             (sort_keyed (zip existing_keys (rows df_existing)
                                          ++ fresh)))).
Proof.
  unfold combine_with_existing.
  intros (df_existing & Hread & (existing_keys & Hex & Hres)%bind_OK)%bind_OK.
  exists df_existing, existing_keys. split; [done|]. split; [done|].
  fold (fresh_records existing_keys new_keys (rows df_new)) in Hres.
  destruct (fresh_records existing_keys new_keys (rows df_new)) as [|kr l].
  - injection Hres as <-. by left.
  - injection Hres as <-. right. split; [done|]. eexists. split; [|done].
    intros c Hc. rewrite elem_of_app, list_elem_of_filter.
    destruct (decide (c ∈ columns df_existing)); naive_solver.
Qed.

(** What [save_to_excel] does once the instants of the new records are
    computed: it writes nothing, or raises and writes nothing, or writes the
    combined table, whose rows [kl] carry their instants. *)
Lemma save_to_excel_step fs FILENAME new_data new_keys r fs' :
  datetime_temp false (frame_of_records new_data) = OK new_keys →
  save_to_excel fs FILENAME new_data = (r, fs') →
  (r = OK false ∧ fs' = fs)
  ∨ (∃ e, r = Raise e ∧ fs' = fs
          ∧ ¬ column_order ⊆ columns (frame_of_records new_data))
  ∨ ∃ kl cols df rest,
      Forall (fun kr => datetime_key true kr.2 = OK kr.1) kl
      ∧ Forall (fun k => k ∈ kl.*1) new_keys
      ∧ select_columns column_order (mkDataFrame cols kl.*2) = OK df
      ∧ (∃ b, r = OK b)
      ∧ fs' = <[FILENAME := Workbook (("Dados_Completos", Parsed df) :: rest)]> fs.
Proof.
  intros Hnew Hsave. unfold save_to_excel in Hsave.
  destruct new_data as [|rec recs]; [injection Hsave as <- <-; by left|].
  set (df_new := frame_of_records (rec :: recs)) in *. clearbody df_new.
  rewrite Hnew in Hsave.
  destruct (datetime_temp_OK _ _ _ Hnew) as (_ & _ & Hkeys).
  pose proof (mapM_result_length _ _ _ Hkeys) as Hlen.
  assert (∃ kl cols, df_new = mkDataFrame cols kl.*2
            ∧ Forall (fun kr => datetime_key true kr.2 = OK kr.1) kl
            ∧ Forall (fun k => k ∈ kl.*1) new_keys) as Hfresh.
  { exists (zip new_keys (rows df_new)), (columns df_new).
    rewrite snd_zip, fst_zip by lia.
    split; [by destruct df_new|]. split; [by apply zip_keys_coerce|].
    by apply Forall_forall. }
  assert (∀ df_combined,
            (let '(saved, fs') := write_workbook fs FILENAME df_combined in
             (OK saved, fs')) = (r, fs') →
            (∃ b, r = OK b)
            ∧ ∃ rest, fs' = <[FILENAME := Workbook (("Dados_Completos",
                                                     Parsed df_combined)
                                                    :: rest)]> fs) as Hwrite.
  { intros df. destruct (write_workbook_file fs FILENAME df) as [rest Hrest].
    destruct (write_workbook fs FILENAME df) as [saved fs'']. simpl in Hrest.
    intros [= <- <-]. split; by eexists. }
  assert (∀ kl cols,
            columns df_new ⊆ cols →
            Forall (fun kr => datetime_key true kr.2 = OK kr.1) kl →
            Forall (fun k => k ∈ kl.*1) new_keys →
            match select_columns column_order (mkDataFrame cols kl.*2) with
            | OK df_combined =>
                let '(saved, fs') := write_workbook fs FILENAME df_combined in
                (OK saved, fs')
            | Raise e => (Raise e, fs)
            end = (r, fs') →
            (r = OK false ∧ fs' = fs)
            ∨ (∃ e, r = Raise e ∧ fs' = fs ∧ ¬ column_order ⊆ columns df_new)
            ∨ ∃ kl cols df rest,
                Forall (fun kr => datetime_key true kr.2 = OK kr.1) kl
                ∧ Forall (fun k => k ∈ kl.*1) new_keys
                ∧ select_columns column_order (mkDataFrame cols kl.*2) = OK df
                ∧ (∃ b, r = OK b)
                ∧ fs' = <[FILENAME := Workbook (("Dados_Completos", Parsed df)
                                                :: rest)]> fs) as Hfinish.
  { intros kl cols Hsub Hkl Hin.
    destruct (select_columns _ _) as [df|e] eqn:Hsel.
    - intros [Hb [rest ->]]%Hwrite. right. right. by exists kl, cols, df, rest.
    - intros [= <- <-]. right. left. exists e. split; [done|]. split; [done|].
      intros Hall. unfold select_columns in Hsel.
      rewrite (proj2 (forallb_forall _ _)) in Hsel; [done|].
      intros c Hc%list_elem_of_In. apply has_column_true. simpl.
      by apply Hsub, Hall. }
  destruct Hfresh as (kl0 & cols0 & Hdf & Hkl0 & Hin0).
  assert (columns df_new ⊆ cols0) as Hsub0 by by rewrite Hdf.
  destruct (fs !! FILENAME) as [f|];
    [|rewrite Hdf in Hsave; by apply (Hfinish kl0 cols0)].
  destruct (combine_with_existing f _ new_keys) as [res|e] eqn:Hc;
    [|rewrite Hdf in Hsave; by apply (Hfinish kl0 cols0)].
  apply combine_with_existing_OK in Hc
    as (df_existing & existing_keys & _ & Hex & Hres).
  destruct (datetime_temp_OK _ _ _ Hex) as (_ & _ & Hexk).
  pose proof (mapM_result_length _ _ _ Hexk) as Hlenx.
  simpl in Hres. destruct Hres as [[_ ->]|(_ & cols & Hsub & ->)].
  { injection Hsave as <- <-. by left. }
  unfold sort_keyed in Hsave. revert Hsave. apply Hfinish; [done|..].
  - rewrite merge_sort_Permutation. apply Forall_app. split.
    + by apply mapM_result_zip.
    + apply Forall_forall. intros kr [_ Hkr]%list_elem_of_filter.
      pose proof (zip_keys_coerce _ _ Hkeys) as Hz.
      by eapply Forall_forall in Hz.
  - apply Forall_forall. intros k Hk.
    rewrite merge_sort_Permutation, fmap_app, fst_zip by lia.
    destruct (decide (k ∈ existing_keys)) as [|Hnot]; [set_solver|].
    apply elem_of_app. right.
    rewrite <-(fst_zip new_keys (rows df_new)) in Hk by lia.
    apply list_elem_of_fmap in Hk as (kr & -> & Hkr).
    apply list_elem_of_fmap_2. by apply list_elem_of_filter.
Qed.

End save_to_excel_more.

(** ** The AccuWeather collector *)

Section accuweather_properties.
Context `{Platform}.

(** X1.  Saving the same records again changes nothing: whatever the first
    call of [save_to_excel] wrote, a second call with the same records
    returns [False] and leaves the files as they are. *)
Theorem saving_again_writes_nothing fs FILENAME new_data b fs' :
  save_to_excel fs FILENAME new_data = (OK b, fs') →
  save_to_excel fs' FILENAME new_data = (OK false, fs').
Proof.
  intros Hsave.
  destruct (datetime_temp false (frame_of_records new_data))
    as [new_keys|e] eqn:Hnew.
  2: { unfold save_to_excel in Hsave. destruct new_data; [|by rewrite Hnew in Hsave].
       by injection Hsave as <- <-. }
  destruct (save_to_excel_step _ _ _ _ _ _ Hnew Hsave)
    as [[[= <-] ->]|[(e & [=] & _)|(kl & cols & df & rest & Hkl & Hin & Hsel
                                    & _ & ->)]]; [done|].
  apply select_columns_OK in Hsel as [Hcols Hrows]. simpl in Hrows.
  eapply (save_to_excel_nothing_new _ _ _ _ df kl.*1 new_keys);
    [by rewrite lookup_insert_eq|done| |done|done].
  unfold datetime_temp.
  rewrite (proj2 (has_column_true "data" df)),
    (proj2 (has_column_true "hora" df)) by (rewrite Hcols; set_solver).
  simpl. rewrite Hrows. by apply keyed_rows_keys.
Qed.

(** X2.  With a stored main sheet whose instants can be computed,
    [save_to_excel] either finds no new instant and writes nothing, or
    writes a main sheet that holds every stored row and every new record
    whose instant is not stored, under the eight columns, in the order of
    their instants. *)
Theorem new_instants_are_appended fs FILENAME new_data sheets df_existing
    existing_keys new_keys b fs' :
  fs !! FILENAME = Some (Workbook sheets) →
  dict_get "Dados_Completos" sheets = Some (Parsed df_existing) →
  datetime_temp true df_existing = OK existing_keys →
  datetime_temp false (frame_of_records new_data) = OK new_keys →
  save_to_excel fs FILENAME new_data = (OK b, fs') →
  let fresh :=
    fresh_records existing_keys new_keys (rows (frame_of_records new_data)) in
  (fresh = [] ∧ b = false ∧ fs' = fs)
  ∨ (fresh ≠ []
     ∧ ∃ df, stored_table fs' FILENAME "Dados_Completos" = Some df
             ∧ columns df = column_order
             ∧ rows df ≡ₚ restrict column_order
                            <$> (rows df_existing ++ fresh.*2)
             ∧ Sorted (row_le Z.leb (datetime_key true)) (rows df)).
Proof.
  intros Hfs Hsheet Hex Hnew Hsave fresh.
  unfold save_to_excel in Hsave.
  destruct new_data as [|rec recs]; [done|].
  set (df_new := frame_of_records (rec :: recs)) in *. clearbody df_new.
  rewrite Hnew, Hfs in Hsave.
  destruct (combine_with_existing _ df_new new_keys) as [res|e] eqn:Hc.
  2: { unfold combine_with_existing, read_excel in Hc.
       rewrite Hsheet in Hc. simpl in Hc. rewrite Hex in Hc. simpl in Hc.
       by destruct (filter _ _). }
  apply combine_with_existing_OK in Hc
    as (df_existing' & existing_keys' & Hread & Hex' & Hres).
  unfold read_excel in Hread. rewrite Hsheet in Hread.
  injection Hread as <-. rewrite Hex in Hex'. injection Hex' as <-.
  fold fresh in Hres. simpl in Hres.
  destruct Hres as [[Hf ->]|(Hf & cols & _ & ->)].
  { injection Hsave as <- <-. by left. }
  right. split; [done|].
  destruct (select_columns _ _) as [df|] eqn:Hsel; [|done].
  destruct (write_workbook_file fs FILENAME df) as [rest Hrest].
  destruct (write_workbook fs FILENAME df) as [saved fs'']. simpl in Hrest.
  injection Hsave as <- <-. subst fs''.
  exists df. rewrite stored_main_sheet. split; [done|].
  apply select_columns_OK in Hsel as [Hcols Hrows]. simpl in Hrows.
  split; [done|]. rewrite Hrows.
  destruct (datetime_temp_OK _ _ _ Hex) as (_ & _ & Hexk).
  destruct (datetime_temp_OK _ _ _ Hnew) as (_ & _ & Hnewk).
  split.
  - rewrite sort_keyed_Permutation, fmap_app, snd_zip; [done|].
    by rewrite (mapM_result_length _ _ _ Hexk).
  - apply keyed_rows_Sorted. apply Forall_app. split.
    + by apply mapM_result_zip.
    + apply Forall_forall. intros kr [_ Hkr]%list_elem_of_filter.
      pose proof (zip_keys_coerce _ _ Hnewk) as Hz.
      by eapply Forall_forall in Hz.
Qed.

(** X3.  Without a file, or with a file whose main sheet cannot be read or
    whose instants cannot be computed, [save_to_excel] writes the new
    records alone: what the file held is gone. *)
Theorem unusable_sheet_is_replaced fs FILENAME new_data new_keys :
  new_data ≠ [] →
  Forall (fun rec => rec.*1 = column_order) new_data →
  datetime_temp false (frame_of_records new_data) = OK new_keys →
  fs !! FILENAME = None
  ∨ (∃ f e, fs !! FILENAME = Some f ∧ stored_keys f = Raise e) →
  ∃ b, (save_to_excel fs FILENAME new_data).1 = OK b
       ∧ stored_table (save_to_excel fs FILENAME new_data).2 FILENAME
           "Dados_Completos" = Some (frame_of_records new_data).
Proof.
  intros Hne Hlabels Hnew Hfile.
  pose proof (select_columns_id _ _ column_order_NoDup Hne Hlabels) as Hsel.
  unfold save_to_excel. destruct new_data as [|rec recs]; [done|].
  set (df_new := frame_of_records (rec :: recs)) in *. clearbody df_new.
  rewrite Hnew.
  assert (match fs !! FILENAME with
          | Some f =>
              match combine_with_existing f df_new new_keys with
              | OK r => r
              | Raise _ => Some df_new
              end
          | None => Some df_new
          end = Some df_new) as ->.
  { destruct Hfile as [->|(f & e & -> & Hkeys)]; [done|].
    unfold stored_keys in Hkeys. unfold combine_with_existing.
    destruct (read_excel f "Dados_Completos") as [df_existing|]; [|done].
    simpl in *. by rewrite Hkeys. }
  rewrite Hsel.
  destruct (write_workbook_file fs FILENAME df_new) as [rest Hrest].
  destruct (write_workbook fs FILENAME df_new) as [saved fs'']. simpl in *.
  subst fs''. exists saved. by rewrite stored_main_sheet.
Qed.

(** X4.  The records [process_data] returns fit the sheet: one for each item,
    each with the eight columns in order, so that [save_to_excel] raises on
    them only where it computes their instants. *)
Theorem processed_records_fit_the_sheet data recs :
  process_data data = OK recs →
  Forall (fun rec => rec.*1 = column_order) recs
  ∧ (∀ items, data = JList items → length recs = length items)
  ∧ ∀ fs FILENAME,
      is_ok (datetime_temp false (frame_of_records recs)) →
      is_ok (save_to_excel fs FILENAME recs).1.
Proof.
  intros Hdata. pose proof (process_data_labels _ _ Hdata) as Hlabels.
  split; [done|]. split.
  - intros items ->.
    apply process_data_items in Hdata
      as [[Hf ->]|(items' & _ & [= <-] & Hall)].
    + by destruct items.
    + symmetry. by eapply Forall2_length.
  - intros fs FILENAME [new_keys Hnew].
    destruct (save_to_excel fs FILENAME recs) as [r fs'] eqn:Hsave. simpl.
    destruct (save_to_excel_step _ _ _ _ _ _ Hnew Hsave)
      as [[-> _]|[(e & _ & _ & Hcols)|(_ & _ & _ & _ & _ & _ & _ & [b ->] & _)]];
      [by eexists| |by eexists].
    destruct Hcols. destruct recs as [|rec recs]; [by vm_compute in Hnew|].
    by rewrite (frame_of_records_columns _ column_order)
      by (done || apply column_order_NoDup).
Qed.

(** X5.  [collect_data] returns [False] when the fetch gave nothing, and
    leaves the files alone.  Otherwise, when it returns at all it returns
    [True], whatever [save_to_excel] returned: also when nothing was
    written. *)
Theorem collect_data_reports_the_fetch fs FILENAME raw_data :
  (truthy raw_data = false →
   collect_data fs FILENAME raw_data = (OK false, fs))
  ∧ (truthy raw_data = true →
     ∀ b fs', collect_data fs FILENAME raw_data = (OK b, fs') →
       b = true
       ∧ ∃ processed_data saved,
           process_data raw_data = OK processed_data
           ∧ save_to_excel fs FILENAME processed_data = (OK saved, fs')).
Proof.
  unfold collect_data. split; intros Ht; rewrite Ht; [done|].
  intros b fs'. destruct (process_data raw_data) as [recs|] eqn:Hrecs; [|done].
  pose proof (process_data_nonempty _ _ Ht Hrecs) as Hne.
  destruct recs as [|rec recs]; [done|].
  destruct (save_to_excel fs FILENAME (rec :: recs)) as [[saved|] fs'']
    eqn:Hsave; [|done].
  intros [= <- <-]. split; [done|]. by eexists _, _.
Qed.

(** X6.  An item without a usable [DateTime] gets empty date and time texts
    from [process_data]; where [pd.to_datetime] rejects the blank text made
    of them, [save_to_excel] raises on the whole batch and writes nothing. *)
Theorem unusable_date_fails_the_batch fs FILENAME items recs :
  to_datetime " " = None →
  process_data (JList items) = OK recs →
  (∃ item, item ∈ items ∧ bad_datetime item = true) →
  ∃ e, save_to_excel fs FILENAME recs = (Raise e, fs).
Proof.
  intros Hblank Hrecs (item & Hitem & Hbad).
  pose proof (process_data_labels _ _ Hrecs) as Hlabels.
  apply process_data_items in Hrecs
    as [[Hf ->]|(items' & Ht & [= <-] & Hall)].
  { destruct items; [by apply elem_of_nil in Hitem|done]. }
  assert (∃ rec, rec ∈ recs ∧ process_item item = OK rec) as (rec & Hrec & Hp).
  { clear Ht Hlabels. induction Hall as [|i r items rs Hir _ IH].
    - by apply elem_of_nil in Hitem.
    - apply elem_of_cons in Hitem as [->|Hin].
      + exists r. split; [left|done].
      + destruct (IH Hin) as (rec & ? & ?). exists rec. split; [by right|done]. }
  destruct (process_item_bad _ _ Hp Hbad) as [Hd Hh].
  assert (recs ≠ []) as Hne by (intros ->; by apply elem_of_nil in Hrec).
  pose proof (frame_of_records_columns _ _ column_order_NoDup Hne Hlabels)
    as Hcols.
  assert (rec.*1 = column_order) as Hrl
    by by eapply Forall_forall in Hlabels.
  assert (datetime_key false (row_of_record rec) = Raise ValueError) as Hkey.
  { unfold datetime_key.
    rewrite !row_of_record_lookup by (rewrite Hrl; apply column_order_NoDup).
    rewrite Hd, Hh. simpl. change ("" +:+ " " +:+ "") with " ".
    by rewrite Hblank. }
  assert (∃ e, datetime_temp false (frame_of_records recs) = Raise e)
    as [e He].
  { unfold datetime_temp.
    rewrite (proj2 (has_column_true "data" _)),
      (proj2 (has_column_true "hora" _)) by (rewrite Hcols; set_solver).
    simpl. eapply mapM_result_Raise; [|exact Hkey].
    by apply list_elem_of_fmap_2. }
  exists e. unfold save_to_excel. destruct recs; [done|]. by rewrite He.
Qed.

End accuweather_properties.

Section rain_sheet.
Context `{Platform}.

Lemma write_workbook_true fs FILENAME df fs' :
  write_workbook fs FILENAME df = (true, fs') →
  stored_table fs' FILENAME "Dados_Completos" = Some df
  ∧ stored_table fs' FILENAME "Com_Precipitacao"
    = (if empty (with_precipitation df) then None
       else Some (with_precipitation df))
  ∧ ∃ stats, estatisticas df = OK stats
             ∧ stored_table fs' FILENAME "Estatisticas" = Some stats.
Proof.
  unfold write_workbook. destruct (estatisticas df) as [stats|]; [|done].
  intros [= <-]. unfold stored_table. rewrite lookup_insert_eq.
  split; [done|]. destruct (empty (with_precipitation df)); simpl; eauto.
Qed.

(** X7.  After a call of [save_to_excel] that returns [True] the three
    sheets of the file belong together: the rain sheet holds the rows of
    the main sheet whose [HasPrecipitation] is true, in their order, and is
    missing when there is none; the statistics are those of the main
    sheet. *)
Theorem sheets_of_a_save_belong_together fs FILENAME new_data fs' :
  save_to_excel fs FILENAME new_data = (OK true, fs') →
  ∃ df stats,
    stored_table fs' FILENAME "Dados_Completos" = Some df
    ∧ columns df = column_order
    ∧ stored_table fs' FILENAME "Com_Precipitacao"
      = (if empty (with_precipitation df) then None
         else Some (with_precipitation df))
    ∧ rows (with_precipitation df)
      = filter (fun r => is_true (r !! "HasPrecipitation") = true) (rows df)
    ∧ estatisticas df = OK stats
    ∧ stored_table fs' FILENAME "Estatisticas" = Some stats.
Proof.
  unfold save_to_excel. destruct new_data as [|rec recs]; [done|].
  destruct (datetime_temp false _) as [new_keys|]; [|done].
  set (combined := match fs !! FILENAME with Some _ => _ | None => _ end).
  destruct combined as [df_combined|]; [|done].
  destruct (select_columns _ _) as [df|] eqn:Hsel; [|done].
  apply select_columns_OK in Hsel as [Hcols _].
  destruct (write_workbook fs FILENAME df) as [saved fs''] eqn:Hw.
  intros [= -> <-].
  apply write_workbook_true in Hw as (Hmain & Hrain & stats & Hstats & Hs).
  by exists df, stats.
Qed.

End rain_sheet.

(** ** The numbers of the summary *)















Lemma sorted_if_dated_OK df df' :
  sorted_if_dated df = OK df' →
  columns df' = columns df ∧ rows df' ≡ₚ rows df
  ∧ (has_column "data" df' = true →
     Sorted (row_le String.leb date_key) (rows df')).
Proof.
  unfold sorted_if_dated.
  destruct (empty df) eqn:He; simpl.
  - intros [= <-]. split; [done|]. split; [done|].
    intros Hd%has_column_true. unfold empty in He.
    destruct (columns df); [by apply elem_of_nil in Hd|].
    destruct (rows df); [constructor|done].
  - destruct (has_column "data" df) eqn:Hd.
    + unfold sort_values_data. intros (rs & Hrs & [= <-])%bind_OK. simpl.
      split; [done|]. split; [by eapply sort_rows_Permutation|].
      intros _. eapply sort_rows_Sorted; [apply String_leb_order|done].
    + intros [= <-]. split; [done|]. split; [done|]. congruence.
Qed.



Section more_store_properties.
Context `{Platform}.

(** X9.  A file name without a directory part, as [uniao.py] uses, is never
    written: [os.makedirs('')] raises before the file is looked at, so the
    stored tables are neither read nor merged, and the new tables go to the
    backup as they are. *)
Theorem name_without_directory_goes_to_backup fs dataframes_dict filename
    backup_filename :
  dirname filename = "" →
  backup_filename ≠ filename →
  NoDup dataframes_dict.*1 →
  let saved :=
    save_precipitation_data fs dataframes_dict filename backup_filename in
  saved.1 ≠ Saved
  ∧ saved.2 !! filename = fs !! filename
  ∧ (saved.1 = BackupSaved →
     ∀ sheet_name df,
       stored_table saved.2 backup_filename sheet_name = Some df
       ↔ dict_get sheet_name dataframes_dict = Some df ∧ empty df = false).
Proof.
  intros Hdir Hne Hnd. cbv zeta. rewrite save_without_directory by done.
  destruct (excel_write_insert fs backup_filename dataframes_dict) as [f Hf].
  destruct (excel_write fs backup_filename dataframes_dict) as [[[]|e] fs']
    eqn:Hw; simpl in *; subst fs'.
  - split; [done|]. split; [by rewrite lookup_insert_ne|]. intros _ sheet_name df.
    apply excel_write_OK in Hw. rewrite Hw, stored_table_workbook.
    destruct (dict_get sheet_name dataframes_dict) as [df'|] eqn:Hget.
    + rewrite (dict_get_nonempty _ _ _ Hnd Hget).
      destruct (empty df') eqn:He.
      * split; [done|]. intros [[= ->] ?]. congruence.
      * split; [by intros [= ->]|by intros [? _]].
    + rewrite dict_get_filter_None by done. split; [done|by intros [? _]].
  - split; [done|]. split; [by rewrite lookup_insert_ne|done].
Qed.

End more_store_properties.

(** X10.  The dictionary a cycle assembles has the five daily sheets in a
    fixed order, and the hourly sheet after them when there are hourly
    rows.  The daily sheet holds the rows of the three tables, by date when
    it has the date column; the current readings are passed on as given. *)
Theorem daily_sheet_is_the_sorted_union historical_df current_df forecast_df
    hourly_df dataframes :
  dataframes_of historical_df current_df forecast_df hourly_df = OK dataframes →
  dataframes.*1
  = ["Resumo_Precipitacao"; "Dados_Diarios"; "Dados_Historicos";
     "Dados_Atuais"; "Previsao_Precipitacao"]
    ++ (if empty hourly_df then [] else ["Dados_Horarios"])
  ∧ dict_get "Dados_Atuais" dataframes = Some current_df
  ∧ ∃ all_daily_data,
      dict_get "Dados_Diarios" dataframes = Some all_daily_data
      ∧ rows all_daily_data
        ≡ₚ rows historical_df ++ rows current_df ++ rows forecast_df
      ∧ (has_column "data" all_daily_data = true →
         Sorted (row_le String.leb date_key) (rows all_daily_data)).
Proof.
  unfold dataframes_of.
  intros (all_daily_data & Hall & (summary_df & _ & (hs & _ &
           (fs & _ & [= <-])%bind_OK)%bind_OK)%bind_OK)%bind_OK.
  apply sorted_if_dated_OK in Hall as (_ & Hrows & Hsorted).
  split; [by destruct (empty hourly_df)|].
  split; [by destruct (empty hourly_df)|].
  exists all_daily_data. split; [by destruct (empty hourly_df)|].
  split; [|done]. rewrite Hrows. simpl. by rewrite <-app_assoc.
Qed.

(** ** The hourly tables *)

Lemma subscript_contains v k x :
  subscript v k = OK x → contains v k = OK true.
Proof.
  destruct v as [| | | | |d]; try done. simpl.
  destruct (dict_get k d) eqn:Hget; [|done]. intros _. f_equal.
  apply bool_decide_eq_true_2.
  destruct (decide (k ∈ d.*1)) as [|Hn]; [done|].
  apply dict_get_None in Hn. congruence.
Qed.

Lemma subscript_truthy v k x : subscript v k = OK x → truthy v = true.
Proof.
  destruct v as [| | | | |d]; try done. simpl. by destruct d.
Qed.

Lemma iterate_falsy v l : truthy v = false → iterate v = OK l → l = [].
Proof.
  destruct v as [| | |s|l'|d]; simpl; try done.
  - case_bool_decide; [subst|done]. by intros _ [= <-].
  - destruct l'; [|done]. by intros _ [= <-].
  - destruct d; [|done]. by intros _ [= <-].
Qed.

Lemma hourly_info_shaped date hour_data rec :
  hourly_info date hour_data = OK rec →
  hourly_shaped rec ∧ dict_get "data" rec = Some (Some (Str date)).
Proof.
  unfold hourly_info.
  intros (time & _ & (hora & Hhora & Hrec)%bind_OK)%bind_OK.
  repeat (apply bind_OK in Hrec as (? & _ & Hrec)).
  injection Hrec as <-. split; [|done]. split; [done|].
  destruct time; try done. by eexists.
Qed.

Lemma day_hourly_info_shaped date day_data recs :
  day_hourly_info date day_data = OK recs →
  Forall (fun rec => hourly_shaped rec
                     ∧ dict_get "data" rec = Some (Some (Str date))) recs.
Proof.
  unfold day_hourly_info.
  intros (has_forecast & _ & (has_forecastday & _ & Hrecs)%bind_OK)%bind_OK.
  destruct has_forecastday; [|injection Hrecs as <-; constructor].
  repeat (apply bind_OK in Hrecs as (? & _ & Hrecs)).
  match goal with b : bool |- _ => destruct b end;
    [|injection Hrecs as <-; constructor].
  repeat (apply bind_OK in Hrecs as (? & _ & Hrecs)).
  apply mapM_result_Forall2 in Hrecs.
  induction Hrecs as [|h rec hs recs Hrec _ IH]; constructor; [|done].
  by eapply hourly_info_shaped.
Qed.

(** X11.  The two places that build hourly records agree.  Whenever
    [format_hourly_precipitation] returns a table for an answer, the loop
    body of [get_multiple_days_hourly_precipitation] returns the records of
    its rows for that answer; and whenever the loop body finds an hour, the
    table is made of the records it returns. *)
Theorem hourly_builders_agree date data :
  (∀ df, truthy data = true →
     format_hourly_precipitation data date = OK df →
     ∃ recs, day_hourly_info date data = OK recs
             ∧ df = frame_of_records recs)
  ∧ (∀ recs, day_hourly_info date data = OK recs → recs ≠ [] →
       format_hourly_precipitation data date = OK (frame_of_records recs)).
Proof.
  split.
  - intros df Ht. unfold format_hourly_precipitation. rewrite Ht. simpl.
    intros (location & Hloc & (forecast & Hfc & (forecastday & Hfd &
             (forecast_day & Hday & (hour & Hhour & (hours & Hhours &
             (recs & Hrecs & [= <-])%bind_OK)%bind_OK)%bind_OK)%bind_OK)
             %bind_OK)%bind_OK)%bind_OK.
    unfold day_hourly_info.
    rewrite (subscript_contains _ _ _ Hfc). simpl. rewrite Hfc. simpl.
    rewrite (subscript_contains _ _ _ Hfd). simpl. rewrite Hfd. simpl.
    rewrite Hday. simpl. rewrite Hloc. simpl.
    rewrite (subscript_contains _ _ _ Hhour). simpl. rewrite Hhour. simpl.
    destruct (truthy hour) eqn:Hth.
    + rewrite Hhours. simpl. by exists recs.
    + pose proof (iterate_falsy _ _ Hth Hhours) as ->.
      injection Hrecs as <-. by exists [].
  - intros recs. unfold day_hourly_info.
    intros (has_forecast & _ & (has_forecastday & _ & Hrecs)%bind_OK)%bind_OK
      Hne.
    destruct has_forecastday; [|by injection Hrecs as <-].
    apply bind_OK in Hrecs as (forecast & Hfc & Hrecs).
    apply bind_OK in Hrecs as (forecastday & Hfd & Hrecs).
    apply bind_OK in Hrecs as (forecast_day & Hday & Hrecs).
    apply bind_OK in Hrecs as (location & Hloc & Hrecs).
    apply bind_OK in Hrecs as (has_hour & _ & Hrecs).
    apply bind_OK in Hrecs as (some_hour & _ & Hrecs).
    destruct some_hour; [|by injection Hrecs as <-].
    apply bind_OK in Hrecs as (hour & Hhour & Hrecs).
    apply bind_OK in Hrecs as (hours & Hhours & Hrecs).
    unfold format_hourly_precipitation.
    rewrite (subscript_truthy _ _ _ Hfc). simpl.
    rewrite Hloc. simpl. rewrite Hfc. simpl. rewrite Hfd. simpl.
    rewrite Hday. simpl. rewrite Hhour. simpl. rewrite Hhours. simpl.
    by rewrite Hrecs.
Qed.

Lemma hourly_labels_NoDup : NoDup hourly_labels.
Proof. apply (bool_decide_unpack _). by vm_compute. Qed.

(** X12.  From a list of hourly records that is not empty,
    [format_multiple_days_hourly_precipitation] makes a table: their rows
    in the order of the time texts, without the helper column. *)
Theorem hourly_table_is_in_time_order recs :
  recs ≠ [] →
  Forall hourly_shaped recs →
  ∃ df sorted,
    format_multiple_days_hourly_precipitation (Some recs) = OK df
    ∧ columns df
      = ["data"; "hora"; "precipitacao_mm"; "umidade_percent";
         "nuvens_percent"; "condicao_tempo"; "chance_chuva"]
    ∧ sorted ≡ₚ row_of_record <$> recs
    ∧ Sorted (row_le String.leb (text_key "datetime_sort")) sorted
    ∧ rows df = delete "datetime_sort" <$> sorted.
Proof.
  intros Hne Hshaped.
  assert (Forall (fun rec => rec.*1 = hourly_labels) recs) as Hlabels.
  { eapply Forall_impl; [exact Hshaped|]. by intros rec [? _]. }
  pose proof (frame_of_records_columns _ _ hourly_labels_NoDup Hne Hlabels)
    as Hcols.
  assert (is_ok (sort_rows String.leb (text_key "datetime_sort")
                   (rows (frame_of_records recs)))) as [sorted Hsorted].
  { apply sort_rows_is_ok. simpl. apply Forall_fmap.
    eapply Forall_impl; [exact Hshaped|]. intros rec [Hl [time Ht]]. simpl.
    unfold text_key.
    rewrite row_of_record_lookup by (rewrite Hl; apply hourly_labels_NoDup).
    rewrite Ht. by eexists. }
  unfold format_multiple_days_hourly_precipitation.
  destruct recs as [|rec recs]; [done|].
  set (df := frame_of_records (rec :: recs)) in *.
  assert (rows df = row_of_record <$> rec :: recs) as Hrows by done.
  clearbody df.
  assert (empty df = false) as ->.
  { apply empty_false. by rewrite Hcols, Hrows. }
  rewrite (proj2 (has_column_true "datetime_sort" df))
    by (rewrite Hcols; unfold hourly_labels; set_solver).
  simpl. rewrite Hsorted. simpl.
  eexists _, sorted. split; [done|]. simpl. rewrite Hcols.
  split; [by vm_compute|].
  split.
  { apply sort_rows_Permutation in Hsorted. by rewrite Hrows in Hsorted. }
  split; [|done]. eapply sort_rows_Sorted; [apply String_leb_order|done].
Qed.

Lemma str_split_nonempty sep s : str_split sep s ≠ [].
Proof.
  destruct s as [|a s]; simpl; [done|].
  case_bool_decide; [done|]. by destruct (str_split sep s).
Qed.

Lemma str_split_join sep s : str_join sep (str_split sep s) = s.
Proof.
  induction s as [|a s IH]; [done|]. simpl.
  pose proof (str_split_nonempty sep s) as Hne.
  case_bool_decide as Ha.
  - subst. destruct (str_split sep s) as [|p ps]; [done|].
    simpl in *. by rewrite IH.
  - destruct (str_split sep s) as [|p ps]; [done|].
    destruct ps as [|p' ps]; simpl in *; by rewrite <-IH.
Qed.

Lemma str_split_parts sep s :
  Forall (fun part => sep ∉ chars part) (str_split sep s).
Proof.
  induction s as [|a s IH]; simpl.
  - constructor; [|constructor]. apply not_elem_of_nil.
  - case_bool_decide as Ha.
    + constructor; [apply not_elem_of_nil|done].
    + destruct (str_split sep s) as [|p ps]; simpl.
      * constructor; [|constructor]. unfold chars. simpl.
        apply not_elem_of_cons. split; [done|apply not_elem_of_nil].
      * apply Forall_cons in IH as [Hp Hps]. constructor; [|done].
        unfold chars in *. simpl. apply not_elem_of_cons. by split.
Qed.

Lemma str_split_single sep s :
  length (str_split sep s) = 1%nat ↔ sep ∉ chars s.
Proof.
  induction s as [|a s IH]; simpl.
  - split; [intros _; apply not_elem_of_nil|done].
  - pose proof (str_split_nonempty sep s) as Hne.
    unfold chars in *. simpl. rewrite not_elem_of_cons.
    case_bool_decide as Ha.
    + subst. destruct (str_split sep s); [done|]. simpl. split; [lia|].
      by intros [? _].
    + destruct (str_split sep s) as [|p ps]; [done|]. simpl in *.
      rewrite IH. naive_solver.
Qed.

(** X13.  The time of day of an hourly record is the second of the parts
    into which the blanks cut the time text of the provider, and the helper
    column holds that text whole.  A time that is not a text raises
    [AttributeError], a time text without a blank raises [IndexError]; the
    date of the record is the day that was asked for, whatever day the time
    text names. *)
Theorem hour_is_second_part_of_time date hour_data time :
  subscript hour_data "time" = OK time →
  match time with
  | JStr text =>
      str_join " " (str_split " " text) = text
      ∧ Forall (fun part => " "%char ∉ chars part) (str_split " " text)
      ∧ ((" "%char ∉ chars text) →
         hourly_info date hour_data = Raise IndexError)
      ∧ ∀ rec, hourly_info date hour_data = OK rec →
          ∃ hora, str_split " " text !! 1%nat = Some hora
                  ∧ dict_get "hora" rec = Some (Some (Str hora))
                  ∧ dict_get "datetime_sort" rec = Some (Some (Str text))
                  ∧ dict_get "data" rec = Some (Some (Str date))
  | _ => hourly_info date hour_data = Raise AttributeError
  end.
Proof.
  intros Htime. unfold hourly_info. rewrite Htime. simpl.
  destruct time as [| | |text| |]; try done.
  split; [apply str_split_join|]. split; [apply str_split_parts|]. split.
  - intros Hblank%str_split_single. simpl.
    by destruct (str_split " " text) as [|? [|? ?]].
  - intros rec (hora & Hhora & Hrec)%bind_OK.
    repeat (apply bind_OK in Hrec as (? & _ & Hrec)).
    injection Hrec as <-. exists hora. simpl in Hhora.
    destruct (str_split " " text) as [|? [|? ?]]; try done.
    by injection Hhora as ->.
Qed.

(** ** The queries by day *)

Lemma omap_length_le {A B} (f : A → option B) l :
  (length (omap f l) ≤ length l)%nat.
Proof. induction l as [|a l IH]; csimpl; [done|]. destruct (f a); simpl; lia. Qed.

Section query_properties.
Context `{Calendar}.

Lemma historical_loop_answers history days acc :
  historical_loop history days acc
  = acc ++ omap history (strftime <$> days).
Proof.
  revert acc. induction days as [|d days IH]; intros acc; csimpl.
  - by rewrite app_nil_r.
  - destruct (history (strftime d)); rewrite IH; [|done].
    by rewrite <-app_assoc.
Qed.

Lemma parse_date_OK s d : parse_date s = OK d ↔ strptime s = Some d.
Proof. unfold parse_date. destruct (strptime s); naive_solver. Qed.

Lemma hourly_loop_OK history days acc l :
  hourly_loop history days acc = OK l ↔
  ∃ per_day, Forall2 (day_records history) days per_day
             ∧ l = acc ++ List.concat per_day.
Proof.
  revert acc. induction days as [|d days IH]; intros acc; simpl.
  - split.
    + intros [= <-]. exists []. split; [constructor|]. by rewrite app_nil_r.
    + intros (per_day & ->%Forall2_nil_inv_l & ->). by rewrite app_nil_r.
  - split.
    + destruct (history (strftime d)) as [day_data|] eqn:Hd.
      * intros (infos & Hinfos & (per_day & Hall & ->)%IH)%bind_OK.
        exists (infos :: per_day). split; [|by rewrite <-app_assoc].
        constructor; [|done]. unfold day_records. by rewrite Hd.
      * intros (per_day & Hall & ->)%IH. exists ([] :: per_day).
        split; [|done]. constructor; [|done]. unfold day_records.
        by rewrite Hd.
    + intros (per_day & (infos & per_day' & Hd & Hall & ->)%Forall2_cons_inv_l
              & ->).
      unfold day_records in Hd.
      destruct (history (strftime d)) as [day_data|].
      * rewrite Hd. simpl. apply IH. exists per_day'.
        split; [done|]. by rewrite <-app_assoc.
      * subst infos. apply IH. by exists per_day'.
Qed.

Lemma hourly_loop_Raise history days acc d day_data e :
  d ∈ days → history (strftime d) = Some day_data →
  day_hourly_info (strftime d) day_data = Raise e →
  ∃ e', hourly_loop history days acc = Raise e'.
Proof.
  revert acc. induction days as [|d' days IH]; intros acc;
    [by intros ?%elem_of_nil|].
  intros [->|Hin]%elem_of_cons Hd He; simpl.
  - rewrite Hd, He. by eexists.
  - destruct (history (strftime d')) as [day_data'|]; [|by apply IH].
    destruct (day_hourly_info _ day_data'); simpl; [by apply IH|by eexists].
Qed.

(** X14.  [get_historical_precipitation] returns the answers of the days from
    the first to the last that could be fetched, in the order of the days,
    one at most for each day, and [None] instead of an empty list: when no
    day could be fetched, or the last day is before the first.  A date
    text that cannot be parsed raises [ValueError]. *)
Theorem historical_answers_in_day_order history start_date end_date :
  (∀ s e, strptime start_date = Some s → strptime end_date = Some e →
     let answers := omap history (strftime <$> days_between s e) in
     get_historical_precipitation history start_date end_date
     = OK (match answers with [] => None | _ => Some answers end)
     ∧ (length answers ≤ Z.to_nat (e - s + 1))%nat
     ∧ ((e < s)%Z → answers = []))
  ∧ (strptime start_date = None ∨ strptime end_date = None →
     get_historical_precipitation history start_date end_date
     = Raise ValueError).
Proof.
  unfold get_historical_precipitation, parse_date. split.
  - intros s e -> ->. simpl. rewrite historical_loop_answers. simpl.
    split; [done|]. split.
    + etrans; [apply omap_length_le|].
      rewrite length_fmap. unfold days_between. by rewrite length_seqZ.
    + intros Hlt. unfold days_between. rewrite seqZ_nil by lia. done.
  - intros [->| ->]; [done|]. by destruct (strptime start_date).
Qed.

(** X15.  [get_multiple_days_hourly_precipitation] joins what its loop body
    takes from the answer of each day, first day first, a day that could
    not be fetched giving nothing; every record has the shape of an hourly
    record and the date of the day it was asked for; the result is [None]
    instead of an empty list. *)
Theorem hourly_records_by_day history start_date end_date r :
  get_multiple_days_hourly_precipitation history start_date end_date = OK r →
  r ≠ Some []
  ∧ Forall hourly_shaped (default [] r)
  ∧ ∃ s e per_day,
      strptime start_date = Some s ∧ strptime end_date = Some e
      ∧ Forall2 (day_records history) (days_between s e) per_day
      ∧ default [] r = List.concat per_day.
Proof.
  unfold get_multiple_days_hourly_precipitation.
  intros (s & Hs%parse_date_OK & (e & He%parse_date_OK &
           (l & Hl & [= <-])%bind_OK)%bind_OK)%bind_OK.
  apply hourly_loop_OK in Hl as (per_day & Hall & ->). simpl.
  split; [by destruct (List.concat per_day)|].
  assert (default [] match List.concat per_day with
                     | [] => None
                     | _ :: _ => Some (List.concat per_day)
                     end = List.concat per_day) as ->
    by by destruct (List.concat per_day).
  split; [|by exists s, e, per_day].
  apply Forall_concat.
  induction Hall as [|d infos days per_day Hd _ IH]; constructor; [|done].
  unfold day_records in Hd. destruct (history (strftime d)) as [day_data|].
  - apply day_hourly_info_shaped in Hd.
    eapply Forall_impl; [exact Hd|]. by intros rec [? _].
  - subst. constructor.
Qed.

(** X16.  Only a failed request is caught by
    [get_multiple_days_hourly_precipitation]: when the answer of one day of
    the range makes the loop body raise, the call raises and returns no
    record of any day. *)
Theorem malformed_day_fails_the_hourly_query history start_date end_date
    s e d day_data err :
  strptime start_date = Some s → strptime end_date = Some e →
  (s ≤ d ≤ e)%Z →
  history (strftime d) = Some day_data →
  day_hourly_info (strftime d) day_data = Raise err →
  ∃ err', get_multiple_days_hourly_precipitation history start_date end_date
          = Raise err'.
Proof.
  intros Hs He Hd Hanswer Hraise.
  unfold get_multiple_days_hourly_precipitation, parse_date.
  rewrite Hs, He. simpl.
  destruct (hourly_loop_Raise history (days_between s e) [] d day_data err)
    as [err' ->]; [|done|done|by eexists].
  unfold days_between. apply elem_of_seqZ. lia.
Qed.

End query_properties.

(** ** The cycle *)

Lemma omap_ext_in {A B} (f g : A → option B) (l : list A) :
  (∀ x, x ∈ l → f x = g x) → omap f l = omap g l.
Proof.
  induction l as [|a l IH]; [done|]. intros Hfg. csimpl.
  rewrite (Hfg a) by left. rewrite IH; [done|]. intros x Hx. apply Hfg. by right.
Qed.

Section cycle_properties.
Context `{Platform} `{Calendar}.

Lemma hourly_loop_ext h1 h2 days acc :
  (∀ d, d ∈ days → h1 (strftime d) = h2 (strftime d)) →
  hourly_loop h1 days acc = hourly_loop h2 days acc.
Proof.
  revert acc. induction days as [|d days IH]; intros acc Hh; [done|].
  simpl. rewrite (Hh d) by left.
  assert (∀ acc', hourly_loop h1 days acc' = hourly_loop h2 days acc') as IH'.
  { intros acc'. apply IH. intros d' Hd'. apply Hh. by right. }
  destruct (h2 (strftime d)); [|done].
  destruct (day_hourly_info _ _); simpl; [|done]. apply IH'.
Qed.

Lemma get_historical_ext h1 h2 (s e : Z) :
  strptime (strftime s) = Some s → strptime (strftime e) = Some e →
  (∀ d, (s ≤ d ≤ e)%Z → h1 (strftime d) = h2 (strftime d)) →
  get_historical_precipitation h1 (strftime s) (strftime e)
  = get_historical_precipitation h2 (strftime s) (strftime e).
Proof.
  intros Hs He Hh. unfold get_historical_precipitation, parse_date.
  rewrite Hs, He. simpl. rewrite !historical_loop_answers. simpl.
  rewrite (omap_ext_in h1 h2); [done|].
  intros x (d & -> & Hd)%list_elem_of_fmap. apply Hh.
  unfold days_between in Hd. apply elem_of_seqZ in Hd. lia.
Qed.

Lemma get_hourly_ext h1 h2 (s e : Z) :
  strptime (strftime s) = Some s → strptime (strftime e) = Some e →
  (∀ d, (s ≤ d ≤ e)%Z → h1 (strftime d) = h2 (strftime d)) →
  get_multiple_days_hourly_precipitation h1 (strftime s) (strftime e)
  = get_multiple_days_hourly_precipitation h2 (strftime s) (strftime e).
Proof.
  intros Hs He Hh.
  unfold get_multiple_days_hourly_precipitation, parse_date.
  rewrite Hs, He. simpl. rewrite (hourly_loop_ext h1 h2); [done|].
  intros d Hd. apply Hh. unfold days_between in Hd.
  apply elem_of_seqZ in Hd. lia.
Qed.

(** X17.  A cycle depends on the provider through these answers alone: the
    current conditions, the forecast for the number of days asked, capped
    at ten, the history of the [historical_days] days that end yesterday,
    and, when hourly data are wanted, the history of eight days: today and
    the seven days before. *)
Theorem cycle_asks_for_its_days p1 p2 c fs historical_days forecast_days
    include_hourly filename backup_filename :
  let first_day := (now_historical c - historical_days)%Z in
  let yesterday := (now_historical c - 1)%Z in
  let week_ago := (now_hourly c - 7)%Z in
  let today := now_hourly c in
  Forall (fun d => strptime (strftime d) = Some d)
    [first_day; yesterday; week_ago; today] →
  current_answer p1 = current_answer p2 →
  forecast_answer p1 (Z.min forecast_days 10)
  = forecast_answer p2 (Z.min forecast_days 10) →
  (∀ d, (first_day ≤ d ≤ yesterday)%Z →
        history_answer p1 (strftime d) = history_answer p2 (strftime d)) →
  (include_hourly = true →
   ∀ d, (week_ago ≤ d ≤ today)%Z →
        hourly_answer p1 (strftime d) = hourly_answer p2 (strftime d)) →
  extraction_cycle p1 c fs historical_days forecast_days include_hourly
    filename backup_filename
  = extraction_cycle p2 c fs historical_days forecast_days include_hourly
      filename backup_filename.
Proof.
  intros first_day yesterday week_ago today Hdays Hcurrent Hforecast
    Hhistory Hhourly.
  apply Forall_cons in Hdays as [Hd1 Hdays].
  apply Forall_cons in Hdays as [Hd2 Hdays].
  apply Forall_cons in Hdays as [Hd3 Hdays].
  apply Forall_cons in Hdays as [Hd4 _].
  unfold extraction_cycle, get_forecast_precipitation.
  rewrite Hcurrent, Hforecast.
  replace (now_historical c - 1 - (historical_days - 1))%Z
    with first_day by (unfold first_day; lia).
  fold yesterday week_ago today.
  rewrite (get_historical_ext (history_answer p1) (history_answer p2))
    by done.
  destruct include_hourly; [|done].
  by rewrite (get_hourly_ext (hourly_answer p1) (hourly_answer p2))
    by (try done; by apply Hhourly).
Qed.

(** X18.  When no request is answered, the cycle still returns, with five
    empty tables; run where there is no file yet, it leaves nothing that
    can be read: both the save and the backup fail. *)
Theorem cycle_without_answers p c fs historical_days forecast_days
    include_hourly filename backup_filename :
  Forall (fun d => is_Some (strptime (strftime d)))
    [(now_historical c - historical_days)%Z; (now_historical c - 1)%Z;
     (now_hourly c - 7)%Z; now_hourly c] →
  current_answer p = None →
  (∀ days, forecast_answer p days = None) →
  (∀ date, history_answer p date = None) →
  (∀ date, hourly_answer p date = None) →
  extraction_cycle p c fs historical_days forecast_days include_hourly
    filename backup_filename
  = OK (no_data,
        save_precipitation_data fs no_data filename backup_filename)
  ∧ (fs !! filename = None →
     (save_precipitation_data fs no_data filename backup_filename).1
     = BackupFailed
     ∧ ∀ name sheet_name,
         stored_table
           (save_precipitation_data fs no_data filename backup_filename).2
           name sheet_name
         = if bool_decide (name = filename ∨ name = backup_filename)
           then None else stored_table fs name sheet_name).
Proof.
  intros Hdays Hcurrent Hforecast Hhistory Hhourly.
  apply Forall_cons in Hdays as [[d1 Hd1] Hdays].
  apply Forall_cons in Hdays as [[d2 Hd2] Hdays].
  apply Forall_cons in Hdays as [[d3 Hd3] Hdays].
  apply Forall_cons in Hdays as [[d4 Hd4] _].
  split.
  - unfold extraction_cycle, get_forecast_precipitation.
    rewrite Hcurrent, Hforecast. simpl.
    replace (now_historical c - 1 - (historical_days - 1))%Z
      with (now_historical c - historical_days)%Z by lia.
    unfold get_historical_precipitation, parse_date. rewrite Hd1, Hd2. simpl.
    rewrite historical_loop_answers. simpl.
    rewrite (omap_ext_in _ (fun _ => None)) by (intros; apply Hhistory).
    assert (∀ l : list string, omap (fun _ => @None json) l = []) as ->
      by (induction l; [done|by csimpl]).
    simpl.
    destruct include_hourly; [|done].
    unfold get_multiple_days_hourly_precipitation, parse_date.
    rewrite Hd3, Hd4. simpl.
    assert (∀ days, hourly_loop (hourly_answer p) days [] = OK []) as ->.
    { induction days as [|d days IH]; [done|]. simpl. by rewrite Hhourly. }
    done.
  - intros Hfs. unfold save_precipitation_data, save_attempt.
    case_bool_decide as Hdir; [|rewrite Hfs]; simpl.
    + split; [done|]. intros name sheet_name. unfold stored_table.
      case_bool_decide as Hname.
      * destruct Hname as [->| ->].
        -- destruct (decide (filename = backup_filename)) as [->|Hne].
           ++ by rewrite lookup_insert_eq.
           ++ by rewrite lookup_insert_ne, Hfs.
        -- by rewrite lookup_insert_eq.
      * rewrite lookup_insert_ne; [done|]. naive_solver.
    + split; [done|]. intros name sheet_name. unfold stored_table.
      case_bool_decide as Hname.
      * destruct Hname as [->| ->].
        -- destruct (decide (filename = backup_filename)) as [->|Hne].
           ++ by rewrite lookup_insert_eq.
           ++ by rewrite lookup_insert_ne, lookup_insert_eq.
        -- by rewrite lookup_insert_eq.
      * rewrite !lookup_insert_ne; [done|naive_solver..].
Qed.

End cycle_properties.

(** ** The daily tables *)

Lemma forecast_record_labels location day rec :
  forecast_record location day = OK rec → rec.*1 = forecast_labels.
Proof.
  unfold forecast_record. intros Hrec.
  repeat (apply bind_OK in Hrec as (? & _ & Hrec)). by injection Hrec as <-.
Qed.

Lemma historical_record_labels data rec :
  historical_record data = OK rec → rec.*1 = historical_labels.
Proof.
  unfold historical_record. intros Hrec.
  repeat (apply bind_OK in Hrec as (? & _ & Hrec)). by injection Hrec as <-.
Qed.

Lemma mapM_result_labels {A} (f : A → result record) labels l recs :
  (∀ a rec, f a = OK rec → rec.*1 = labels) →
  mapM_result f l = OK recs → Forall (fun rec => rec.*1 = labels) recs.
Proof.
  intros Hf Hrecs%mapM_result_Forall2.
  induction Hrecs as [|a rec l recs Hrec _ IH]; constructor; [|done].
  by eapply Hf.
Qed.

Lemma frame_of_records_length recs :
  length (rows (frame_of_records recs)) = length recs.
Proof. unfold frame_of_records. simpl. by rewrite length_fmap. Qed.

Lemma frame_of_records_nil recs :
  rows (frame_of_records recs) ≠ [] → recs ≠ [].
Proof. by intros Hrows ->. Qed.

(** X20.  The tables of the three daily normalizers have fixed columns: ten
    for the current reading, which is one row; nine for the forecast; eight
    for the history, which has no humidity; one row for each day of the
    forecast and each answer of the history.  Each has the date column and
    no time-of-day column, so that a merge takes the date for key. *)
Theorem daily_tables_have_fixed_columns :
  (∀ now_timestamp now_date data df,
     truthy data = true →
     format_current_precipitation now_timestamp now_date data = OK df →
     columns df = current_labels ∧ length (rows df) = 1%nat
     ∧ frame_order df = ByDate)
  ∧ (∀ data df,
       format_forecast_precipitation data = OK df → rows df ≠ [] →
       columns df = forecast_labels ∧ frame_order df = ByDate
       ∧ ∃ forecast forecastday days,
           subscript data "forecast" = OK forecast
           ∧ subscript forecast "forecastday" = OK forecastday
           ∧ iterate forecastday = OK days
           ∧ length (rows df) = length days)
  ∧ (∀ data_list df,
       format_historical_precipitation (JList data_list) = OK df →
       length (rows df) = length data_list
       ∧ (data_list ≠ [] →
          columns df = historical_labels ∧ frame_order df = ByDate)).
Proof.
  split; [|split].
  - intros ts d data df Ht. unfold format_current_precipitation. rewrite Ht.
    simpl. intros Hdf.
    repeat (apply bind_OK in Hdf as (? & _ & Hdf)). by injection Hdf as <-.
  - intros data df. unfold format_forecast_precipitation.
    destruct (truthy data); simpl; [|by intros [= <-]].
    intros (location & _ & (forecast & Hfc & (forecastday & Hfd &
             (days & Hdays & (recs & Hrecs & [= <-])%bind_OK)%bind_OK)
             %bind_OK)%bind_OK)%bind_OK Hne%frame_of_records_nil.
    pose proof (mapM_result_labels _ forecast_labels _ _
                  (forecast_record_labels location) Hrecs) as Hlabels.
    assert (NoDup forecast_labels) as Hnd
      by (apply (bool_decide_unpack _); by vm_compute).
    pose proof (frame_of_records_columns _ _ Hnd Hne Hlabels) as Hcols.
    split; [done|]. split.
    + unfold frame_order, has_column. rewrite Hcols. by vm_compute.
    + exists forecast, forecastday, days. repeat split; try done.
      rewrite frame_of_records_length. by eapply mapM_result_length.
  - intros data_list df. unfold format_historical_precipitation.
    destruct data_list as [|data data_list]; [by intros [= <-]|].
    cbn [truthy negb iterate]. cbn [mbind result_bind].
    intros (recs & Hrecs & [= <-])%bind_OK.
    pose proof (mapM_result_length _ _ _ Hrecs) as Hlen.
    rewrite frame_of_records_length. split; [done|]. intros _.
    pose proof (mapM_result_labels _ historical_labels _ _
                  historical_record_labels Hrecs) as Hlabels.
    assert (NoDup historical_labels) as Hnd
      by (apply (bool_decide_unpack _); by vm_compute).
    assert (recs ≠ []) as Hne by (intros ->; done).
    pose proof (frame_of_records_columns _ _ Hnd Hne Hlabels) as Hcols.
    split; [done|]. unfold frame_order, has_column. rewrite Hcols.
    by vm_compute.
Qed.

(** ** The sheets a save writes *)

Lemma dict_get_filter_Some {V} (P : string * V → Prop)
    `{∀ x, Decision (P x)} (d : dict V) k v :
  dict_get k (filter P d) = Some v → k ∈ d.*1 ∧ P (k, v).
Proof.
  induction d as [|[k' v'] d IH]; simpl; [done|].
  rewrite filter_cons. case_decide as HP; simpl.
  - case_bool_decide as Hk; subst.
    + intros [= ->]. split; [left|done].
    + intros [? ?]%IH. split; [by right|done].
  - intros [? ?]%IH. split; [by right|done].
Qed.

Section written_sheets.
Context `{Platform}.

Lemma written_tables_names fs dataframes_dict filename written :
  NoDup dataframes_dict.*1 →
  written_tables fs dataframes_dict filename written →
  written.*1 = dataframes_dict.*1.
Proof.
  intros Hnd [-> | (f & _ & Hc)]; [done|].
  apply combine_OK in Hc as (ms & -> & Hms); [|done]. simpl.
  by apply (merged_from_names _ _ _ Hms).
Qed.

(** X21.  Whatever a save writes, to the file or to the backup, it writes
    under the names of the new dictionary only, and never a sheet without
    rows: a sheet the file held under another name is not written back. *)
Theorem written_sheets_are_fetched_sheets fs dataframes_dict filename
    backup_filename sheet_name df :
  NoDup dataframes_dict.*1 →
  let saved :=
    save_precipitation_data fs dataframes_dict filename backup_filename in
  saved.1 ≠ BackupFailed →
  stored_table saved.2 (written_file saved.1 filename backup_filename)
    sheet_name = Some df →
  sheet_name ∈ dataframes_dict.*1 ∧ empty df = false.
Proof.
  intros Hnd saved Hout.
  destruct saved as [o fs'] eqn:Hsaved. simpl in *.
  assert (∃ written,
            written_tables fs dataframes_dict filename written
            ∧ fs' = <[written_file o filename backup_filename :=
                        workbook_of (filter (fun e => empty e.2 = false)
                                       written)]> fs)
    as (written & Hwritten & ->).
  { destruct o; [by eapply save_saved_written|by eapply save_backup_saved|done]. }
  rewrite stored_table_workbook.
  intros [Hin He]%dict_get_filter_Some. simpl in He.
  by rewrite <-(written_tables_names _ _ _ _ Hnd Hwritten).
Qed.

End written_sheets.

(** * The further properties on the examples *)

Import MoreExamples Gregorian.

Lemma pair_eta_fst {A B} (p : A * B) (a : A) : p.1 = a → p = (a, p.2).
Proof. destruct p. simpl. by intros ->. Qed.

(** ** [save_to_excel] and [collect_data] *)

(** The hour after the stored one is written by the first call, and a
    second call with the same record finds nothing new. *)
Lemma saving_again_writes_nothing_witness :
  let saved := save_to_excel accu_fs accu_file next_hour in
  saved.1 = OK true
  ∧ precipitation_at "2024-01-01" "11:00:00"
      (stored_table saved.2 accu_file "Dados_Completos") = [Some (Num 0)]
  ∧ save_to_excel saved.2 accu_file next_hour = (OK false, saved.2).
Proof.
  cbv zeta.
  assert ((save_to_excel accu_fs accu_file next_hour).1 = OK true) as Hsave
    by (vm_compute; reflexivity).
  split; [exact Hsave|]. split; [vm_compute; reflexivity|].
  apply (saving_again_writes_nothing accu_fs accu_file next_hour true).
  by apply pair_eta_fst.
Defined.

(** The stored hour and the hour after it are both in the sheet that is
    written, the stored one first. *)
Lemma new_instants_are_appended_witness :
  let saved := save_to_excel accu_fs accu_file next_hour in
  ∃ df, stored_table saved.2 accu_file "Dados_Completos" = Some df
        ∧ columns df = column_order
        ∧ rows df ≡ₚ restrict column_order
                       <$> (rows accu_stored ++ rows (frame_of_records next_hour))
        ∧ Sorted (row_le Z.leb (datetime_key true)) (rows df).
Proof.
  cbv zeta.
  assert ((save_to_excel accu_fs accu_file next_hour).1 = OK true) as Hsave
    by (vm_compute; reflexivity).
  apply pair_eta_fst in Hsave.
  destruct (new_instants_are_appended accu_fs accu_file next_hour
              [("Dados_Completos", Parsed accu_stored)] accu_stored
              [Some 20240101100000%Z] [Some 20240101110000%Z] true
              (save_to_excel accu_fs accu_file next_hour).2)
    as [[Hnone _]|[_ Hdf]];
    [reflexivity|reflexivity|vm_compute; reflexivity|vm_compute; reflexivity
    |exact Hsave| |].
  - apply (f_equal length) in Hnone. vm_compute in Hnone. discriminate Hnone.
  - exact Hdf.
Defined.

(** Over a workbook whose main sheet has no time-of-day column the new
    record is written alone: the two stored days are gone. *)
Lemma unusable_sheet_is_replaced_witness :
  stored_table dated_fs accu_file "Dados_Completos" = Some two_days
  ∧ ∃ b, (save_to_excel dated_fs accu_file next_hour).1 = OK b
         ∧ stored_table (save_to_excel dated_fs accu_file next_hour).2
             accu_file "Dados_Completos" = Some (frame_of_records next_hour).
Proof.
  split; [vm_compute; reflexivity|].
  apply (unusable_sheet_is_replaced dated_fs accu_file next_hour
           [Some 20240101110000%Z]).
  - discriminate.
  - repeat constructor.
  - vm_compute; reflexivity.
  - right. exists (Workbook [("Dados_Completos", Parsed two_days)]), KeyError.
    split; vm_compute; reflexivity.
Defined.

(** The payload for the stored hour gives one record with the eight
    columns, on which [save_to_excel] returns. *)
Lemma processed_records_fit_the_sheet_witness :
  ∃ recs, process_data stored_hour = OK recs
          ∧ Forall (fun rec => rec.*1 = column_order) recs
          ∧ length recs = 1%nat
          ∧ is_ok (save_to_excel accu_fs accu_file recs).1.
Proof.
  eexists. split; [vm_compute; reflexivity|].
  destruct (processed_records_fit_the_sheet stored_hour _ eq_refl)
    as (Hlabels & Hlen & Hsave).
  split; [exact Hlabels|]. split; [exact (Hlen _ eq_refl)|].
  apply Hsave. eexists. vm_compute. reflexivity.
Defined.

(** The fetch gave the hour that is stored already: [save_to_excel] writes
    nothing and returns [False], and [collect_data] returns [True]. *)
Lemma collect_data_reports_the_fetch_witness :
  (collect_data accu_fs accu_file stored_hour).1 = OK true
  ∧ ∃ processed_data,
      process_data stored_hour = OK processed_data
      ∧ save_to_excel accu_fs accu_file processed_data = (OK false, accu_fs).
Proof.
  assert ((collect_data accu_fs accu_file stored_hour).1 = OK true) as Hc
    by (vm_compute; reflexivity).
  split; [exact Hc|]. apply pair_eta_fst in Hc.
  destruct (collect_data_reports_the_fetch accu_fs accu_file stored_hour)
    as [_ Htrue].
  destruct (Htrue eq_refl _ _ Hc) as (_ & processed_data & saved & Hp & Hs).
  exists processed_data. split; [exact Hp|].
  vm_compute in Hp. injection Hp as <-.
  apply (save_to_excel_nothing_new accu_fs accu_file _
           [("Dados_Completos", Parsed accu_stored)] accu_stored
           [Some 20240101100000%Z] [Some 20240101100000%Z]);
    [reflexivity|reflexivity|vm_compute; reflexivity|vm_compute; reflexivity|].
  repeat constructor.
Defined.

(** The first item of the payload has no readable date: the second item,
    which has one, is not saved either. *)
Lemma unusable_date_fails_the_batch_witness :
  ∃ recs e, process_data hourly_payload = OK recs
            ∧ length recs = 2%nat
            ∧ save_to_excel accu_fs accu_file recs = (Raise e, accu_fs).
Proof.
  assert (is_ok (process_data hourly_payload)) as [recs Hrecs]
    by (eexists; vm_compute; reflexivity).
  destruct (unusable_date_fails_the_batch (H := Posix.platform)
              accu_fs accu_file
              [JDict [("DateTime", JStr "31/12 at noon");
                      ("TotalLiquid", JDict [("Value", JNum (12 # 10))])];
               JDict [("DateTime", JStr "2024-01-01T11:00:00-03:00");
                      ("HasPrecipitation", JBool false)]]
              recs) as [e He]; [reflexivity|exact Hrecs| |].
  { eexists. split; [left|]. vm_compute. reflexivity. }
  exists recs, e. split; [exact Hrecs|]. split; [|exact He].
  assert (match process_data hourly_payload with
          | OK l => length l
          | Raise _ => 0%nat
          end = 2%nat) as Hlen by (vm_compute; reflexivity).
  by rewrite Hrecs in Hlen.
Defined.

(** ** The summary and the daily sheet *)


(** The name [uniao.py] saves under has no directory: the stored days stay
    as they are and the new day is found in the backup alone. *)
Lemma name_without_directory_goes_to_backup_witness :
  let fs : filesystem :=
    {[ "precipitacao_sao_paulo.xlsx" := workbook_of stored_sheets ]} in
  let saved :=
    save_precipitation_data fs [("Dados_Diarios", third_day)]
      "precipitacao_sao_paulo.xlsx" backup in
  saved.1 = BackupSaved
  ∧ saved.2 !! "precipitacao_sao_paulo.xlsx"
    = Some (workbook_of stored_sheets)
  ∧ stored_table saved.2 backup "Dados_Diarios" = Some third_day.
Proof.
  cbv zeta.
  destruct (name_without_directory_goes_to_backup
              {[ "precipitacao_sao_paulo.xlsx" := workbook_of stored_sheets ]}
              [("Dados_Diarios", third_day)]
              "precipitacao_sao_paulo.xlsx" backup)
    as (_ & Hfile & Hbackup);
    [vm_compute; reflexivity|discriminate|apply NoDup_singleton|].
  assert ((save_precipitation_data
             {[ "precipitacao_sao_paulo.xlsx" := workbook_of stored_sheets ]}
             [("Dados_Diarios", third_day)]
             "precipitacao_sao_paulo.xlsx" backup).1 = BackupSaved) as Hout
    by (vm_compute; reflexivity).
  split; [exact Hout|]. split.
  - rewrite Hfile. apply lookup_singleton_eq.
  - apply (Hbackup Hout). split; reflexivity.
Defined.

(** History out of order and a forecast: the daily sheet has the three
    days by date. *)
Lemma daily_sheet_is_the_sorted_union_witness :
  ∃ dataframes all_daily_data,
    dataframes_of two_days_reversed empty_frame third_day empty_frame
    = OK dataframes
    ∧ dict_get "Dados_Diarios" dataframes = Some all_daily_data
    ∧ dataframes.*1
      = ["Resumo_Precipitacao"; "Dados_Diarios"; "Dados_Historicos";
         "Dados_Atuais"; "Previsao_Precipitacao"]
    ∧ rows all_daily_data ≡ₚ rows two_days_reversed ++ rows third_day
    ∧ Sorted (row_le String.leb date_key) (rows all_daily_data).
Proof.
  assert (is_ok (dataframes_of two_days_reversed empty_frame third_day
                   empty_frame)) as [dataframes Hd]
    by (eexists; vm_compute; reflexivity).
  destruct (daily_sheet_is_the_sorted_union _ _ _ _ _ Hd)
    as (Hnames & _ & all_daily_data & Hget & Hrows & Hsorted).
  exists dataframes, all_daily_data. split; [exact Hd|].
  split; [exact Hget|]. split; [exact Hnames|]. split; [exact Hrows|].
  apply Hsorted.
  assert (match dataframes_of two_days_reversed empty_frame third_day
                  empty_frame with
          | OK d => has_column "data" <$> dict_get "Dados_Diarios" d
          | Raise _ => None
          end = Some true) as Hdated by (vm_compute; reflexivity).
  rewrite Hd, Hget in Hdated. by injection Hdated.
Defined.

(** Current conditions, a forecast of one day and the history of one day,
    as the provider answers. *)
Lemma daily_tables_have_fixed_columns_witness :
  ∃ historical_df,
    format_historical_precipitation (JList [first_of_january])
    = OK historical_df
    ∧ length (rows historical_df) = 1%nat
    ∧ columns historical_df = historical_labels
    ∧ has_column "umidade_percent" historical_df = false
    ∧ frame_order historical_df = ByDate.
Proof.
  assert (is_ok (format_historical_precipitation (JList [first_of_january])))
    as [historical_df Hdf] by (eexists; vm_compute; reflexivity).
  destruct daily_tables_have_fixed_columns as (_ & _ & Hhistorical).
  destruct (Hhistorical _ _ Hdf) as [Hlen Hcols].
  destruct Hcols as [Hcols Horder]; [discriminate|].
  exists historical_df. split; [exact Hdf|]. split; [exact Hlen|].
  split; [exact Hcols|]. split; [|exact Horder].
  unfold has_column. rewrite Hcols. reflexivity.
Defined.

(** ** The hourly tables *)

(** The answer for the first of January, with its two hours. *)
Lemma hourly_builders_agree_witness :
  ∃ recs,
    day_hourly_info "2024-01-01" first_of_january = OK recs
    ∧ length recs = 2%nat
    ∧ format_hourly_precipitation first_of_january "2024-01-01"
      = OK (frame_of_records recs).
Proof.
  assert (is_ok (day_hourly_info "2024-01-01" first_of_january))
    as [recs Hrecs] by (eexists; vm_compute; reflexivity).
  exists recs. split; [exact Hrecs|].
  destruct (hourly_builders_agree "2024-01-01" first_of_january) as [_ Hagree].
  assert (length recs = 2%nat) as Hlen
    by (vm_compute in Hrecs; injection Hrecs as <-; reflexivity).
  split; [exact Hlen|]. apply Hagree; [exact Hrecs|].
  intros ->. discriminate Hlen.
Defined.

(** The two hours come out with the earlier one first. *)
Lemma hourly_table_is_in_time_order_witness :
  ∃ recs df,
    day_hourly_info "2024-01-01" first_of_january = OK recs
    ∧ format_multiple_days_hourly_precipitation (Some recs) = OK df
    ∧ has_column "datetime_sort" df = false
    ∧ (fun r : row => r !! "hora") <$> rows df
      = [Some (Str "00:00"); Some (Str "01:00")].
Proof.
  assert (is_ok (day_hourly_info "2024-01-01" first_of_january))
    as [recs Hrecs] by (eexists; vm_compute; reflexivity).
  pose proof (day_hourly_info_shaped _ _ _ Hrecs) as Hshaped.
  destruct (hourly_table_is_in_time_order recs)
    as (df & sorted & Hdf & Hcols & _ & _ & _).
  - intros ->. vm_compute in Hrecs. discriminate Hrecs.
  - eapply Forall_impl; [exact Hshaped|]. by intros rec [? _].
  - exists recs, df. split; [exact Hrecs|]. split; [exact Hdf|].
    split; [unfold has_column; rewrite Hcols; reflexivity|].
    assert (match day_hourly_info "2024-01-01" first_of_january with
            | OK recs =>
                match format_multiple_days_hourly_precipitation (Some recs) with
                | OK df => (fun r : row => r !! "hora") <$> rows df
                | Raise _ => []
                end
            | Raise _ => []
            end = [Some (Str "00:00"); Some (Str "01:00")]) as Hhours
      by (vm_compute; reflexivity).
    by rewrite Hrecs, Hdf in Hhours.
Defined.

(** ** The queries by day *)

(** Four days are asked for, two are answered. *)
Lemma historical_answers_in_day_order_witness :
  ∃ answers,
    get_historical_precipitation january "2023-12-31" "2024-01-03"
    = OK (Some answers)
    ∧ length answers = 2%nat
    ∧ get_historical_precipitation january "2024-01-03" "2023-12-31"
      = OK None
    ∧ get_historical_precipitation january "2024-01-03" "yesterday"
      = Raise ValueError.
Proof.
  destruct (historical_answers_in_day_order january "2023-12-31" "2024-01-03")
    as [Hanswers _].
  destruct (Hanswers 19722%Z 19725%Z) as (Hget & _ & _);
    [vm_compute; reflexivity..|].
  eexists. split; [rewrite Hget; vm_compute; reflexivity|].
  split; [reflexivity|]. split; vm_compute; reflexivity.
Defined.

(** The hours of two days, those of the first day first. *)
Lemma hourly_records_by_day_witness :
  ∃ recs,
    get_multiple_days_hourly_precipitation january "2023-12-31" "2024-01-03"
    = OK (Some recs)
    ∧ Forall hourly_shaped recs
    ∧ dict_get "datetime_sort" <$> recs
      = [Some (Some (Str "2024-01-01 01:00"));
         Some (Some (Str "2024-01-01 00:00"));
         Some (Some (Str "2024-01-02 00:00"))].
Proof.
  assert (∃ recs,
            get_multiple_days_hourly_precipitation january "2023-12-31"
              "2024-01-03" = OK (Some recs)) as [recs Hrecs]
    by (eexists; vm_compute; reflexivity).
  destruct (hourly_records_by_day _ _ _ _ Hrecs) as (_ & Hshaped & _).
  exists recs. split; [exact Hrecs|]. split; [exact Hshaped|].
  vm_compute in Hrecs. injection Hrecs as <-. reflexivity.
Defined.

(** One answer of the range lists its hours and lacks the location: the
    hours of the other day are not returned. *)
Lemma malformed_day_fails_the_hourly_query_witness :
  let history date :=
    if bool_decide (date = "2024-01-02") then Some without_location
    else january date in
  ∃ err, get_multiple_days_hourly_precipitation history "2024-01-01"
           "2024-01-02" = Raise err.
Proof.
  cbv zeta.
  apply (malformed_day_fails_the_hourly_query _ "2024-01-01" "2024-01-02"
           19723%Z 19724%Z 19724%Z without_location KeyError);
    [vm_compute; reflexivity|vm_compute; reflexivity|lia
    |vm_compute; reflexivity|vm_compute; reflexivity].
Defined.

(** ** The cycle *)

Lemma january_is_long_ago d :
  (19785 ≤ d ≤ 19792)%Z → january (strftime d) = None.
Proof.
  intros Hd.
  assert (d ∈ seqZ 19785 8) as Hin by (apply elem_of_seqZ; lia).
  vm_compute in Hin.
  repeat (apply elem_of_cons in Hin as [->|Hin]; [vm_compute; reflexivity|]).
  by apply elem_of_nil in Hin.
Qed.

(** Run on the tenth of March with a week of history, the cycle does not
    see what the provider would answer for the first days of January. *)
Lemma cycle_asks_for_its_days_witness :
  extraction_cycle silent noon ∅ 7 7 true filename backup
  = extraction_cycle long_ago noon ∅ 7 7 true filename backup.
Proof.
  apply (cycle_asks_for_its_days silent long_ago noon ∅ 7 7 true filename
           backup).
  - repeat constructor; vm_compute; reflexivity.
  - reflexivity.
  - reflexivity.
  - intros d Hd. simpl in *. symmetry. apply january_is_long_ago. lia.
  - intros _ d Hd. simpl in *. symmetry. apply january_is_long_ago. lia.
Defined.

(** No answer at all and no file yet: the cycle returns five empty tables
    and leaves nothing under either name. *)
Lemma cycle_without_answers_witness :
  extraction_cycle silent noon ∅ 7 7 true filename backup
  = OK (no_data, save_precipitation_data ∅ no_data filename backup)
  ∧ (save_precipitation_data ∅ no_data filename backup).1 = BackupFailed
  ∧ stored_table (save_precipitation_data ∅ no_data filename backup).2
      backup "Dados_Diarios" = None.
Proof.
  destruct (cycle_without_answers silent noon ∅ 7 7 true filename backup)
    as [Hcycle Hsave]; try (intros; reflexivity).
  { repeat constructor; eexists; vm_compute; reflexivity. }
  split; [exact Hcycle|].
  destruct (Hsave (lookup_empty _)) as [Hout Hfiles].
  split; [exact Hout|]. rewrite Hfiles. reflexivity.
Defined.

(** ** The sheets a save writes *)

(** The file holds a daily and an hourly sheet, the new dictionary the
    daily sheet alone: every sheet of the file that is written is the daily
    one. *)
Lemma written_sheets_are_fetched_sheets_witness :
  let fs : filesystem := {[ filename := workbook_of stored_sheets ]} in
  let saved :=
    save_precipitation_data fs [("Dados_Diarios", third_day)] filename backup in
  stored_table fs filename "Dados_Horarios" = Some morning
  ∧ saved.1 = Saved
  ∧ ∀ sheet_name df,
      stored_table saved.2 filename sheet_name = Some df →
      sheet_name = "Dados_Diarios" ∧ empty df = false.
Proof.
  cbv zeta. split; [vm_compute; reflexivity|].
  assert ((save_precipitation_data {[ filename := workbook_of stored_sheets ]}
             [("Dados_Diarios", third_day)] filename backup).1 = Saved)
    as Hout by (vm_compute; reflexivity).
  split; [exact Hout|]. intros sheet_name df Hstored.
  destruct (written_sheets_are_fetched_sheets
              {[ filename := workbook_of stored_sheets ]}
              [("Dados_Diarios", third_day)] filename backup sheet_name df)
    as [Hname Hempty].
  - apply NoDup_singleton.
  - rewrite Hout. discriminate.
  - rewrite Hout. exact Hstored.
  - split; [|exact Hempty]. by apply list_elem_of_singleton in Hname.
Defined.

(** The hour of a time text of the provider, and a time text that has no
    blank. *)
Lemma hour_is_second_part_of_time_witness :
  (∃ rec, hourly_info "2024-01-01" (hour_answer "2024-01-01 01:00" 1) = OK rec
          ∧ dict_get "hora" rec = Some (Some (Str "01:00")))
  ∧ hourly_info "2024-01-01" (hour_answer "2024-01-01T01:00" 1)
    = Raise IndexError.
Proof.
  split.
  - assert (is_ok (hourly_info "2024-01-01"
                     (hour_answer "2024-01-01 01:00" 1))) as [rec Hrec]
      by (eexists; vm_compute; reflexivity).
    exists rec. split; [exact Hrec|].
    destruct (hour_is_second_part_of_time "2024-01-01"
                (hour_answer "2024-01-01 01:00" 1)
                (JStr "2024-01-01 01:00") eq_refl) as (_ & _ & _ & Hhora).
    destruct (Hhora rec Hrec) as (hora & Hpart & Hcell & _).
    vm_compute in Hpart. injection Hpart as <-. exact Hcell.
  - destruct (hour_is_second_part_of_time "2024-01-01"
                (hour_answer "2024-01-01T01:00" 1)
                (JStr "2024-01-01T01:00") eq_refl) as (_ & _ & Hraise & _).
    apply Hraise. apply (bool_decide_unpack _). vm_compute. reflexivity.
Defined.

(** A rainy hour and a dry one are saved: the rain sheet has the rainy
    hour alone. *)
Lemma sheets_of_a_save_belong_together_witness :
  let new_data := [hourly_record "2024-01-02" "10:00:00" 2 true;
                   hourly_record "2024-01-02" "11:00:00" 0 false] in
  let saved := save_to_excel ∅ accu_file new_data in
  saved.1 = OK true
  ∧ ∃ df, stored_table saved.2 accu_file "Dados_Completos" = Some df
          ∧ length (rows df) = 2%nat
          ∧ stored_table saved.2 accu_file "Com_Precipitacao"
            = Some (with_precipitation df)
          ∧ length (rows (with_precipitation df)) = 1%nat.
Proof.
  cbv zeta.
  set (new_data := [hourly_record "2024-01-02" "10:00:00" 2 true;
                    hourly_record "2024-01-02" "11:00:00" 0 false]).
  assert ((save_to_excel ∅ accu_file new_data).1 = OK true) as Hsave
    by (vm_compute; reflexivity).
  split; [exact Hsave|]. apply pair_eta_fst in Hsave.
  destruct (sheets_of_a_save_belong_together _ _ _ _ Hsave)
    as (df & stats & Hmain & _ & Hrain & _ & _ & _).
  exists df. split; [exact Hmain|].
  assert (match stored_table (save_to_excel ∅ accu_file new_data).2 accu_file
                  "Dados_Completos" with
          | Some df => (length (rows df), length (rows (with_precipitation df)),
                        empty (with_precipitation df))
          | None => (0, 0, true)%nat
          end = (2, 1, false)%nat) as Hcount by (vm_compute; reflexivity).
  rewrite Hmain in Hcount. injection Hcount as Hall Hrainy Hempty.
  split; [exact Hall|]. rewrite Hrain, Hempty. split; [reflexivity|exact Hrainy].
Defined.
